(** * Cost-estimation pipeline of the trade simulator

    A shallow embedding of the order book ([src/data/orderbook.py]), the fee
    table ([src/models/fee_model.py]), the slippage and maker/taker
    estimators, the Almgren-Chriss model ([src/models/market_impact.py]) and
    the simulator ([src/models/simulator.py]).

    Numbers.  A Python [float] is read as a real number and arithmetic is
    exact, so rounding and overflow are outside the model.  What is kept is
    every place where an operation has no real result: a zero divisor, a
    square root or logarithm outside its domain, a missing dictionary key, an
    unparsable literal.  Where Python raises, the run ends with a [fault].
    Where NumPy carries on with inf or nan there are two cases.  In a
    function whose own result is that value (the execution schedule, the
    slippage heuristic) the fault stands for the non-finite result.  Where
    the code computes on and what it returns depends on how (the clamp of the
    maker/taker heuristic, the dictionary of the simulator), the value is
    kept as a [Np.number]. *)

From Stdlib Require Import Reals Lra Lia ZArith String Ascii.
From stdpp Require Import base decidable option list sorting gmap strings.

Local Open Scope R_scope.

(** ** Faults and the outcome monad *)

(** [ZeroDivision]: Python raises ZeroDivisionError on float operands, NumPy
    yields inf or nan and a RuntimeWarning on float64 operands; either way
    there is no real quotient.  [InvalidValue]: NumPy's nan (or -inf) for a
    square root or logarithm outside its domain.  The others are the Python
    exceptions of the same name. *)
Inductive fault : Type :=
  | ZeroDivision
  | InvalidValue
  | KeyError (key : string)
  | ValueError (msg : string)
  | AttributeError (msg : string)
  | NotFittedError.

Inductive outcome (A : Type) : Type :=
  | Return (a : A)
  | Raise (e : fault).
Arguments Return {A} a.
Arguments Raise {A} e.

#[global] Instance outcome_ret : MRet outcome := fun A a => Return a.
#[global] Instance outcome_bind : MBind outcome := fun A B f c =>
  match c with
  | Return a => f a
  | Raise e => Raise e
  end.

(** ** Decidable comparisons on the reals, as the code's [==], [<=], [<], [>] *)

#[global] Instance R_eq_dec : EqDecision R := Req_dec_T.
#[global] Instance Rle_decision (x y : R) : Decision (x <= y) := Rle_dec x y.
#[global] Instance Rlt_decision (x y : R) : Decision (x < y) := Rlt_dec x y.
#[global] Instance Rge_decision (x y : R) : Decision (x >= y) := Rge_dec x y.
#[global] Instance Rgt_decision (x y : R) : Decision (x > y) := Rgt_dec x y.
#[global] Instance R_inhabited : Inhabited R := populate 0.

(** Settles the comparisons of concrete reals in the goal. *)
Ltac decide_R :=
  repeat (first [case_decide | case_bool_decide]; try lra; simpl).

(** ** Float primitives *)

(** [x / y] *)
Definition fdiv (x y : R) : outcome R :=
  if decide (y = 0) then Raise ZeroDivision else Return (x / y).

(** [np.sqrt(x)] *)
Definition np_sqrt (x : R) : outcome R :=
  if decide (x < 0) then Raise InvalidValue else Return (sqrt x).

(** [np.log1p(x)] *)
Definition np_log1p (x : R) : outcome R :=
  if decide (-1 < x) then Return (ln (1 + x)) else Raise InvalidValue.

(** ** Numbers that need not be finite

    A real, an infinity or nan, with the arithmetic of float64 scalars on
    them: no operation raises, a zero divisor gives an infinity or nan, and
    every comparison with nan is false.  Signed zeros are not kept apart. *)

Module Np.

Inductive number : Type :=
  | Finite (r : R)
  | PosInf
  | NegInf
  | NaN.

(** The infinity of the sign of [r]; nan when [r] is 0. *)
Definition signed_inf (r : R) : number :=
  if decide (0 < r) then PosInf else if decide (r < 0) then NegInf else NaN.

Definition neg (x : number) : number :=
  match x with
  | Finite r => Finite (- r)
  | PosInf => NegInf
  | NegInf => PosInf
  | NaN => NaN
  end.

Definition add (x y : number) : number :=
  match x, y with
  | Finite a, Finite b => Finite (a + b)
  | NaN, _ | _, NaN => NaN
  | PosInf, NegInf | NegInf, PosInf => NaN
  | PosInf, _ | _, PosInf => PosInf
  | NegInf, _ | _, NegInf => NegInf
  end.

Definition sub (x y : number) : number := add x (neg y).

Definition mul (x y : number) : number :=
  match x, y with
  | Finite a, Finite b => Finite (a * b)
  | NaN, _ | _, NaN => NaN
  | Finite a, PosInf | PosInf, Finite a => signed_inf a
  | Finite a, NegInf | NegInf, Finite a => signed_inf (- a)
  | PosInf, PosInf | NegInf, NegInf => PosInf
  | PosInf, NegInf | NegInf, PosInf => NegInf
  end.

Definition div (x y : number) : number :=
  match x, y with
  | Finite a, Finite b => if decide (b = 0) then signed_inf a else Finite (a / b)
  | NaN, _ | _, NaN => NaN
  | Finite _, _ => Finite 0
  | PosInf, Finite b => if decide (b < 0) then NegInf else PosInf
  | NegInf, Finite b => if decide (b < 0) then PosInf else NegInf
  | _, _ => NaN
  end.

(** [x < y] and [x > y] *)
Definition lt (x y : number) : bool :=
  match x, y with
  | NaN, _ | _, NaN => false
  | Finite a, Finite b => bool_decide (a < b)
  | _, NegInf => false
  | NegInf, _ => true
  | PosInf, _ => false
  | Finite _, PosInf => true
  end.

Definition gt (x y : number) : bool := lt y x.

(** Python's [min(a, b)] and [max(a, b)]: [a] unless [b] is strictly
    smaller (larger), so a nan in second place is dropped. *)
Definition py_min (a b : number) : number := if lt b a then b else a.
Definition py_max (a b : number) : number := if gt b a then b else a.

(** [np.log1p(x)] with its value kept: -inf at -1, nan below. *)
Definition log1p (x : R) : number :=
  if decide (-1 < x) then Finite (ln (1 + x))
  else if decide (x = -1) then NegInf else NaN.

Definition is_finite (x : number) : bool :=
  match x with
  | Finite _ => true
  | _ => false
  end.

(** A number as the result of a function: the real, or the fault that
    stands for a value that is not finite. *)
Definition finite (x : number) : outcome R :=
  match x with
  | Finite r => Return r
  | _ => Raise InvalidValue
  end.

End Np.

(** [int(x)]: truncation towards zero. *)
Definition py_int (x : R) : Z :=
  if decide (0 <= x) then Int_part x else (- Int_part (- x))%Z.

(** [sum(xs)]: left to right from 0. *)
Definition py_sum (xs : list R) : R := foldl Rplus 0 xs.

(** [d[k]] on a dictionary. *)
Definition subscript {V} (d : gmap string V) (k : string) : outcome V :=
  match d !! k with
  | Some v => Return v
  | None => Raise (KeyError k)
  end.

(** [l[:k]] and [l[-k:]] on a list. *)
Definition slice_to {A} (k : Z) (l : list A) : list A :=
  if decide (0 <= k)%Z then take (Z.to_nat k) l
  else take (length l - Z.to_nat (- k)) l.

Definition slice_last {A} (k : nat) (l : list A) : list A :=
  drop (length l - k) l.

(** [s.lower()] on ASCII text. *)
Definition lower_ascii (c : ascii) : ascii :=
  let n := nat_of_ascii c in
  if decide (65 <= n <= 90)%nat then ascii_of_nat (n + 32) else c.

Fixpoint lower (s : string) : string :=
  match s with
  | EmptyString => EmptyString
  | String c s' => String (lower_ascii c) (lower s')
  end.

(** [for i in range(lo, hi): s = body(i, s)] *)
Definition for_range {S : Type} (lo hi : nat) (body : nat -> S -> S) (s : S) : S :=
  foldl (fun s i => body i s) s (seq lo (hi - lo)).

(** The same loop with a body that can fault; the first fault ends it. *)
Definition for_range_m {S : Type} (lo hi : nat) (body : nat -> S -> outcome S) (s : S)
  : outcome S :=
  foldl (fun acc i => s ← acc; body i s) (Return s) (seq lo (hi - lo)).

(** [np.linspace(start, stop, num)]: [num] evenly spaced samples, the last
    one set to [stop]. *)
Definition linspace (start stop : R) (num : nat) : list R :=
  let div := (num - 1)%nat in
  let step := if decide (0 < div)%nat then (stop - start) / INR div else stop - start in
  let y := (fun i => INR i * step + start) <$> seq 0 num in
  if decide (1 < num)%nat then <[(num - 1)%nat := stop]> y else y.

(** ** The order book *)

Module Orderbook.

(** One price level, [[price, quantity]]. *)
Abbreviation level := (R * R)%type.

Record t : Type := mk {
  max_depth : Z;
  asks : list level;
  bids : list level;
  timestamp : option string;
  exchange : option string;
  symbol : option string;
  last_update_time : R;
  processing_times : list R
}.

(** [Orderbook(max_depth)] *)
Definition init (max_depth : Z) : t :=
  mk max_depth [] [] None None None 0 [].

(** The snapshot dictionary handed to [update]; an absent key is [None]. *)
Record snapshot : Type := mk_snapshot {
  snap_timestamp : option string;
  snap_exchange : option string;
  snap_symbol : option string;
  snap_asks : option (list (string * string));
  snap_bids : option (list (string * string))
}.

(** Neighbouring levels of a side: asks ascend, bids descend, ties allowed. *)
Definition asc : relation level := fun x y => x.1 <= y.1.
Definition desc : relation level := fun x y => x.1 >= y.1.

(** [sorted(levels, key=lambda x: x[0])]: a stable sort; an element goes
    in front of the first one whose key is not smaller. *)
Fixpoint insert_asc (x : level) (l : list level) : list level :=
  match l with
  | [] => [x]
  | y :: l' => if decide (x.1 <= y.1) then x :: y :: l' else y :: insert_asc x l'
  end.

Definition sorted_asc (l : list level) : list level := foldr insert_asc [] l.

(** [sorted(levels, key=lambda x: x[0], reverse=True)]: stable as well. *)
Fixpoint insert_desc (x : level) (l : list level) : list level :=
  match l with
  | [] => [x]
  | y :: l' => if decide (x.1 >= y.1) then x :: y :: l' else y :: insert_desc x l'
  end.

Definition sorted_desc (l : list level) : list level := foldr insert_desc [] l.

Section Update.
(** Python's [float] on text: [None] stands for its ValueError. *)
Variable float : string -> option R.

Definition to_float (s : string) : outcome R :=
  match float s with
  | Some x => Return x
  | None => Raise (ValueError s)
  end.

(** [[[float(price), float(qty)] for price, qty in raw]] *)
Fixpoint parse_levels (raw : list (string * string)) : outcome (list level) :=
  match raw with
  | [] => Return []
  | (price, qty) :: raw' =>
      p ← to_float price;
      q ← to_float qty;
      rest ← parse_levels raw';
      Return ((p, q) :: rest)
  end.

(** [update(data)].  [start_time] and [end_time] are the two readings of
    [time.time()].  The result is the book after the call and the
    returned latency or the exception raised. *)
Definition update (ob : t) (data : snapshot) (start_time end_time : R)
  : t * outcome R :=
  let ob1 := mk (max_depth ob) (asks ob) (bids ob)
                (snap_timestamp data) (snap_exchange data) (snap_symbol data)
                (last_update_time ob) (processing_times ob) in
  match parse_levels (default [] (snap_asks data)) with
  | Raise e => (ob1, Raise e)
  | Return new_asks =>
      match parse_levels (default [] (snap_bids data)) with
      | Raise e => (ob1, Raise e)
      | Return new_bids =>
          let processing_time := (end_time - start_time) * 1000 in
          let times := processing_times ob ++ [processing_time] in
          let times :=
            if decide (1000 < length times)%nat then slice_last 1000 times
            else times in
          (mk (max_depth ob)
              (slice_to (max_depth ob) (sorted_asc new_asks))
              (slice_to (max_depth ob) (sorted_desc new_bids))
              (snap_timestamp data) (snap_exchange data) (snap_symbol data)
              end_time times,
           Return processing_time)
      end
  end.
End Update.

(** [not self.asks or not self.bids] *)
Definition side_empty (ob : t) : bool :=
  match asks ob, bids ob with
  | _ :: _, _ :: _ => false
  | _, _ => true
  end.

Definition get_mid_price (ob : t) : option R :=
  match asks ob, bids ob with
  | (best_ask, _) :: _, (best_bid, _) :: _ => Some ((best_ask + best_bid) / 2)
  | _, _ => None
  end.

Definition get_spread (ob : t) : option R :=
  match asks ob, bids ob with
  | (best_ask, _) :: _, (best_bid, _) :: _ => Some (best_ask - best_bid)
  | _, _ => None
  end.

Definition get_spread_percentage (ob : t) : option R :=
  match get_spread ob, get_mid_price ob with
  | Some spread, Some mid_price =>
      if decide (mid_price = 0) then None else Some (spread / mid_price * 100)
  | _, _ => None
  end.

(** The first level whose price is within 1e-8 of [price]. *)
Fixpoint volume_at (levels : list level) (price : R) : R :=
  match levels with
  | [] => 0
  | (p, q) :: rest =>
      if decide (Rabs (p - price) < 1 / 10 ^ 8) then q else volume_at rest price
  end.

Definition get_volume_at_price (ob : t) (side : string) (price : R) : R :=
  if decide (lower side = "ask") then volume_at (asks ob) price
  else if decide (lower side = "bid") then volume_at (bids ob) price
  else 0.

(** The loop of [get_volume_up_to_price]: add quantities while the level
    passes the test, stop at the first level that fails it. *)
Fixpoint volume_while (keep : R -> bool) (levels : list level) (volume : R) : R :=
  match levels with
  | [] => volume
  | (p, q) :: rest =>
      if keep p then volume_while keep rest (volume + q) else volume
  end.

Definition get_volume_up_to_price (ob : t) (side : string) (price : R) : R :=
  if decide (lower side = "ask")
  then volume_while (fun p => bool_decide (p <= price)) (asks ob) 0
  else if decide (lower side = "bid")
  then volume_while (fun p => bool_decide (p >= price)) (bids ob) 0
  else 0.

(** The loop of [get_price_for_volume]. *)
Fixpoint price_walk (levels : list level) (remaining_volume : R) : option R :=
  match levels with
  | [] => None
  | (p, q) :: rest =>
      let remaining_volume := remaining_volume - q in
      if decide (remaining_volume <= 0) then Some p
      else price_walk rest remaining_volume
  end.

Definition get_price_for_volume (ob : t) (side : string) (volume : R) : option R :=
  if decide (lower side = "ask") then price_walk (asks ob) volume
  else if decide (lower side = "bid") then price_walk (bids ob) volume
  else None.

Definition get_orderbook_imbalance (ob : t) : option R :=
  if side_empty ob then None
  else
    let bid_volume := py_sum (bids ob).*2 in
    let ask_volume := py_sum (asks ob).*2 in
    if decide (bid_volume + ask_volume = 0) then Some 0
    else Some ((bid_volume - ask_volume) / (bid_volume + ask_volume)).

Definition get_average_processing_time (ob : t) : R :=
  match processing_times ob with
  | [] => 0
  | ts => py_sum ts / INR (length ts)
  end.

(** A snapshot whose levels already are floats, with all five keys present,
    as the WebSocket client hands it on. *)
Record parsed_snapshot : Type := mk_parsed {
  parsed_timestamp : string;
  parsed_exchange : string;
  parsed_symbol : string;
  parsed_asks : list level;
  parsed_bids : list level
}.

(** [update(data)] on such a snapshot: [float] of a float is that float, so
    the two comprehensions copy the levels and nothing raises. *)
Definition update_parsed (ob : t) (data : parsed_snapshot) (start_time end_time : R)
  : t * R :=
  let processing_time := (end_time - start_time) * 1000 in
  let times := processing_times ob ++ [processing_time] in
  let times :=
    if decide (1000 < length times)%nat then slice_last 1000 times else times in
  (mk (max_depth ob)
      (slice_to (max_depth ob) (sorted_asc (parsed_asks data)))
      (slice_to (max_depth ob) (sorted_desc (parsed_bids data)))
      (Some (parsed_timestamp data)) (Some (parsed_exchange data))
      (Some (parsed_symbol data))
      end_time times,
   processing_time).

(** The levels a side name selects, the volume consumed by the first [k] of
    them, and "strictly nearer the touch" on that side. *)
Definition side_levels (ob : t) (side : string) : list level :=
  if decide (lower side = "ask") then asks ob
  else if decide (lower side = "bid") then bids ob
  else [].

Definition consumed (levels : list level) (k : nat) : R := py_sum (take k levels).*2.

Definition nearer (side : string) (p p' : R) : Prop :=
  if decide (lower side = "ask") then p < p' else p > p'.

(** The level that the two texts of a snapshot entry stand for, if [float]
    accepts both. *)
Definition read_level (float : string -> option R) (text : string * string)
  : option level :=
  x ← float text.1; y ← float text.2; Some (x, y).

End Orderbook.

(** ** The fee table *)

Module FeeModel.

(** exchange -> market type -> order type -> tier -> rate *)
Record t : Type := mk {
  fee_tiers : gmap string (gmap string (gmap string (gmap string R)))
}.

Definition okx_spot_maker : gmap string R :=
  <["VIP0" := 0.0010]> (<["VIP1" := 0.0008]> (<["VIP2" := 0.0006]>
  (<["VIP3" := 0.0004]> (<["VIP4" := 0.0002]> (<["VIP5" := 0.0000]> ∅))))).

Definition okx_spot_taker : gmap string R :=
  <["VIP0" := 0.0015]> (<["VIP1" := 0.0010]> (<["VIP2" := 0.0008]>
  (<["VIP3" := 0.0005]> (<["VIP4" := 0.0003]> (<["VIP5" := 0.0001]> ∅))))).

Definition okx_futures_maker : gmap string R :=
  <["VIP0" := 0.0002]> (<["VIP1" := 0.0001]> (<["VIP2" := 0.0000]>
  (<["VIP3" := -0.0001]> (<["VIP4" := -0.0002]> (<["VIP5" := -0.0003]> ∅))))).

Definition okx_futures_taker : gmap string R :=
  <["VIP0" := 0.0005]> (<["VIP1" := 0.0004]> (<["VIP2" := 0.0003]>
  (<["VIP3" := 0.0002]> (<["VIP4" := 0.0001]> (<["VIP5" := 0.0000]> ∅))))).

(** [FeeModel()] *)
Definition init : t :=
  mk (<["OKX" :=
        <["spot" := <["maker" := okx_spot_maker]> (<["taker" := okx_spot_taker]> ∅)]>
        (<["futures" :=
            <["maker" := okx_futures_maker]> (<["taker" := okx_futures_taker]> ∅)]> ∅)]> ∅).

Definition get_fee_rate (fm : t) (exchange market_type fee_tier : string)
    (is_maker : bool) : outcome R :=
  let exchange :=
    if decide (is_Some (fee_tiers fm !! exchange)) then exchange else "OKX" in
  by_market ← subscript (fee_tiers fm) exchange;
  let market_type :=
    if decide (is_Some (by_market !! market_type)) then market_type else "spot" in
  let order_type := if is_maker then "maker" else "taker" in
  by_order ← subscript by_market market_type;
  by_tier ← subscript by_order order_type;
  let fee_tier :=
    if decide (is_Some (by_tier !! fee_tier)) then fee_tier else "VIP0" in
  subscript by_tier fee_tier.

(** The dictionary returned by [calculate_fee]. *)
Record fees : Type := mk_fees {
  maker_fee : R;
  taker_fee : R;
  total_fee : R;
  effective_rate : R
}.

Definition calculate_fee (fm : t) (order_value : R)
    (exchange market_type fee_tier : string) (maker_proportion : R) : outcome fees :=
  maker_rate ← get_fee_rate fm exchange market_type fee_tier true;
  taker_rate ← get_fee_rate fm exchange market_type fee_tier false;
  let maker_value := order_value * maker_proportion in
  let taker_value := order_value * (1 - maker_proportion) in
  let maker_fee := maker_value * maker_rate in
  let taker_fee := taker_value * taker_rate in
  let total_fee := maker_fee + taker_fee in
  Return (mk_fees maker_fee taker_fee total_fee
            (if decide (order_value > 0) then total_fee / order_value else 0)).

Definition add_exchange_fee_tiers (fm : t) (exchange : string)
    (tiers : gmap string (gmap string (gmap string R))) : t :=
  mk (<[exchange := tiers]> (fee_tiers fm)).

(** [get_available_exchanges] and [get_available_fee_tiers] list the keys
    of a dictionary.  Python lists them in the order of insertion, which a
    map does not record; the result is the set of the names listed, each of
    them listed once. *)
Definition get_available_exchanges (fm : t) : gset string :=
  dom (fee_tiers fm).

(** The keys of the maker bucket. *)
Definition get_available_fee_tiers (fm : t) (exchange market_type : string)
  : outcome (gset string) :=
  match fee_tiers fm !! exchange with
  | None => Return ∅
  | Some by_market =>
      match by_market !! market_type with
      | None => Return ∅
      | Some by_order =>
          by_tier ← subscript by_order "maker";
          Return (dom by_tier)
      end
  end.

(** The key a lookup settles on: the one asked for when present, else the
    fallback. *)
Definition resolve {V} (d : gmap string V) (k fallback : string) : string :=
  if decide (is_Some (d !! k)) then k else fallback.

(** A table in which every fallback lands: OKX is listed, every exchange
    has a spot market, every market has both order types and each of these
    has the VIP0 tier. *)
Definition complete_market (by_order : gmap string (gmap string R)) : Prop :=
  forall order_type, order_type = "maker" \/ order_type = "taker" ->
    exists by_tier, by_order !! order_type = Some by_tier /\ is_Some (by_tier !! "VIP0").

Definition complete_exchange (by_market : gmap string (gmap string (gmap string R))) : Prop :=
  is_Some (by_market !! "spot") /\
  forall market_type by_order,
    by_market !! market_type = Some by_order -> complete_market by_order.

Definition complete (fm : t) : Prop :=
  is_Some (fee_tiers fm !! "OKX") /\
  forall exchange by_market,
    fee_tiers fm !! exchange = Some by_market -> complete_exchange by_market.

End FeeModel.

(** ** scikit-learn

    The estimators are fitted by scikit-learn, which is outside the
    repository.  A fitted object is recorded by what it was built from; what
    it predicts is left to an interpretation [predictors]. *)

Module Sklearn.

Inductive estimator : Type :=
  | LinearRegression
  | QuantileRegressor (quantile alpha : R)
  | LogisticRegression (max_iter : nat).

(** What a returning [fit(X_scaled, y)] stores in an estimator, [X_scaled]
    being the standardisation of the rows [fit_X]. *)
Record fitted : Type := mk_fitted {
  kind : estimator;
  fit_X : list (list R);
  fit_y : list R
}.

(** An estimator object: as constructed, or after a [fit] that returned. *)
Inductive object : Type :=
  | Untrained (kind : estimator)
  | Trained (f : fitted).

(** [model.predict(scaler.transform(X))[0]] and
    [model.predict_proba(scaler.transform(X))[0, 1]] on one feature row, for
    a scaler fitted on the rows given first and a trained estimator. *)
Record predictors : Type := mk_predictors {
  predict : list (list R) -> fitted -> list R -> R;
  predict_proba : list (list R) -> fitted -> list R -> R
}.

(** An interpretation that predicts constants, for runs in which no fitted
    object is consulted. *)
Definition constant_predictors : predictors :=
  mk_predictors (fun _ _ _ => 0) (fun _ _ _ => 0.5).

End Sklearn.

(** ** The slippage estimator *)

Module SlippageModel.

Record t : Type := mk {
  regression_type : string;
  quantile : R;
  model : option Sklearn.object;
  scaler : option (list (list R));
  is_fitted : bool
}.

(** [SlippageModel(regression_type, quantile)] *)
Definition init (regression_type : string) (quantile : R) : t :=
  mk regression_type quantile None None false.

(** [fit(X, y)]: the model after the call and how the call ended.
    [sklearn] is how [self.model.fit(X_scaled, y)] ends, which scikit-learn
    decides: when it raises, [self.model] already is the new regressor, which
    was never trained, and [is_fitted] is left as it was.  The scaler's
    [fit_transform] is taken to return. *)
Definition fit_with (sklearn : outcome unit) (m : t) (X : list (list R)) (y : list R)
  : t * outcome unit :=
  if decide (length X < 10)%nat then (m, Return ())
  else
    let m1 := mk (regression_type m) (quantile m) (model m) (Some X) (is_fitted m) in
    let train (kind : Sklearn.estimator) :=
      match sklearn with
      | Return _ =>
          (mk (regression_type m) (quantile m)
              (Some (Sklearn.Trained (Sklearn.mk_fitted kind X y))) (Some X) true,
           Return ())
      | Raise e =>
          (mk (regression_type m) (quantile m)
              (Some (Sklearn.Untrained kind)) (Some X) (is_fitted m),
           Raise e)
      end in
    if decide (regression_type m = "linear") then train Sklearn.LinearRegression
    else if decide (regression_type m = "quantile") then
      train (Sklearn.QuantileRegressor (quantile m) 0.5)
    else
      (m1, Raise (ValueError ("Unknown regression type: " +:+ regression_type m))).

(** [fit(X, y)] when scikit-learn's [fit] returns. *)
Definition fit (m : t) (X : list (list R)) (y : list R) : t * outcome unit :=
  fit_with (Return ()) m X y.

(** [predict(X)[0]] on one feature row. *)
Definition predict (sk : Sklearn.predictors) (m : t) (features : list R) : outcome R :=
  if negb (is_fitted m) then Return 0
  else
    match scaler m with
    | None => Raise NotFittedError
    | Some rows =>
        match model m with
        | None => Raise (AttributeError "predict")
        | Some (Sklearn.Untrained _) => Raise NotFittedError
        | Some (Sklearn.Trained f) => Return (Sklearn.predict sk rows f features)
        end
    end.

Definition _estimate_slippage_fallback
    (order_size spread volatility orderbook_imbalance : R) : outcome R :=
  let base_slippage := spread * 0.5 in
  log_size ← np_log1p order_size;
  let size_factor := log_size * 0.1 in
  let vol_factor := volatility * 2.0 in
  let imbalance_factor := - orderbook_imbalance * spread * 0.3 in
  Return (base_slippage + size_factor + vol_factor + imbalance_factor).

Definition estimate_slippage (sk : Sklearn.predictors) (m : t)
    (order_size spread volatility orderbook_imbalance : R) : outcome R :=
  if negb (is_fitted m) then
    _estimate_slippage_fallback order_size spread volatility orderbook_imbalance
  else
    predict sk m [order_size; spread; volatility; orderbook_imbalance].

(** The same two functions with the value kept when it is not finite, as
    the simulator goes on with it: a float64 scalar from the heuristic, a
    Python float from [float(self.predict(X)[0])]. *)
Definition _estimate_slippage_fallback_value
    (order_size spread volatility orderbook_imbalance : R) : Np.number :=
  let base_slippage := Np.Finite (spread * 0.5) in
  let size_factor := Np.mul (Np.log1p order_size) (Np.Finite 0.1) in
  let vol_factor := Np.Finite (volatility * 2.0) in
  let imbalance_factor := Np.Finite (- orderbook_imbalance * spread * 0.3) in
  Np.add (Np.add (Np.add base_slippage size_factor) vol_factor) imbalance_factor.

Definition estimate_slippage_value (sk : Sklearn.predictors) (m : t)
    (order_size spread volatility orderbook_imbalance : R) : outcome Np.number :=
  if negb (is_fitted m) then
    Return (_estimate_slippage_fallback_value order_size spread volatility
              orderbook_imbalance)
  else
    prediction ← predict sk m [order_size; spread; volatility; orderbook_imbalance];
    Return (Np.Finite prediction).

(** The models built by the constructor and passed through calls of [fit],
    however these ended. *)
Inductive reachable : t -> Prop :=
  | reachable_init (regression_type : string) (quantile : R) :
      reachable (init regression_type quantile)
  | reachable_fit (sklearn : outcome unit) (m : t) (X : list (list R)) (y : list R) :
      reachable m -> reachable (fit_with sklearn m X y).1.

(** Those on which scikit-learn's [fit] has returned each time it was
    called. *)
Inductive trained_without_failure : t -> Prop :=
  | trained_init (regression_type : string) (quantile : R) :
      trained_without_failure (init regression_type quantile)
  | trained_fit (m : t) (X : list (list R)) (y : list R) :
      trained_without_failure m -> trained_without_failure (fit m X y).1.

End SlippageModel.

(** ** The maker/taker estimator *)

Module MakerTakerModel.

Record t : Type := mk {
  model : Sklearn.object;
  scaler : option (list (list R));
  is_fitted : bool
}.

(** [MakerTakerModel()] *)
Definition init : t :=
  mk (Sklearn.Untrained (Sklearn.LogisticRegression 1000)) None false.

(** The configuration of an estimator object. *)
Definition kind_of (o : Sklearn.object) : Sklearn.estimator :=
  match o with
  | Sklearn.Untrained kind => kind
  | Sklearn.Trained f => Sklearn.kind f
  end.

(** [fit(X, y)]: the model after the call and how the call ended.
    [sklearn] is how [self.model.fit(X_scaled, y)] ends, which scikit-learn
    decides: when it raises, [is_fitted] is left as it was, the scaler has
    been fitted, and the classifier keeps what its last returning [fit]
    stored.  The scaler's [fit_transform] is taken to return. *)
Definition fit (sklearn : outcome unit) (m : t) (X : list (list R)) (y : list R)
  : t * outcome unit :=
  if decide (length X < 10)%nat then (m, Return ())
  else
    match sklearn with
    | Return _ =>
        (mk (Sklearn.Trained (Sklearn.mk_fitted (kind_of (model m)) X y)) (Some X) true,
         Return ())
    | Raise e => (mk (model m) (Some X) (is_fitted m), Raise e)
    end.

(** [predict_proba(X)[0]] on one feature row. *)
Definition predict_proba (sk : Sklearn.predictors) (m : t) (features : list R)
  : outcome R :=
  if negb (is_fitted m) then Return 0.5
  else
    match scaler m with
    | None => Raise NotFittedError
    | Some rows =>
        match model m with
        | Sklearn.Untrained _ => Raise NotFittedError
        | Sklearn.Trained f => Return (Sklearn.predict_proba sk rows f features)
        end
    end.

(** The heuristic.  At an order size of -1 or below [np.log1p] is -inf or
    nan and the code computes on; [max(0.0, min(1.0, .))] ends it. *)
Definition _estimate_maker_proportion_fallback
    (order_size spread volatility orderbook_imbalance : R) : outcome R :=
  let base_proportion := Np.Finite 0.5 in
  let size_factor :=
    Np.div (Np.mul (Np.Finite (- 0.1)) (Np.log1p order_size)) (Np.Finite 10.0) in
  let spread_factor := Np.Finite (0.1 * tanh spread) in
  let vol_factor := Np.Finite (- 0.2 * volatility) in
  let imbalance_factor := Np.Finite (0.1 * orderbook_imbalance) in
  let maker_proportion :=
    Np.add (Np.add (Np.add (Np.add base_proportion size_factor) spread_factor)
              vol_factor) imbalance_factor in
  Np.finite (Np.py_max (Np.Finite 0.0) (Np.py_min (Np.Finite 1.0) maker_proportion)).

Definition estimate_maker_proportion (sk : Sklearn.predictors) (m : t)
    (order_size spread volatility orderbook_imbalance : R) : outcome R :=
  if negb (is_fitted m) then
    _estimate_maker_proportion_fallback order_size spread volatility orderbook_imbalance
  else
    predict_proba sk m [order_size; spread; volatility; orderbook_imbalance].

(** The models a program can hold: [MakerTakerModel()] after any number of
    calls of [fit], however these ended. *)
Inductive reachable : t -> Prop :=
  | reachable_init : reachable init
  | reachable_fit (sklearn : outcome unit) (m : t) (X : list (list R)) (y : list R) :
      reachable m -> reachable (fit sklearn m X y).1.

End MakerTakerModel.

(** ** The Almgren-Chriss model *)

Module AlmgrenChrissModel.

Record t : Type := mk {
  temporary_impact_factor : R;
  permanent_impact_factor : R;
  market_vol_factor : R;
  risk_aversion : R
}.

(** [AlmgrenChrissModel()] *)
Definition init : t := mk 0.1 0.01 0.5 0.001.

(** The dictionary returned by [calculate_market_impact]. *)
Record impact : Type := mk_impact {
  temporary_impact : R;
  permanent_impact : R;
  execution_risk : R;
  total_impact : R
}.

Definition calculate_market_impact (m : t)
    (order_size avg_daily_volume volatility mid_price orderbook_depth execution_time : R)
  : outcome impact :=
  normalized_size ←
    (if decide (avg_daily_volume > 0) then fdiv order_size avg_daily_volume
     else Return 0);
  trading_rate ← fdiv order_size execution_time;
  size_scaling ←
    (if decide (normalized_size > 0) then np_sqrt normalized_size else Return 1.0);
  let temporary_impact :=
    temporary_impact_factor m * mid_price * trading_rate * size_scaling *
    (1 + market_vol_factor m * volatility) in
  let permanent_impact := permanent_impact_factor m * mid_price * order_size in
  let execution_risk :=
    0.5 * risk_aversion m * volatility ^ 2 * execution_time * order_size ^ 2 in
  depth_adjustment ←
    (if decide (orderbook_depth > 0) then
       depth_ratio ← fdiv order_size orderbook_depth;
       Return (1.0 + tanh depth_ratio)
     else Return 1.0);
  let temporary_impact := temporary_impact * depth_adjustment in
  let total_impact := temporary_impact + permanent_impact + execution_risk in
  Return (mk_impact temporary_impact permanent_impact execution_risk total_impact).

(** Whether [temporary_impact] is a NumPy float64 rather than a Python
    float, the arguments being Python floats: it is one once [np.sqrt] or
    [np.tanh] has entered the product. *)
Definition temporary_impact_is_float64 (order_size avg_daily_volume orderbook_depth : R)
  : bool :=
  let normalized_size :=
    if decide (avg_daily_volume > 0) then order_size / avg_daily_volume else 0 in
  bool_decide (normalized_size > 0) || bool_decide (orderbook_depth > 0).

(** The number of slices [max(int(time_horizon * 4), 2)], the decay rate
    [sqrt(alpha * gamma)] and the closed-form inventory left at time [t]. *)
Definition intervals (time_horizon : R) : nat :=
  Z.to_nat (Z.max (py_int (time_horizon * 4)) 2).

Definition kappa (m : t) (volatility : R) : R :=
  sqrt (risk_aversion m * volatility ^ 2 * temporary_impact_factor m).

Definition holdings (m : t) (total_size time_horizon volatility t : R) : R :=
  total_size * sinh (kappa m volatility * (time_horizon - t))
  / sinh (kappa m volatility * time_horizon).

(** What the risk-averse loop stores in [remaining_sizes[i]]. *)
Definition inventory (m : t) (total_size time_horizon volatility : R) (i : nat) : R :=
  if decide (i = 0%nat) then total_size
  else total_size *
       (sinh (kappa m volatility
              * (time_horizon - INR i * (time_horizon / INR (intervals time_horizon - 1))))
        / sinh (kappa m volatility * time_horizon)).

(** The arrays of [calculate_optimal_execution_schedule] before its last
    statement: [(times, remaining_sizes, trade_sizes)]. *)
Definition trajectory (m : t) (total_size time_horizon volatility : R)
  : outcome (list R * list R * list R) :=
  let n_intervals := intervals time_horizon in
  let times := linspace 0 time_horizon n_intervals in
  let risk_aversion := risk_aversion m in
  let gamma := temporary_impact_factor m in
  let alpha := risk_aversion * volatility ^ 2 in
  let remaining_sizes := replicate n_intervals 0 in
  let trade_sizes := replicate n_intervals 0 in
  if decide (alpha = 0) then
    trade_per_step ← fdiv total_size (INR (n_intervals - 1));
    let trade_sizes :=
      for_range 0 (n_intervals - 1)
        (fun i trade_sizes => <[i := trade_per_step]> trade_sizes) trade_sizes in
    let remaining_sizes := <[0%nat := total_size]> remaining_sizes in
    let remaining_sizes :=
      for_range 1 n_intervals
        (fun i remaining_sizes =>
           <[i := remaining_sizes !!! (i - 1)%nat - trade_sizes !!! (i - 1)%nat]>
             remaining_sizes)
        remaining_sizes in
    Return (times, remaining_sizes, trade_sizes)
  else
    root ← np_sqrt (alpha * gamma);
    let sinh_term := sinh (root * time_horizon) in
    let remaining_sizes := <[0%nat := total_size]> remaining_sizes in
    remaining_sizes ←
      for_range_m 1 n_intervals
        (fun i remaining_sizes =>
           let t := times !!! i in
           root ← np_sqrt (alpha * gamma);
           remaining_factor ← fdiv (sinh (root * (time_horizon - t))) sinh_term;
           Return (<[i := total_size * remaining_factor]> remaining_sizes))
        remaining_sizes;
    let trade_sizes :=
      for_range 0 (n_intervals - 1)
        (fun i trade_sizes =>
           <[i := remaining_sizes !!! i - remaining_sizes !!! (i + 1)%nat]> trade_sizes)
        trade_sizes in
    let trade_sizes :=
      <[(n_intervals - 1)%nat := remaining_sizes !!! (n_intervals - 1)%nat]> trade_sizes in
    Return (times, remaining_sizes, trade_sizes).

(** The last statement: a residual of more than 1e-10 goes to the final
    trade. *)
Definition adjust_final (total_size : R) (trade_sizes : list R) : list R :=
  if decide (Rabs (py_sum trade_sizes - total_size) > 1 / 10 ^ 10) then
    let last := (length trade_sizes - 1)%nat in
    <[last := trade_sizes !!! last + (total_size - py_sum trade_sizes)]> trade_sizes
  else trade_sizes.

(** Returns [(times, trade_sizes)]. *)
Definition calculate_optimal_execution_schedule (m : t)
    (total_size time_horizon volatility : R) : outcome (list R * list R) :=
  '(times, _, trade_sizes) ← trajectory m total_size time_horizon volatility;
  Return (times, adjust_final total_size trade_sizes).

End AlmgrenChrissModel.

(** ** The simulator *)

Module TradeSimulator.

Record t : Type := mk {
  orderbook : Orderbook.t;
  slippage_model : SlippageModel.t;
  market_impact_model : AlmgrenChrissModel.t;
  maker_taker_model : MakerTakerModel.t;
  fee_model : FeeModel.t;
  last_update_time : R;
  processing_times : list R
}.

(** [TradeSimulator()] *)
Definition init : t :=
  mk (Orderbook.init 50) (SlippageModel.init "linear" 0.5) AlmgrenChrissModel.init
     MakerTakerModel.init FeeModel.init 0 [].

(** [update_orderbook(data)]; the four clock readings are those of the
    simulator (outer) and of the book (inner). *)
Definition update_orderbook (float : string -> option R) (sim : t)
    (data : Orderbook.snapshot) (start_time ob_start ob_end end_time : R)
  : t * outcome R :=
  let '(ob, r) := Orderbook.update float (orderbook sim) data ob_start ob_end in
  let sim1 := mk ob (slippage_model sim) (market_impact_model sim)
                 (maker_taker_model sim) (fee_model sim)
                 (last_update_time sim) (processing_times sim) in
  match r with
  | Raise e => (sim1, Raise e)
  | Return _ =>
      let total_processing_time := Rmax ((end_time - start_time) * 1000) 0.001 in
      let times := processing_times sim ++ [total_processing_time] in
      let times :=
        if decide (1000 < length times)%nat then slice_last 1000 times else times in
      (mk ob (slippage_model sim) (market_impact_model sim)
          (maker_taker_model sim) (fee_model sim) end_time times,
       Return total_processing_time)
  end.

(** [update_orderbook(data)] on a snapshot whose levels already are floats. *)
Definition update_orderbook_parsed (sim : t) (data : Orderbook.parsed_snapshot)
    (start_time ob_start ob_end end_time : R) : t * R :=
  let '(ob, _) := Orderbook.update_parsed (orderbook sim) data ob_start ob_end in
  let total_processing_time := Rmax ((end_time - start_time) * 1000) 0.001 in
  let times := processing_times sim ++ [total_processing_time] in
  let times :=
    if decide (1000 < length times)%nat then slice_last 1000 times else times in
  (mk ob (slippage_model sim) (market_impact_model sim)
      (maker_taker_model sim) (fee_model sim) end_time times,
   total_processing_time).

Definition get_average_processing_time (sim : t) : R :=
  match processing_times sim with
  | [] => 0
  | ts => py_sum ts / INR (length ts)
  end.

(** The full result dictionary of [simulate_market_order], over the type
    [N] of the five numbers that depend on the slippage or on the division by
    the quantity and so need not be finite. *)
Record estimate_of (N : Type) : Type := mk_estimate {
  timestamp : option string;
  exchange : string;
  symbol : option string;
  side : string;
  quantity : R;
  mid_price : R;
  execution_price : N;
  order_value : R;
  maker_proportion : R;
  fees : FeeModel.fees;
  slippage : N;
  slippage_percentage : N;
  market_impact : AlmgrenChrissModel.impact;
  market_impact_percentage : R;
  net_cost : N;
  net_cost_percentage : N;
  processing_time : R
}.

Arguments mk_estimate {N}.
Arguments timestamp {N}.
Arguments exchange {N}.
Arguments symbol {N}.
Arguments side {N}.
Arguments quantity {N}.
Arguments mid_price {N}.
Arguments execution_price {N}.
Arguments order_value {N}.
Arguments maker_proportion {N}.
Arguments fees {N}.
Arguments slippage {N}.
Arguments slippage_percentage {N}.
Arguments market_impact {N}.
Arguments market_impact_percentage {N}.
Arguments net_cost {N}.
Arguments net_cost_percentage {N}.
Arguments processing_time {N}.

(** A dictionary all of whose numbers are finite. *)
Definition estimate : Type := estimate_of R.

(** What the caller gets back: the full dictionary, with all its numbers
    finite or with inf or nan among them, or [{'error': msg}]. *)
Inductive result : Type :=
  | Estimate (e : estimate)
  | Error (msg : string)
  | NonFinite (d : estimate_of Np.number).

Definition EmptyOrderBook : string := "Orderbook is empty".
Definition InvalidMetrics : string := "Invalid orderbook metrics".

(** The finite numbers of a dictionary, when all five are finite. *)
Definition finite_estimate (d : estimate_of Np.number) : option estimate :=
  match execution_price d, slippage d, slippage_percentage d, net_cost d,
        net_cost_percentage d with
  | Np.Finite execution_price, Np.Finite slippage, Np.Finite slippage_percentage,
    Np.Finite net_cost, Np.Finite net_cost_percentage =>
      Some (mk_estimate (timestamp d) (exchange d) (symbol d) (side d) (quantity d)
              (mid_price d) execution_price (order_value d) (maker_proportion d) (fees d)
              slippage slippage_percentage (market_impact d)
              (market_impact_percentage d) net_cost net_cost_percentage
              (processing_time d))
  | _, _, _, _, _ => None
  end.

Definition dictionary (d : estimate_of Np.number) : result :=
  match finite_estimate d with
  | Some e => Estimate e
  | None => NonFinite d
  end.

(** The numbers of a returned dictionary, whichever way it was returned. *)
Definition numbers (e : estimate) : estimate_of Np.number :=
  mk_estimate (timestamp e) (exchange e) (symbol e) (side e) (quantity e) (mid_price e)
    (Np.Finite (execution_price e)) (order_value e) (maker_proportion e) (fees e)
    (Np.Finite (slippage e)) (Np.Finite (slippage_percentage e)) (market_impact e)
    (market_impact_percentage e) (Np.Finite (net_cost e))
    (Np.Finite (net_cost_percentage e)) (processing_time e).

(** The dictionary behind a result that is not a tagged error. *)
Definition returned (r : result) : option (estimate_of Np.number) :=
  match r with
  | Estimate e => Some (numbers e)
  | NonFinite d => Some d
  | Error _ => None
  end.

(** [x / y] for a Python float [y]: when [x] is a NumPy float64 a zero
    divisor gives inf or nan (and a warning), when [x] is a Python float it
    raises ZeroDivisionError. *)
Definition divide (float64 : bool) (x : Np.number) (y : R) : outcome Np.number :=
  if float64 then Return (Np.div x (Np.Finite y))
  else if decide (y = 0) then Raise ZeroDivision
  else Return (Np.div x (Np.Finite y)).

(** [simulate_market_order]; [quantity], [volatility] and the levels of the
    book are Python floats.  The slippage is a NumPy float64 when it comes
    from the heuristic and a Python float when it comes from the fitted
    model. *)
Definition simulate_market_order (sk : Sklearn.predictors) (sim : t)
    (side : string) (quantity : R) (exchange market_type fee_tier : string)
    (volatility : R) (start_time end_time : R) : outcome result :=
  let ob := orderbook sim in
  if Orderbook.side_empty ob then Return (Error EmptyOrderBook)
  else
    match Orderbook.get_mid_price ob, Orderbook.get_spread ob,
          Orderbook.get_orderbook_imbalance ob with
    | Some mid_price, Some spread, Some orderbook_imbalance =>
        let order_value := quantity * mid_price in
        maker_proportion ←
          MakerTakerModel.estimate_maker_proportion sk (maker_taker_model sim)
            quantity spread volatility orderbook_imbalance;
        fees ←
          FeeModel.calculate_fee (fee_model sim) order_value exchange market_type
            fee_tier maker_proportion;
        slippage ←
          SlippageModel.estimate_slippage_value sk (slippage_model sim)
            quantity spread volatility orderbook_imbalance;
        let orderbook_depth :=
          py_sum (Orderbook.bids ob).*2 + py_sum (Orderbook.asks ob).*2 in
        let avg_daily_volume := orderbook_depth * 100 in
        market_impact ←
          AlmgrenChrissModel.calculate_market_impact (market_impact_model sim)
            quantity avg_daily_volume volatility mid_price orderbook_depth 1.0;
        let net_cost :=
          Np.add (Np.add (Np.Finite (FeeModel.total_fee fees)) slippage)
            (Np.Finite (AlmgrenChrissModel.total_impact market_impact)) in
        let net_cost_percentage :=
          if decide (order_value > 0)
          then Np.mul (Np.div net_cost (Np.Finite order_value)) (Np.Finite 100)
          else Np.Finite 0 in
        let float64 :=
          negb (SlippageModel.is_fitted (slippage_model sim))
          || AlmgrenChrissModel.temporary_impact_is_float64 quantity avg_daily_volume
               orderbook_depth in
        shift ←
          divide float64
            (Np.add slippage
               (Np.Finite (AlmgrenChrissModel.temporary_impact market_impact)))
            quantity;
        let execution_price :=
          if decide (lower side = "buy") then Np.add (Np.Finite mid_price) shift
          else Np.sub (Np.Finite mid_price) shift in
        let processing_time := (end_time - start_time) * 1000 in
        Return (dictionary (mk_estimate
          (Orderbook.timestamp ob) exchange (Orderbook.symbol ob) side quantity
          mid_price execution_price order_value maker_proportion fees slippage
          (if decide (order_value > 0)
           then Np.mul (Np.div slippage (Np.Finite order_value)) (Np.Finite 100)
           else Np.Finite 0)
          market_impact
          (if decide (order_value > 0)
           then AlmgrenChrissModel.total_impact market_impact / order_value * 100
           else 0)
          net_cost net_cost_percentage processing_time))
    | _, _, _ => Return (Error InvalidMetrics)
    end.

End TradeSimulator.

(** ** The WebSocket client and the application ([src/data/websocket_client.py],
    [src/main.py]) *)

Module OrderbookWebSocketClient.

(** [_process_orderbook(data)]: the snapshot handed to the user callback,
    or [None] when the callback is not called: a key is missing, or a text is
    refused by [float] and the exception is caught and logged. *)
Definition _process_orderbook (float : string -> option R) (data : Orderbook.snapshot)
  : option Orderbook.parsed_snapshot :=
  match Orderbook.snap_timestamp data, Orderbook.snap_exchange data,
        Orderbook.snap_symbol data, Orderbook.snap_asks data, Orderbook.snap_bids data with
  | Some timestamp, Some exchange, Some symbol, Some raw_asks, Some raw_bids =>
      match Orderbook.parse_levels float raw_asks with
      | Raise _ => None
      | Return asks =>
          match Orderbook.parse_levels float raw_bids with
          | Raise _ => None
          | Return bids => Some (Orderbook.mk_parsed timestamp exchange symbol asks bids)
          end
      end
  | _, _, _, _, _ => None
  end.

End OrderbookWebSocketClient.

Module Application.

(** [handle_orderbook_update(data)]: the simulator after the callback. *)
Definition handle_orderbook_update (sim : TradeSimulator.t)
    (data : Orderbook.parsed_snapshot) (start_time ob_start ob_end end_time : R)
  : TradeSimulator.t :=
  (TradeSimulator.update_orderbook_parsed sim data start_time ob_start ob_end end_time).1.

(** One message from the socket, after [json.loads]: processed by the
    client, then handled by the application. *)
Definition on_message (float : string -> option R) (sim : TradeSimulator.t)
    (data : Orderbook.snapshot) (start_time ob_start ob_end end_time : R)
  : TradeSimulator.t :=
  match OrderbookWebSocketClient._process_orderbook float data with
  | Some processed =>
      handle_orderbook_update sim processed start_time ob_start ob_end end_time
  | None => sim
  end.

End Application.

(** ** The visualizer ([src/visualization/almgren_chriss_visualizer.py]) *)

Module AlmgrenChrissVisualizer.

(** The inventory curve of [plot_optimal_execution] and
    [compare_risk_aversion], rebuilt from the trade sizes. *)
Definition remaining_inventory (total_size : R) (times trade_sizes : list R) : list R :=
  let remaining_inventory := replicate (length times) 0 in
  let remaining_inventory := <[0%nat := total_size]> remaining_inventory in
  for_range 1 (length times)
    (fun i remaining_inventory =>
       <[i := remaining_inventory !!! (i - 1)%nat - trade_sizes !!! (i - 1)%nat]>
         remaining_inventory)
    remaining_inventory.

End AlmgrenChrissVisualizer.

(** ** The dashboard ([src/ui/dashboard.py]) *)

Module Dashboard.

(** The numbers the callback formats into the six panels, a pair being the
    amount and the percentage after it. *)
Record readings : Type := mk_readings {
  slippage_output : Np.number * Np.number;
  fees_output : R * R;
  market_impact_output : R * R;
  net_cost_output : Np.number * Np.number;
  maker_taker_output : R * R;
  latency_output : R
}.

Definition format (result : TradeSimulator.estimate_of Np.number) : readings :=
  mk_readings
    (TradeSimulator.slippage result, TradeSimulator.slippage_percentage result)
    (FeeModel.total_fee (TradeSimulator.fees result),
     FeeModel.effective_rate (TradeSimulator.fees result) * 100)
    (AlmgrenChrissModel.total_impact (TradeSimulator.market_impact result),
     TradeSimulator.market_impact_percentage result)
    (TradeSimulator.net_cost result, TradeSimulator.net_cost_percentage result)
    (TradeSimulator.maker_proportion result * 100,
     (1 - TradeSimulator.maker_proportion result) * 100)
    (TradeSimulator.processing_time result).

(** The four ways the [simulate_order] callback returns: the placeholders
    before the first click, 'Orderbook not available', the error message of
    the simulator, or the panels filled from its result.  The rounding of
    the numbers to text and the two figures are left out. *)
Inductive panels : Type :=
  | Placeholders
  | NotAvailable
  | ErrorMessage (msg : string)
  | Filled (shown : readings).

Definition simulate_order (sk : Sklearn.predictors) (sim : TradeSimulator.t)
    (n_clicks : option nat) (exchange market_type side : string)
    (quantity volatility : R) (fee_tier : string) (start_time end_time : R)
  : outcome panels :=
  match n_clicks with
  | None => Return Placeholders
  | Some _ =>
      match Orderbook.get_mid_price (TradeSimulator.orderbook sim) with
      | None => Return NotAvailable
      | Some mid_price =>
          if decide (mid_price = 0) then Return NotAvailable
          else
            base_quantity ← fdiv quantity mid_price;
            result ←
              TradeSimulator.simulate_market_order sk sim side base_quantity exchange
                market_type fee_tier volatility start_time end_time;
            match result with
            | TradeSimulator.Error msg => Return (ErrorMessage msg)
            | TradeSimulator.Estimate est =>
                Return (Filled (format (TradeSimulator.numbers est)))
            | TradeSimulator.NonFinite d => Return (Filled (format d))
            end
      end
  end.

End Dashboard.

(** ** Sample data *)

(** The decimal literals of the snapshot in [tests/test_simulator.py] (and
    a few small ones), as [float] reads them; other text is refused. *)
Definition sample_literals : gmap string R :=
  list_to_map
    [("45000.5", 45000.5); ("45001.0", 45001.0); ("45002.0", 45002.0);
     ("45003.0", 45003.0); ("45004.0", 45004.0);
     ("44999.5", 44999.5); ("44999.0", 44999.0); ("44998.0", 44998.0);
     ("44997.0", 44997.0); ("44996.0", 44996.0);
     ("1.0", 1.0); ("1.5", 1.5); ("2.0", 2.0); ("3.0", 3.0); ("4.0", 4.0);
     ("5.0", 5.0)].

Definition sample_float (s : string) : option R := sample_literals !! s.

Definition sample_data : Orderbook.snapshot :=
  Orderbook.mk_snapshot (Some "2023-05-04T10:39:13Z") (Some "OKX") (Some "BTC-USDT-SWAP")
    (Some [("45000.5", "1.5"); ("45001.0", "2.0"); ("45002.0", "3.0");
           ("45003.0", "4.0"); ("45004.0", "5.0")])
    (Some [("44999.5", "1.0"); ("44999.0", "2.0"); ("44998.0", "3.0");
           ("44997.0", "4.0"); ("44996.0", "5.0")]).

(** The book the sample snapshot leaves behind. *)
Definition sample_book : Orderbook.t :=
  Orderbook.mk 50
    [(45000.5, 1.5); (45001.0, 2.0); (45002.0, 3.0); (45003.0, 4.0); (45004.0, 5.0)]
    [(44999.5, 1.0); (44999.0, 2.0); (44998.0, 3.0); (44997.0, 4.0); (44996.0, 5.0)]
    (Some "2023-05-04T10:39:13Z") (Some "OKX") (Some "BTC-USDT-SWAP") 1 [1000].

(** A snapshot that arrives out of order, for a book built with
    [max_depth = -1]. *)
Definition unsorted_data : Orderbook.snapshot :=
  Orderbook.mk_snapshot None None None
    (Some [("2.0", "1.0"); ("1.0", "1.0")]) (Some [("1.0", "1.0"); ("2.0", "1.0")]).

(** A sorted ask side with a repeated price and a negative quantity. *)
Definition degenerate_book : Orderbook.t :=
  Orderbook.mk 50 [(100, 5); (100, -4)] [(99, 1)] None None None 0 [].

(** A fee structure that lists a futures market only. *)
Definition futures_only : gmap string (gmap string (gmap string R)) :=
  <["futures" := <["maker" := FeeModel.okx_futures_maker]>
                 (<["taker" := FeeModel.okx_futures_taker]> ∅)]> ∅.

(** The simulator of [TradeSimulator()] once the sample snapshot is in. *)
Definition sample_simulator : TradeSimulator.t :=
  TradeSimulator.mk sample_book (SlippageModel.init "linear" 0.5) AlmgrenChrissModel.init
    MakerTakerModel.init FeeModel.init 1 [1000].

(** Ten training rows and targets, enough for [fit] to go past its size
    check. *)
Definition ten_rows : list (list R) := replicate 10 [1; 1; 0; 0].
Definition ten_targets : list R := replicate 10 0.

(** Ten rows that differ and targets of both classes, which scikit-learn's
    regressors and its classifier accept. *)
Definition training_rows : list (list R) :=
  [[0.1; 1; 0.01; 0]; [0.2; 1; 0.01; 0.1]; [0.3; 1; 0.02; -0.1]; [0.4; 2; 0.01; 0];
   [0.5; 1; 0.03; 0.2]; [0.6; 2; 0.01; 0]; [0.7; 1; 0.02; -0.2]; [0.8; 1; 0.01; 0];
   [0.9; 2; 0.02; 0.1]; [1.0; 1; 0.01; 0]].
Definition slippage_targets : list R :=
  [0.5; 0.6; 0.6; 1.1; 0.7; 1.2; 0.7; 0.8; 1.3; 0.9].



(** A book whose only levels carry no quantity. *)
Definition zero_depth_book : Orderbook.t :=
  Orderbook.mk 50 [(100, 0)] [(99, 0)] None None None 0 [].

(** The simulator once its slippage model has been fitted and such a book
    has come in. *)
Definition fitted_simulator : TradeSimulator.t :=
  TradeSimulator.mk zero_depth_book
    (SlippageModel.fit (SlippageModel.init "linear" 0.5) training_rows slippage_targets).1
    AlmgrenChrissModel.init MakerTakerModel.init FeeModel.init 0 [].

(** A snapshot with a quantity that [sample_float] refuses. *)
Definition bad_data : Orderbook.snapshot :=
  Orderbook.mk_snapshot (Some "2023-05-04T10:39:14Z") (Some "OKX") (Some "BTC-USDT-SWAP")
    (Some [("45000.5", "1.5"); ("45001.0", "n/a")]) (Some [("44999.5", "1.0")]).

(** The sample levels in another order of arrival. *)
Definition shuffled_data : Orderbook.snapshot :=
  Orderbook.mk_snapshot (Some "2023-05-04T10:39:13Z") (Some "OKX") (Some "BTC-USDT-SWAP")
    (Some [("45002.0", "3.0"); ("45000.5", "1.5"); ("45004.0", "5.0");
           ("45001.0", "2.0"); ("45003.0", "4.0")])
    (Some [("44997.0", "4.0"); ("44999.5", "1.0"); ("44996.0", "5.0");
           ("44998.0", "3.0"); ("44999.0", "2.0")]).

(** * Properties *)

(** ** The outcome monad *)

Lemma bind_Return {A B} (c : outcome A) (k : A -> outcome B) (a : A) :
  c = Return a -> (c ≫= k) = k a.
Proof. by intros ->. Qed.

Lemma bind_Raise {A B} (c : outcome A) (k : A -> outcome B) (e : fault) :
  c = Raise e -> (c ≫= k) = Raise e.
Proof. by intros ->. Qed.

Lemma fdiv_zero (x : R) : fdiv x 0 = Raise ZeroDivision.
Proof. unfold fdiv. by rewrite decide_True. Qed.

Lemma fdiv_nonzero (x y : R) : y <> 0 -> fdiv x y = Return (x / y).
Proof. intros Hy. unfold fdiv. by rewrite decide_False. Qed.

(** ** Numbers that need not be finite *)

Module NpFacts.
Import Np.

Lemma is_finite_Finite (x : number) : is_finite x = true <-> exists r, x = Finite r.
Proof.
  destruct x; simpl; split; try done; try (by intros [? ?]). by eexists.
Qed.

Lemma signed_inf_not_finite (r : R) : is_finite (signed_inf r) = false.
Proof. unfold signed_inf. by repeat case_decide. Qed.

Lemma add_finite_l (a : R) (y : number) : is_finite (add (Finite a) y) = is_finite y.
Proof. by destruct y. Qed.

Lemma add_finite_r (x : number) (b : R) : is_finite (add x (Finite b)) = is_finite x.
Proof. by destruct x. Qed.

Lemma sub_finite_l (a : R) (y : number) : is_finite (sub (Finite a) y) = is_finite y.
Proof. by destruct y. Qed.

Lemma mul_finite_r (x : number) (b : R) : is_finite (mul x (Finite b)) = is_finite x.
Proof. destruct x; simpl; try done; apply signed_inf_not_finite. Qed.

Lemma div_finite_r (x : number) (b : R) :
  is_finite (div x (Finite b)) = is_finite x && bool_decide (b <> 0).
Proof.
  destruct x; simpl; try done; [|by case_decide..].
  case_decide; case_bool_decide; try done. apply signed_inf_not_finite.
Qed.

Lemma log1p_finite (x : R) : is_finite (log1p x) = bool_decide (-1 < x).
Proof. unfold log1p. by repeat case_decide; case_bool_decide. Qed.

Lemma log1p_above (x : R) : -1 < x -> log1p x = Finite (ln (1 + x)).
Proof. intros Hx. unfold log1p. by rewrite decide_True. Qed.

Lemma log1p_real (x : R) : np_log1p x = finite (log1p x).
Proof. unfold np_log1p, log1p. by repeat case_decide. Qed.

Lemma not_finite_raises (x : number) : is_finite x = false -> finite x = Raise InvalidValue.
Proof. by destruct x. Qed.

(** [max(0.0, min(1.0, x))] on a finite [x] is the clamp to [0, 1], and 1
    on an infinity above or on nan. *)
Lemma clamp_Finite (x : R) :
  py_max (Finite 0.0) (py_min (Finite 1.0) (Finite x)) = Finite (Rmax 0.0 (Rmin 1.0 x)).
Proof.
  unfold py_max, py_min, gt, lt.
  unfold Rmax, Rmin. repeat case_bool_decide; repeat destruct (Rle_dec _ _);
    simpl; repeat case_bool_decide; try done; try lra; f_equal; lra.
Qed.

Lemma clamp_PosInf : py_max (Finite 0.0) (py_min (Finite 1.0) PosInf) = Finite 1.0.
Proof. unfold py_max, py_min, gt, lt. simpl. by rewrite bool_decide_true by lra. Qed.

Lemma clamp_NaN : py_max (Finite 0.0) (py_min (Finite 1.0) NaN) = Finite 1.0.
Proof. unfold py_max, py_min, gt, lt. simpl. by rewrite bool_decide_true by lra. Qed.

End NpFacts.

(** ** Sums and slices *)

Lemma foldl_Rplus (xs : list R) (a : R) : foldl Rplus a xs = a + py_sum xs.
Proof.
  unfold py_sum. revert a.
  induction xs as [|x xs IH]; intros a; simpl.
  - lra.
  - rewrite (IH (a + x)), (IH (0 + x)). lra.
Qed.

Lemma py_sum_nil : py_sum [] = 0.
Proof. reflexivity. Qed.

Lemma py_sum_cons (x : R) (xs : list R) : py_sum (x :: xs) = x + py_sum xs.
Proof. unfold py_sum at 1. simpl. rewrite foldl_Rplus. lra. Qed.

Lemma py_sum_app (xs ys : list R) : py_sum (xs ++ ys) = py_sum xs + py_sum ys.
Proof.
  induction xs as [|x xs IH]; simpl.
  - rewrite py_sum_nil. lra.
  - rewrite !py_sum_cons, IH. lra.
Qed.

Lemma py_sum_nonneg (xs : list R) : Forall (fun x => 0 <= x) xs -> 0 <= py_sum xs.
Proof.
  induction 1 as [|x xs Hx _ IH].
  - rewrite py_sum_nil. lra.
  - rewrite py_sum_cons. lra.
Qed.

Lemma length_slice_to {A} (k : Z) (l : list A) :
  (0 <= k)%Z -> (Z.of_nat (length (slice_to k l)) <= k)%Z.
Proof.
  intros Hk. unfold slice_to. rewrite decide_True by done.
  rewrite length_take. lia.
Qed.

Lemma slice_to_nonneg {A} (k : Z) (l : list A) :
  (0 <= k)%Z -> slice_to k l = take (Z.to_nat k) l.
Proof. intros Hk. unfold slice_to. by rewrite decide_True. Qed.

Lemma Sorted_take {A} (R : relation A) (n : nat) (l : list A) :
  Sorted R l -> Sorted R (take n l).
Proof.
  intros Hs. revert n.
  induction Hs as [|x l Hs IH Hhd]; intros [|n]; simpl; try constructor.
  - apply IH.
  - destruct Hhd as [|y l' Hxy]; destruct n; simpl; constructor; done.
Qed.

(** ** The sort of [update] *)

Module SortFacts.
Import Orderbook.

Lemma insert_asc_perm (x : level) (l : list level) : insert_asc x l ≡ₚ x :: l.
Proof.
  induction l as [|y l IH]; simpl; [done|].
  case_decide; [done|]. rewrite IH. apply Permutation_swap.
Qed.

Lemma insert_desc_perm (x : level) (l : list level) : insert_desc x l ≡ₚ x :: l.
Proof.
  induction l as [|y l IH]; simpl; [done|].
  case_decide; [done|]. rewrite IH. apply Permutation_swap.
Qed.

Lemma insert_asc_sorted (x : level) (l : list level) :
  Sorted asc l -> Sorted asc (insert_asc x l).
Proof.
  induction 1 as [|y l Hs IH Hhd]; simpl.
  - repeat constructor.
  - case_decide as Hxy.
    + constructor; [by constructor|by constructor].
    + constructor; [done|].
      destruct Hhd as [|z l' Hyz]; simpl.
      * constructor. unfold asc. lra.
      * case_decide; constructor; unfold asc in *; lra.
Qed.

Lemma insert_desc_sorted (x : level) (l : list level) :
  Sorted desc l -> Sorted desc (insert_desc x l).
Proof.
  induction 1 as [|y l Hs IH Hhd]; simpl.
  - repeat constructor.
  - case_decide as Hxy.
    + constructor; [by constructor|by constructor].
    + constructor; [done|].
      destruct Hhd as [|z l' Hyz]; simpl.
      * constructor. unfold desc. lra.
      * case_decide; constructor; unfold desc in *; lra.
Qed.

Lemma sorted_asc_sorted (l : list level) : Sorted asc (sorted_asc l).
Proof.
  induction l as [|x l IH]; simpl; [constructor|].
  by apply insert_asc_sorted.
Qed.

Lemma sorted_desc_sorted (l : list level) : Sorted desc (sorted_desc l).
Proof.
  induction l as [|x l IH]; simpl; [constructor|].
  by apply insert_desc_sorted.
Qed.

Lemma sorted_asc_perm (l : list level) : sorted_asc l ≡ₚ l.
Proof.
  induction l as [|x l IH]; simpl; [done|].
  by rewrite insert_asc_perm, IH.
Qed.

Lemma sorted_desc_perm (l : list level) : sorted_desc l ≡ₚ l.
Proof.
  induction l as [|x l IH]; simpl; [done|].
  by rewrite insert_desc_perm, IH.
Qed.

(** What a successful [update] stores. *)
Lemma update_returns (float : string -> option R) (ob ob' : t) (data : snapshot)
    (t0 t1 latency : R) :
  update float ob data t0 t1 = (ob', Return latency) ->
  exists new_asks new_bids,
    parse_levels float (default [] (snap_asks data)) = Return new_asks /\
    parse_levels float (default [] (snap_bids data)) = Return new_bids /\
    asks ob' = slice_to (max_depth ob) (sorted_asc new_asks) /\
    bids ob' = slice_to (max_depth ob) (sorted_desc new_bids) /\
    max_depth ob' = max_depth ob.
Proof.
  unfold update.
  destruct (parse_levels float (default [] (snap_asks data))) as [new_asks|e];
    [|intros [=]].
  destruct (parse_levels float (default [] (snap_bids data))) as [new_bids|e];
    [|intros [=]].
  intros [= <- _]. exists new_asks, new_bids. simpl. done.
Qed.

End SortFacts.

Lemma parse_sample_asks :
  Orderbook.parse_levels sample_float (default [] (Orderbook.snap_asks sample_data))
  = Return (Orderbook.asks sample_book).
Proof. vm_compute. reflexivity. Qed.

Lemma parse_sample_bids :
  Orderbook.parse_levels sample_float (default [] (Orderbook.snap_bids sample_data))
  = Return (Orderbook.bids sample_book).
Proof. vm_compute. reflexivity. Qed.

Lemma update_sample :
  Orderbook.update sample_float (Orderbook.init 50) sample_data 0 1
  = (sample_book, Return 1000).
Proof.
  unfold Orderbook.update. rewrite parse_sample_asks, parse_sample_bids.
  unfold sample_book, Orderbook.init, slice_to. simpl. decide_R.
  repeat f_equal; lra.
Qed.

(** ** [Orderbook.update] *)

(** C8 (amended): for a book whose [max_depth] is not negative, a call of
    [update] that returns stores, on each side, the first [max_depth] levels
    of the snapshot's levels sorted by price (a rearrangement of them,
    whatever their order of arrival): the asks are non-decreasing and the bids
    non-increasing by price, each side has at most [max_depth] entries, and
    nothing of the previous sides is kept.  A call that raises, on text that
    [float] refuses, leaves both sides as they were. *)
Theorem update_sorts_truncates_replaces (float : string -> option R)
    (ob : Orderbook.t) (data : Orderbook.snapshot) (t0 t1 : R) :
  (0 <= Orderbook.max_depth ob)%Z ->
  (forall ob' latency,
     Orderbook.update float ob data t0 t1 = (ob', Return latency) ->
     exists new_asks new_bids,
       Orderbook.parse_levels float (default [] (Orderbook.snap_asks data))
         = Return new_asks /\
       Orderbook.parse_levels float (default [] (Orderbook.snap_bids data))
         = Return new_bids /\
       Orderbook.asks ob'
         = take (Z.to_nat (Orderbook.max_depth ob)) (Orderbook.sorted_asc new_asks) /\
       Orderbook.bids ob'
         = take (Z.to_nat (Orderbook.max_depth ob)) (Orderbook.sorted_desc new_bids) /\
       Orderbook.sorted_asc new_asks ≡ₚ new_asks /\
       Orderbook.sorted_desc new_bids ≡ₚ new_bids /\
       Sorted Orderbook.asc (Orderbook.asks ob') /\
       Sorted Orderbook.desc (Orderbook.bids ob') /\
       (Z.of_nat (length (Orderbook.asks ob')) <= Orderbook.max_depth ob')%Z /\
       (Z.of_nat (length (Orderbook.bids ob')) <= Orderbook.max_depth ob')%Z) /\
  (forall ob' e,
     Orderbook.update float ob data t0 t1 = (ob', Raise e) ->
     Orderbook.asks ob' = Orderbook.asks ob /\ Orderbook.bids ob' = Orderbook.bids ob).
Proof.
  intros Hdepth. split.
  - intros ob' latency Hupd.
    destruct (SortFacts.update_returns _ _ _ _ _ _ _ Hupd)
      as (new_asks & new_bids & Ha & Hb & Hasks & Hbids & Hmax).
    exists new_asks, new_bids.
    rewrite Hasks, Hbids, Hmax, !slice_to_nonneg by done.
    repeat split; try done.
    + apply SortFacts.sorted_asc_perm.
    + apply SortFacts.sorted_desc_perm.
    + apply Sorted_take, SortFacts.sorted_asc_sorted.
    + apply Sorted_take, SortFacts.sorted_desc_sorted.
    + rewrite length_take. lia.
    + rewrite length_take. lia.
  - intros ob' e. unfold Orderbook.update.
    destruct (Orderbook.parse_levels float (default [] (Orderbook.snap_asks data)));
      [|by intros [= <- _]].
    destruct (Orderbook.parse_levels float (default [] (Orderbook.snap_bids data)));
      [|by intros [= <- _]].
    intros [=].
Qed.

Lemma update_sorts_truncates_replaces_witness :
  exists new_asks new_bids,
    Orderbook.parse_levels sample_float (default [] (Orderbook.snap_asks sample_data))
      = Return new_asks /\
    Orderbook.parse_levels sample_float (default [] (Orderbook.snap_bids sample_data))
      = Return new_bids /\
    Orderbook.asks sample_book = take (Z.to_nat 50) (Orderbook.sorted_asc new_asks) /\
    Orderbook.bids sample_book = take (Z.to_nat 50) (Orderbook.sorted_desc new_bids) /\
    Orderbook.sorted_asc new_asks ≡ₚ new_asks /\
    Orderbook.sorted_desc new_bids ≡ₚ new_bids /\
    Sorted Orderbook.asc (Orderbook.asks sample_book) /\
    Sorted Orderbook.desc (Orderbook.bids sample_book) /\
    (Z.of_nat (length (Orderbook.asks sample_book)) <= 50)%Z /\
    (Z.of_nat (length (Orderbook.bids sample_book)) <= 50)%Z.
Proof.
  destruct (update_sorts_truncates_replaces sample_float (Orderbook.init 50)
              sample_data 0 1) as [H _].
  - simpl. lia.
  - apply (H sample_book 1000). apply update_sample.
Defined.

(** C8, as stated, fails for a book built with [max_depth = -1]: the slice
    [[:-1]] drops the last level only, so one ask and one bid are stored,
    more than [max_depth]. *)
Lemma update_negative_max_depth :
  exists ob',
    Orderbook.update sample_float (Orderbook.init (-1)) unsorted_data 0 1
      = (ob', Return 1000) /\
    Orderbook.asks ob' = [(1.0, 1.0)] /\
    Orderbook.bids ob' = [(2.0, 1.0)] /\
    ~ (Z.of_nat (length (Orderbook.asks ob')) <= Orderbook.max_depth ob')%Z /\
    ~ (Z.of_nat (length (Orderbook.bids ob')) <= Orderbook.max_depth ob')%Z.
Proof.
  eexists. split.
  - unfold Orderbook.update.
    replace (Orderbook.parse_levels sample_float
               (default [] (Orderbook.snap_asks unsorted_data)))
      with (Return [(2.0, 1.0); (1.0, 1.0)]) by (vm_compute; reflexivity).
    replace (Orderbook.parse_levels sample_float
               (default [] (Orderbook.snap_bids unsorted_data)))
      with (Return [(1.0, 1.0); (2.0, 1.0)]) by (vm_compute; reflexivity).
    unfold Orderbook.init, slice_to. simpl. decide_R.
    repeat f_equal; lra.
  - simpl. repeat split; lia.
Qed.

(** ** Order-book imbalance *)

Lemma side_empty_false (ob : Orderbook.t) :
  Orderbook.asks ob <> [] -> Orderbook.bids ob <> [] -> Orderbook.side_empty ob = false.
Proof.
  unfold Orderbook.side_empty.
  destruct (Orderbook.asks ob), (Orderbook.bids ob); done.
Qed.

Lemma side_empty_true (ob : Orderbook.t) :
  Orderbook.asks ob = [] \/ Orderbook.bids ob = [] <-> Orderbook.side_empty ob = true.
Proof.
  unfold Orderbook.side_empty.
  destruct (Orderbook.asks ob), (Orderbook.bids ob);
    split; try done; try (by left); try (by right); intros [?|?]; done.
Qed.

(** C9: [get_orderbook_imbalance] has no value when a side is empty; with
    both sides non-empty it is [(bid - ask) / (bid + ask)] of the summed
    quantities, it is 0 when both volumes are 0, and it lies in [[-1, 1]]
    when no level has a negative quantity. *)
Theorem imbalance_spec (ob : Orderbook.t) :
  let bid_volume := py_sum (Orderbook.bids ob).*2 in
  let ask_volume := py_sum (Orderbook.asks ob).*2 in
  (Orderbook.asks ob = [] \/ Orderbook.bids ob = [] ->
     Orderbook.get_orderbook_imbalance ob = None) /\
  (Orderbook.asks ob <> [] -> Orderbook.bids ob <> [] ->
     (bid_volume + ask_volume <> 0 ->
        Orderbook.get_orderbook_imbalance ob
        = Some ((bid_volume - ask_volume) / (bid_volume + ask_volume))) /\
     (bid_volume = 0 -> ask_volume = 0 ->
        Orderbook.get_orderbook_imbalance ob = Some 0) /\
     (Forall (fun l => 0 <= l.2) (Orderbook.asks ob) ->
      Forall (fun l => 0 <= l.2) (Orderbook.bids ob) ->
        exists r, Orderbook.get_orderbook_imbalance ob = Some r /\ -1 <= r <= 1)).
Proof.
  intros bid_volume ask_volume. split.
  - intros Hempty. unfold Orderbook.get_orderbook_imbalance.
    apply side_empty_true in Hempty. by rewrite Hempty.
  - intros Ha Hb. unfold Orderbook.get_orderbook_imbalance.
    rewrite (side_empty_false _ Ha Hb).
    fold bid_volume ask_volume. repeat split.
    + intros Hne. by rewrite decide_False.
    + intros Hb0 Ha0. rewrite decide_True; [done | lra].
    + intros Hqa Hqb.
      assert (0 <= ask_volume) as Hap.
      { apply py_sum_nonneg, Forall_fmap. exact Hqa. }
      assert (0 <= bid_volume) as Hbp.
      { apply py_sum_nonneg, Forall_fmap. exact Hqb. }
      case_decide as Hsum.
      * exists 0. split; [done | lra].
      * eexists. split; [done|].
        assert (0 < bid_volume + ask_volume) as Hpos by lra.
        split.
        -- apply Rmult_le_reg_r with (bid_volume + ask_volume); [done|].
           unfold Rdiv. rewrite Rmult_assoc, Rinv_l by done. lra.
        -- apply Rmult_le_reg_r with (bid_volume + ask_volume); [done|].
           unfold Rdiv. rewrite Rmult_assoc, Rinv_l by done. lra.
Qed.

Lemma imbalance_spec_witness :
  exists r, Orderbook.get_orderbook_imbalance sample_book = Some r /\ -1 <= r <= 1.
Proof.
  destruct (imbalance_spec sample_book) as [_ H].
  destruct H as (_ & _ & H); [done | done |].
  apply H; simpl; repeat constructor; simpl; lra.
Defined.

(** ** Walking one side of the book *)

Section Side.
Import Orderbook.

(** [le p p']: price [p] is met no later than [p'] on this side ([<=] for
    asks, [>=] for bids). *)
Variable le : R -> R -> Prop.
Context `{le_dec : forall x y, Decision (le x y)}.
Hypothesis le_trans : Transitive le.
Hypothesis le_total : forall x y, le x y \/ le y x.

Let ord : relation level := fun x y => le x.1 y.1.
Let keep (price : R) : R -> bool := fun p => bool_decide (le p price).

Lemma consumed_0 (ls : list level) : consumed ls 0 = 0.
Proof. unfold consumed. by rewrite take_0. Qed.

Lemma consumed_S (l : level) (ls : list level) (k : nat) :
  consumed (l :: ls) (S k) = l.2 + consumed ls k.
Proof. unfold consumed. simpl. by rewrite py_sum_cons. Qed.

Lemma consumed_all (ls : list level) : consumed ls (length ls) = py_sum ls.*2.
Proof. unfold consumed. by rewrite firstn_all. Qed.

Lemma consumed_mono (ls : list level) (j k : nat) :
  Forall (fun l => 0 <= l.2) ls -> (j <= k)%nat -> consumed ls j <= consumed ls k.
Proof.
  intros Hq. revert j k.
  induction Hq as [|l ls Hl _ IH]; intros j k Hjk.
  - unfold consumed. rewrite !take_nil. lra.
  - destruct j as [|j]; destruct k as [|k]; try lia.
    + rewrite consumed_0. lra.
    + rewrite consumed_0, consumed_S.
      specialize (IH 0%nat k). rewrite consumed_0 in IH. specialize (IH ltac:(lia)). lra.
    + rewrite !consumed_S. specialize (IH j k ltac:(lia)). lra.
Qed.

Lemma volume_while_acc (f : R -> bool) (ls : list level) (a : R) :
  volume_while f ls a = a + volume_while f ls 0.
Proof.
  revert a. induction ls as [|[p q] ls IH]; intros a; simpl.
  - lra.
  - destruct (f p); [|lra].
    rewrite (IH (a + q)), (IH (0 + q)). lra.
Qed.

(** The loop adds exactly the longest prefix of levels that pass the test. *)
Lemma volume_while_prefix (f : R -> bool) (ls : list level) :
  exists m,
    (m <= length ls)%nat /\
    volume_while f ls 0 = consumed ls m /\
    (forall j l, (j < m)%nat -> ls !! j = Some l -> f l.1 = true) /\
    (forall l, ls !! m = Some l -> f l.1 = false).
Proof.
  induction ls as [|[p q] ls (m & Hm & Hv & Hkept & Hstop)]; simpl.
  - exists 0%nat. rewrite consumed_0. repeat split; [lia | | done].
    intros j l Hj. lia.
  - destruct (f p) eqn:Hfp.
    + exists (S m). rewrite volume_while_acc, Hv, consumed_S. simpl.
      repeat split; [lia | lra | | done].
      intros [|j] l Hj Hl; simpl in Hl.
      * by inversion Hl.
      * apply (Hkept j); [lia | done].
    + exists 0%nat. rewrite consumed_0. repeat split; [lia | | ].
      * intros j l Hj. lia.
      * intros l [= <-]. done.
Qed.

(** Enough depth: the walk stops at the first level whose cumulative
    volume reaches [v]. *)
Lemma price_walk_reaches (ls : list level) (v : R) :
  ls <> [] -> v <= py_sum ls.*2 ->
  exists k p q,
    ls !! k = Some (p, q) /\
    price_walk ls v = Some p /\
    v <= consumed ls (S k) /\
    (forall j, (j < k)%nat -> consumed ls (S j) < v).
Proof.
  revert v. induction ls as [|[p q] ls IH]; intros v Hne Hv; [done|].
  rewrite fmap_cons, py_sum_cons in Hv. simpl in *. case_decide as Hstop.
  - exists 0%nat, p, q. rewrite consumed_S, consumed_0. simpl.
    repeat split; [lra|]. intros j Hj. lia.
  - destruct ls as [|l ls'].
    { rewrite fmap_nil, py_sum_nil in Hv. lra. }
    destruct (IH (v - q)) as (k & p' & q' & Hk & Hwalk & Hreach & Hfirst);
      [done | lra |].
    exists (S k), p', q'. repeat split; [done | done | |].
    + rewrite consumed_S. simpl. lra.
    + intros [|j] Hj.
      * rewrite consumed_S, consumed_0. simpl. lra.
      * rewrite consumed_S. simpl. specialize (Hfirst j ltac:(lia)). lra.
Qed.

(** Too little depth: the walk runs off the side. *)
Lemma price_walk_short (ls : list level) (v : R) :
  Forall (fun l => 0 <= l.2) ls -> py_sum ls.*2 < v -> price_walk ls v = None.
Proof.
  intros Hq. revert v.
  induction Hq as [|[p q] ls Hl Hq IH]; intros v Hv; [done|].
  rewrite fmap_cons, py_sum_cons in Hv. simpl in *.
  assert (0 <= py_sum ls.*2) by (apply py_sum_nonneg, Forall_fmap; exact Hq).
  rewrite decide_False by lra. apply IH. lra.
Qed.

Lemma le_refl (x : R) : le x x.
Proof. by destruct (le_total x x). Qed.

(** In a sorted side every level up to index [k] is met no later than
    level [k]. *)
Lemma sorted_before (ls : list level) (j k : nat) (lj lk : level) :
  Sorted ord ls -> (j <= k)%nat -> ls !! j = Some lj -> ls !! k = Some lk ->
  le lj.1 lk.1.
Proof.
  intros Hs Hjk Hj Hk.
  destruct (decide (j = k)) as [->|Hne].
  - rewrite Hj in Hk. inversion Hk. apply le_refl.
  - assert (Transitive ord) as Htr.
    { intros x y z Hxy Hyz. unfold ord in *. by etrans. }
    apply (Sorted_StronglySorted ord) in Hs.
    clear Htr. revert j k lj lk Hjk Hne Hj Hk.
    induction Hs as [|x ls Hs IH Hall]; intros j k lj lk Hjk Hne Hj Hk; [done|].
    destruct j as [|j]; destruct k as [|k]; try lia; simpl in *.
    + inversion Hj; subst lj.
      rewrite Forall_forall in Hall. apply Hall.
      by eapply list_elem_of_lookup_2.
    + apply (IH j k); [lia | lia | done | done].
Qed.

(** The volume up to the price the walk returns covers the levels walked. *)
Lemma volume_at_walk_price (ls : list level) (k : nat) (p q : R) :
  Sorted ord ls -> Forall (fun l => 0 <= l.2) ls -> ls !! k = Some (p, q) ->
  consumed ls (S k) <= volume_while (keep p) ls 0.
Proof.
  intros Hs Hq Hk.
  destruct (volume_while_prefix (keep p) ls) as (m & Hm & Hv & Hkept & Hstop).
  rewrite Hv. apply consumed_mono; [done|].
  destruct (decide (S k <= m)%nat) as [|Hlt]; [done|].
  assert (m <= k)%nat as Hmk by lia.
  destruct (lookup_lt_is_Some_2 ls m) as [lm Hlm].
  { apply lookup_lt_Some in Hk. lia. }
  specialize (Hstop lm Hlm). unfold keep in Hstop.
  apply bool_decide_eq_false in Hstop.
  destruct Hstop. apply (sorted_before ls m k lm (p, q)); done.
Qed.

(** At a price strictly nearer the touch the volume is still short. *)
Lemma volume_before_walk_price (ls : list level) (k : nat) (p q p' v : R) :
  Sorted ord ls -> ls !! k = Some (p, q) ->
  (forall j, (j < k)%nat -> consumed ls (S j) < v) ->
  ~ le p p' ->
  0 < v \/ p' ∈ ls.*1 ->
  volume_while (keep p') ls 0 < v.
Proof.
  intros Hs Hk Hfirst Hnear Hv.
  destruct (volume_while_prefix (keep p') ls) as (m & Hm & Hvol & Hkept & Hstop).
  rewrite Hvol.
  assert (m <= k)%nat as Hmk.
  { destruct (decide (m <= k)%nat) as [|Hgt]; [done|].
    specialize (Hkept k (p, q) ltac:(lia) Hk). unfold keep in Hkept.
    apply bool_decide_eq_true in Hkept. done. }
  destruct m as [|m]; [|apply Hfirst; lia].
  rewrite consumed_0. destruct Hv as [Hv|Hin]; [done|].
  apply list_elem_of_fmap in Hin as ([p0 q0] & -> & Hin).
  apply list_elem_of_lookup in Hin as [j Hj].
  destruct (lookup_lt_is_Some_2 ls 0) as [l0 Hl0].
  { apply lookup_lt_Some in Hj. lia. }
  specialize (Hstop l0 Hl0). unfold keep in Hstop.
  apply bool_decide_eq_false in Hstop.
  destruct Hstop. apply (sorted_before ls 0 j l0 (p0, q0)); [done | lia | done | done].
Qed.

End Side.

(** ** [get_price_for_volume] against [get_volume_up_to_price] *)

Lemma Rle_transitive : Transitive Rle.
Proof. intros x y z ? ?. lra. Qed.

Lemma Rge_transitive : Transitive Rge.
Proof. intros x y z ? ?. lra. Qed.

Lemma Rle_either (x y : R) : x <= y \/ y <= x.
Proof. lra. Qed.

Lemma Rge_either (x y : R) : x >= y \/ y >= x.
Proof. lra. Qed.

(** C5 (amended): on a book whose sides are sorted and whose quantities on
    the chosen side are not negative, for a volume [v] that the depth of a
    non-empty side covers, [get_price_for_volume] returns the price of the
    first level at which the cumulative consumed volume reaches [v]; at that
    price [get_volume_up_to_price] is at least [v], and at every price
    strictly nearer the touch (any price when [0 < v], any price of a level
    otherwise) it is below [v].  When the depth of the side is less than [v]
    there is no value. *)
Theorem price_for_volume_spec (ob : Orderbook.t) (side : string) (v : R) :
  lower side = "ask" \/ lower side = "bid" ->
  Sorted Orderbook.asc (Orderbook.asks ob) ->
  Sorted Orderbook.desc (Orderbook.bids ob) ->
  Forall (fun l => 0 <= l.2) (Orderbook.side_levels ob side) ->
  let levels := Orderbook.side_levels ob side in
  (levels <> [] -> v <= py_sum levels.*2 ->
     exists k p q,
       levels !! k = Some (p, q) /\
       v <= Orderbook.consumed levels (S k) /\
       (forall j, (j < k)%nat -> Orderbook.consumed levels (S j) < v) /\
       Orderbook.get_price_for_volume ob side v = Some p /\
       v <= Orderbook.get_volume_up_to_price ob side p /\
       (forall p', Orderbook.nearer side p' p -> 0 < v \/ p' ∈ levels.*1 ->
          Orderbook.get_volume_up_to_price ob side p' < v)) /\
  (py_sum levels.*2 < v -> Orderbook.get_price_for_volume ob side v = None).
Proof.
  intros Hside Hasks Hbids Hq levels. subst levels.
  unfold Orderbook.side_levels, Orderbook.get_price_for_volume,
    Orderbook.get_volume_up_to_price, Orderbook.nearer in *.
  destruct Hside as [Hside|Hside]; rewrite Hside in *; simpl in *.
  - split; [|by apply price_walk_short].
    intros Hne Hv.
    destruct (price_walk_reaches (Orderbook.asks ob) v Hne Hv)
      as (k & p & q & Hk & Hwalk & Hreach & Hfirst).
    exists k, p, q. repeat split; try done.
    + etrans; [exact Hreach|].
      by apply (volume_at_walk_price Rle Rle_transitive Rle_either (Orderbook.asks ob) k p q).
    + intros p' Hnear Hp'.
      apply (volume_before_walk_price Rle Rle_transitive Rle_either
               (Orderbook.asks ob) k p q p' v); try done.
      lra.
  - split; [|by apply price_walk_short].
    intros Hne Hv.
    destruct (price_walk_reaches (Orderbook.bids ob) v Hne Hv)
      as (k & p & q & Hk & Hwalk & Hreach & Hfirst).
    exists k, p, q. repeat split; try done.
    + etrans; [exact Hreach|].
      by apply (volume_at_walk_price Rge Rge_transitive Rge_either (Orderbook.bids ob) k p q).
    + intros p' Hnear Hp'.
      apply (volume_before_walk_price Rge Rge_transitive Rge_either
               (Orderbook.bids ob) k p q p' v); try done.
      lra.
Qed.

Lemma price_for_volume_spec_witness :
  let levels := Orderbook.side_levels sample_book "ask" in
  exists k p q,
    levels !! k = Some (p, q) /\
    2 <= Orderbook.consumed levels (S k) /\
    (forall j, (j < k)%nat -> Orderbook.consumed levels (S j) < 2) /\
    Orderbook.get_price_for_volume sample_book "ask" 2 = Some p /\
    2 <= Orderbook.get_volume_up_to_price sample_book "ask" p /\
    (forall p', Orderbook.nearer "ask" p' p -> 0 < 2 \/ p' ∈ levels.*1 ->
       Orderbook.get_volume_up_to_price sample_book "ask" p' < 2).
Proof.
  destruct (price_for_volume_spec sample_book "ask" 2) as [H _].
  - left. reflexivity.
  - repeat constructor; unfold Orderbook.asc; simpl; lra.
  - repeat constructor; unfold Orderbook.desc; simpl; lra.
  - repeat constructor; simpl; lra.
  - apply H.
    + discriminate.
    + unfold py_sum. simpl. lra.
Defined.

(** The two lookups of [tests/test_simulator.py]. *)
Example price_for_volume_sample :
  Orderbook.get_price_for_volume sample_book "ask" 2.0 = Some 45001.0 /\
  Orderbook.get_price_for_volume sample_book "bid" 2.0 = Some 44999.0.
Proof.
  unfold Orderbook.get_price_for_volume. simpl. split; decide_R; reflexivity.
Qed.

(** The metrics of [tests/test_simulator.py]. *)
Example orderbook_sample_metrics :
  Orderbook.get_mid_price sample_book = Some ((45000.5 + 44999.5) / 2) /\
  Orderbook.get_spread sample_book = Some (45000.5 - 44999.5) /\
  Orderbook.get_volume_up_to_price sample_book "ask" 45002.0 = 0 + 1.5 + 2.0 + 3.0 /\
  Orderbook.get_volume_up_to_price sample_book "bid" 44998.0 = 0 + 1.0 + 2.0 + 3.0 /\
  Orderbook.get_volume_at_price sample_book "ask" 45000.5 = 1.5.
Proof.
  repeat split.
  - unfold Orderbook.get_volume_up_to_price. simpl. decide_R.
  - unfold Orderbook.get_volume_up_to_price. simpl. decide_R.
  - unfold Orderbook.get_volume_at_price. simpl. rewrite decide_True; [done|].
    replace (45000.5 - 45000.5) with 0 by lra. rewrite Rabs_R0. lra.
Qed.

(** C5, as stated, fails on a sorted side that holds a negative quantity:
    the depth of the ask side is 1, below [v = 3], yet a price is returned,
    and the volume up to that price is 1, below [v].  It also fails on an
    empty side for [v = 0]: the depth 0 covers [v], and there is no value. *)
Lemma price_for_volume_negative_quantity :
  (Sorted Orderbook.asc (Orderbook.asks degenerate_book) /\
   Sorted Orderbook.desc (Orderbook.bids degenerate_book) /\
   py_sum (Orderbook.asks degenerate_book).*2 < 3 /\
   Orderbook.get_price_for_volume degenerate_book "ask" 3 = Some 100 /\
   Orderbook.get_volume_up_to_price degenerate_book "ask" 100 < 3) /\
  (0 <= py_sum (Orderbook.asks (Orderbook.init 50)).*2 /\
   Orderbook.get_price_for_volume (Orderbook.init 50) "ask" 0 = None).
Proof.
  split; repeat split.
  - repeat constructor; unfold Orderbook.asc; simpl; lra.
  - repeat constructor.
  - unfold py_sum. simpl. lra.
  - unfold Orderbook.get_price_for_volume. simpl. decide_R. reflexivity.
  - unfold Orderbook.get_volume_up_to_price. simpl. decide_R.
  - unfold py_sum. simpl. lra.
Qed.

(** ** The fee table *)

Module FeeFacts.
Import FeeModel.

Lemma subscript_Some {V} (d : gmap string V) (k : string) (v : V) :
  d !! k = Some v -> subscript d k = Return v.
Proof. unfold subscript. by intros ->. Qed.

Lemma subscript_None {V} (d : gmap string V) (k : string) :
  d !! k = None -> subscript d k = Raise (KeyError k).
Proof. unfold subscript. by intros ->. Qed.

Lemma resolve_Some {V} (d : gmap string V) (k fallback : string) :
  is_Some (d !! fallback) -> is_Some (d !! resolve d k fallback).
Proof. intros Hf. unfold resolve. by case_decide. Qed.

Lemma complete_init : complete init.
Proof.
  split.
  { eexists. apply lookup_insert_eq. }
  intros exchange by_market Hex. unfold init in Hex. simpl in Hex.
  apply lookup_insert_Some in Hex as [[_ <-]|[_ Hex]]; [|by rewrite lookup_empty in Hex].
  split.
  { eexists. apply lookup_insert_eq. }
  intros market_type by_order Hm.
  apply lookup_insert_Some in Hm as [[_ <-]|[_ Hm]].
  { intros order_type [->| ->]; eexists;
      (split; [reflexivity | eexists; apply lookup_insert_eq]). }
  apply lookup_insert_Some in Hm as [[_ <-]|[_ Hm]]; [|by rewrite lookup_empty in Hm].
  intros order_type [->| ->]; eexists;
    (split; [reflexivity | eexists; apply lookup_insert_eq]).
Qed.

Lemma complete_add (fm : t) (exchange : string)
    (tiers : gmap string (gmap string (gmap string R))) :
  complete fm -> complete_exchange tiers ->
  complete (add_exchange_fee_tiers fm exchange tiers).
Proof.
  intros [Hokx Hall] Htiers. split; simpl.
  - destruct (decide (exchange = "OKX")) as [->|Hne].
    + rewrite lookup_insert_eq. by eexists.
    + by rewrite lookup_insert_ne.
  - intros exchange' by_market Hex.
    apply lookup_insert_Some in Hex as [[_ <-]|[_ Hex]]; [done|].
    by apply (Hall exchange').
Qed.

Lemma get_fee_rate_complete (fm : t) (exchange market_type fee_tier : string)
    (is_maker : bool) :
  complete fm ->
  exists by_market by_order by_tier rate,
    fee_tiers fm !! resolve (fee_tiers fm) exchange "OKX" = Some by_market /\
    by_market !! resolve by_market market_type "spot" = Some by_order /\
    by_order !! (if is_maker then "maker" else "taker") = Some by_tier /\
    by_tier !! resolve by_tier fee_tier "VIP0" = Some rate /\
    get_fee_rate fm exchange market_type fee_tier is_maker = Return rate.
Proof.
  intros [Hokx Hall].
  destruct (resolve_Some (fee_tiers fm) exchange "OKX" Hokx) as [by_market Hex].
  destruct (Hall _ _ Hex) as [Hspot Hmarkets].
  destruct (resolve_Some by_market market_type "spot" Hspot) as [by_order Hm].
  destruct (Hmarkets _ _ Hm (if is_maker then "maker" else "taker"))
    as (by_tier & Ht & Hvip0).
  { destruct is_maker; [by left | by right]. }
  destruct (resolve_Some by_tier fee_tier "VIP0" Hvip0) as [rate Hrate].
  exists by_market, by_order, by_tier, rate. repeat split; try done.
  unfold get_fee_rate. fold (resolve (fee_tiers fm) exchange "OKX").
  rewrite (bind_Return _ _ by_market) by by apply subscript_Some.
  fold (resolve by_market market_type "spot").
  rewrite (bind_Return _ _ by_order) by by apply subscript_Some.
  rewrite (bind_Return _ _ by_tier) by by apply subscript_Some.
  fold (resolve by_tier fee_tier "VIP0").
  by apply subscript_Some.
Qed.

End FeeFacts.

(** C6 (amended): on a complete fee table (OKX listed, a spot market under
    every exchange, both order types under every market, VIP0 under each)
    [get_fee_rate] returns a rate for every exchange, market type and tier
    and never raises: an unlisted exchange is read as 'OKX', a market type
    unlisted under the (possibly substituted) exchange as 'spot', a tier
    unlisted in the maker or taker bucket as 'VIP0'.  The table of
    [FeeModel()] is complete, and [add_exchange_fee_tiers] keeps a table
    complete when the structure it installs is complete. *)
Theorem get_fee_rate_falls_back :
  FeeModel.complete FeeModel.init /\
  (forall fm exchange tiers,
     FeeModel.complete fm -> FeeModel.complete_exchange tiers ->
     FeeModel.complete (FeeModel.add_exchange_fee_tiers fm exchange tiers)) /\
  (forall fm exchange market_type fee_tier (is_maker : bool),
     FeeModel.complete fm ->
     exists (by_market : gmap string (gmap string (gmap string R)))
            (by_order : gmap string (gmap string R)) (by_tier : gmap string R) (rate : R),
       FeeModel.fee_tiers fm !! FeeModel.resolve (FeeModel.fee_tiers fm) exchange "OKX"
         = Some by_market /\
       by_market !! FeeModel.resolve by_market market_type "spot" = Some by_order /\
       by_order !! (if is_maker then "maker" else "taker") = Some by_tier /\
       by_tier !! FeeModel.resolve by_tier fee_tier "VIP0" = Some rate /\
       FeeModel.get_fee_rate fm exchange market_type fee_tier is_maker = Return rate).
Proof.
  split; [exact FeeFacts.complete_init|].
  split; [exact FeeFacts.complete_add|].
  exact FeeFacts.get_fee_rate_complete.
Qed.

Lemma get_fee_rate_falls_back_witness :
  exists (by_market : gmap string (gmap string (gmap string R)))
         (by_order : gmap string (gmap string R)) (by_tier : gmap string R) (rate : R),
    FeeModel.fee_tiers FeeModel.init
      !! FeeModel.resolve (FeeModel.fee_tiers FeeModel.init) "Binance" "OKX"
      = Some by_market /\
    by_market !! FeeModel.resolve by_market "swap" "spot" = Some by_order /\
    by_order !! "maker" = Some by_tier /\
    by_tier !! FeeModel.resolve by_tier "VIP9" "VIP0" = Some rate /\
    FeeModel.get_fee_rate FeeModel.init "Binance" "swap" "VIP9" true = Return rate.
Proof.
  destruct get_fee_rate_falls_back as (Hinit & _ & H).
  exact (H FeeModel.init "Binance" "swap" "VIP9" true Hinit).
Defined.

(** On the default table the three fallbacks end at OKX spot VIP0. *)
Example get_fee_rate_unknown_keys :
  FeeModel.get_fee_rate FeeModel.init "Binance" "swap" "VIP9" true = Return 0.0010 /\
  FeeModel.get_fee_rate FeeModel.init "Binance" "swap" "VIP9" false = Return 0.0015.
Proof. split; vm_compute; reflexivity. Qed.

(** C6, as stated, fails for a table installed later: an exchange added
    with a futures market only has no 'spot' entry to fall back on, and the
    lookup raises KeyError. *)
Lemma get_fee_rate_installed_table_raises :
  FeeModel.get_fee_rate
    (FeeModel.add_exchange_fee_tiers FeeModel.init "Binance" futures_only)
    "Binance" "spot" "VIP0" true
  = Raise (KeyError "spot").
Proof. vm_compute. reflexivity. Qed.

(** ** [calculate_fee] *)

Lemma okx_spot_vip0_rates :
  FeeModel.get_fee_rate FeeModel.init "OKX" "spot" "VIP0" true = Return 0.0010 /\
  FeeModel.get_fee_rate FeeModel.init "OKX" "spot" "VIP0" false = Return 0.0015.
Proof. split; vm_compute; reflexivity. Qed.

(** C7 (amended): when both rate lookups return, [calculate_fee] charges
    the maker rate on [order_value * maker_proportion] and the taker rate on
    [order_value * (1 - maker_proportion)], [total_fee] is the sum of the two
    fees, and [effective_rate] is [total_fee / order_value] when
    [order_value > 0] and 0 otherwise, so for zero and for negative order
    values. *)
Theorem calculate_fee_spec (fm : FeeModel.t) (order_value : R)
    (exchange market_type fee_tier : string) (maker_proportion maker_rate taker_rate : R) :
  FeeModel.get_fee_rate fm exchange market_type fee_tier true = Return maker_rate ->
  FeeModel.get_fee_rate fm exchange market_type fee_tier false = Return taker_rate ->
  exists f,
    FeeModel.calculate_fee fm order_value exchange market_type fee_tier maker_proportion
      = Return f /\
    FeeModel.maker_fee f = order_value * maker_proportion * maker_rate /\
    FeeModel.taker_fee f = order_value * (1 - maker_proportion) * taker_rate /\
    FeeModel.total_fee f = FeeModel.maker_fee f + FeeModel.taker_fee f /\
    (0 < order_value -> FeeModel.effective_rate f = FeeModel.total_fee f / order_value) /\
    (order_value <= 0 -> FeeModel.effective_rate f = 0).
Proof.
  intros Hmaker Htaker. unfold FeeModel.calculate_fee.
  rewrite (bind_Return _ _ _ Hmaker), (bind_Return _ _ _ Htaker).
  eexists. split; [reflexivity|]. simpl.
  repeat split; intros; decide_R; reflexivity.
Qed.

Lemma calculate_fee_spec_witness :
  exists f,
    FeeModel.calculate_fee FeeModel.init 4500 "OKX" "spot" "VIP0" 0.5 = Return f /\
    FeeModel.maker_fee f = 4500 * 0.5 * 0.0010 /\
    FeeModel.taker_fee f = 4500 * (1 - 0.5) * 0.0015 /\
    FeeModel.total_fee f = FeeModel.maker_fee f + FeeModel.taker_fee f /\
    (0 < 4500 -> FeeModel.effective_rate f = FeeModel.total_fee f / 4500) /\
    (4500 <= 0 -> FeeModel.effective_rate f = 0).
Proof.
  apply (calculate_fee_spec FeeModel.init 4500 "OKX" "spot" "VIP0" 0.5 0.0010 0.0015).
  - exact (proj1 okx_spot_vip0_rates).
  - exact (proj2 okx_spot_vip0_rates).
Defined.

(** C7, as stated, fails for a negative order value: at [order_value = -1]
    (all taker, OKX spot VIP0) the total fee is -0.0015, the quotient
    [total_fee / order_value] is 0.0015, and the effective rate returned
    is 0. *)
Lemma calculate_fee_negative_order_value :
  exists f,
    FeeModel.calculate_fee FeeModel.init (-1) "OKX" "spot" "VIP0" 0 = Return f /\
    FeeModel.total_fee f / (-1) = 0.0015 /\
    FeeModel.effective_rate f = 0 /\
    FeeModel.effective_rate f <> FeeModel.total_fee f / (-1).
Proof.
  unfold FeeModel.calculate_fee.
  rewrite (bind_Return _ _ _ (proj1 okx_spot_vip0_rates)),
    (bind_Return _ _ _ (proj2 okx_spot_vip0_rates)).
  eexists. split; [reflexivity|]. simpl.
  rewrite decide_False by lra.
  repeat split; lra.
Qed.

(** ** [SlippageModel]: where an unknown regression type is reported *)

(** C3 (amended): constructing a [SlippageModel] never fails, whatever the
    regression type: the type is stored unchecked and the model starts
    unfitted, estimating by the heuristic.  A type other than 'linear' or
    'quantile' is reported later, by [fit], and only when [fit] is given at
    least 10 samples (ValueError, the model stays unfitted); with fewer
    samples [fit] returns and changes nothing. *)
Theorem unknown_regression_type_raises_in_fit (regression_type : string) (quantile : R)
    (X : list (list R)) (y : list R) :
  regression_type <> "linear" -> regression_type <> "quantile" ->
  let m := SlippageModel.init regression_type quantile in
  SlippageModel.regression_type m = regression_type /\
  SlippageModel.is_fitted m = false /\
  (forall sk order_size spread volatility orderbook_imbalance,
     SlippageModel.estimate_slippage sk m order_size spread volatility orderbook_imbalance
     = SlippageModel._estimate_slippage_fallback order_size spread volatility
         orderbook_imbalance) /\
  ((length X < 10)%nat -> SlippageModel.fit m X y = (m, Return ())) /\
  ((10 <= length X)%nat ->
     (SlippageModel.fit m X y).2
       = Raise (ValueError ("Unknown regression type: " +:+ regression_type)) /\
     SlippageModel.is_fitted (SlippageModel.fit m X y).1 = false /\
     SlippageModel.model (SlippageModel.fit m X y).1 = None).
Proof.
  intros Hlin Hquant m. subst m. unfold SlippageModel.fit, SlippageModel.fit_with. simpl.
  repeat split.
  - intros Hfew. by rewrite decide_True.
  - rewrite decide_False by lia.
    rewrite (decide_False (P := regression_type = "linear")) by done.
    by rewrite (decide_False (P := regression_type = "quantile")).
  - rewrite decide_False by lia.
    rewrite (decide_False (P := regression_type = "linear")) by done.
    by rewrite (decide_False (P := regression_type = "quantile")).
  - rewrite decide_False by lia.
    rewrite (decide_False (P := regression_type = "linear")) by done.
    by rewrite (decide_False (P := regression_type = "quantile")).
Qed.

Lemma unknown_regression_type_raises_in_fit_witness :
  let m := SlippageModel.init "cubic" 0.5 in
  SlippageModel.regression_type m = "cubic" /\
  SlippageModel.is_fitted m = false /\
  (forall sk order_size spread volatility orderbook_imbalance,
     SlippageModel.estimate_slippage sk m order_size spread volatility orderbook_imbalance
     = SlippageModel._estimate_slippage_fallback order_size spread volatility
         orderbook_imbalance) /\
  ((length ten_rows < 10)%nat -> SlippageModel.fit m ten_rows ten_targets = (m, Return ())) /\
  ((10 <= length ten_rows)%nat ->
     (SlippageModel.fit m ten_rows ten_targets).2
       = Raise (ValueError ("Unknown regression type: " +:+ "cubic")) /\
     SlippageModel.is_fitted (SlippageModel.fit m ten_rows ten_targets).1 = false /\
     SlippageModel.model (SlippageModel.fit m ten_rows ten_targets).1 = None).
Proof.
  apply (unknown_regression_type_raises_in_fit "cubic" 0.5 ten_rows ten_targets);
    discriminate.
Defined.

(** C3, as stated, fails: [SlippageModel('cubic')] is constructed, a [fit]
    on too few samples returns normally, the unfitted model estimates by the
    heuristic, and the ValueError appears only in a [fit] on ten samples. *)
Lemma unknown_regression_type_constructs :
  let m := SlippageModel.init "cubic" 0.5 in
  SlippageModel.regression_type m = "cubic" /\
  SlippageModel.fit m [] [] = (m, Return ()) /\
  SlippageModel.estimate_slippage Sklearn.constant_predictors m 0 1 0 0
    = Return (1 * 0.5 + ln (1 + 0) * 0.1 + 0 * 2.0 + - 0 * 1 * 0.3) /\
  (SlippageModel.fit m ten_rows ten_targets).2
    = Raise (ValueError "Unknown regression type: cubic").
Proof.
  simpl. repeat split.
  unfold SlippageModel.estimate_slippage, SlippageModel._estimate_slippage_fallback,
    np_log1p. simpl.
  rewrite decide_True by lra. reflexivity.
Qed.

(** ** The heuristics and their values that are not finite *)

Module HeuristicFacts.

(** The slippage heuristic as a function into the reals is its float64
    value when that is finite, and the fault otherwise. *)
Lemma slippage_fallback_value (order_size spread volatility orderbook_imbalance : R) :
  SlippageModel._estimate_slippage_fallback order_size spread volatility
    orderbook_imbalance
  = Np.finite (SlippageModel._estimate_slippage_fallback_value order_size spread
                 volatility orderbook_imbalance).
Proof.
  unfold SlippageModel._estimate_slippage_fallback,
    SlippageModel._estimate_slippage_fallback_value, np_log1p, Np.log1p.
  repeat case_decide; simpl; try done; try lra.
  unfold Np.signed_inf. by repeat case_decide.
Qed.

Lemma estimate_slippage_value_real (sk : Sklearn.predictors) (m : SlippageModel.t)
    (order_size spread volatility orderbook_imbalance : R) :
  SlippageModel.estimate_slippage sk m order_size spread volatility orderbook_imbalance
  = x ← SlippageModel.estimate_slippage_value sk m order_size spread volatility
          orderbook_imbalance;
    Np.finite x.
Proof.
  unfold SlippageModel.estimate_slippage, SlippageModel.estimate_slippage_value.
  destruct (SlippageModel.is_fitted m); simpl.
  - by destruct (SlippageModel.predict _ _ _).
  - apply slippage_fallback_value.
Qed.

Lemma slippage_fallback_value_above (order_size spread volatility orderbook_imbalance : R) :
  -1 < order_size ->
  SlippageModel._estimate_slippage_fallback_value order_size spread volatility
    orderbook_imbalance
  = Np.Finite (spread * 0.5 + ln (1 + order_size) * 0.1 + volatility * 2.0
               + - orderbook_imbalance * spread * 0.3).
Proof.
  intros Hq. unfold SlippageModel._estimate_slippage_fallback_value.
  by rewrite NpFacts.log1p_above.
Qed.

Lemma slippage_fallback_value_below (order_size spread volatility orderbook_imbalance : R) :
  order_size <= -1 ->
  Np.is_finite (SlippageModel._estimate_slippage_fallback_value order_size spread
                  volatility orderbook_imbalance) = false.
Proof.
  intros Hq. unfold SlippageModel._estimate_slippage_fallback_value.
  rewrite !NpFacts.add_finite_r, NpFacts.add_finite_l, NpFacts.mul_finite_r,
    NpFacts.log1p_finite.
  by rewrite bool_decide_false by lra.
Qed.

(** The maker/taker heuristic above -1: the clamp of the sum of its
    factors. *)
Lemma maker_fallback_above (order_size spread volatility orderbook_imbalance : R) :
  -1 < order_size ->
  MakerTakerModel._estimate_maker_proportion_fallback order_size spread volatility
    orderbook_imbalance
  = Return (Rmax 0.0 (Rmin 1.0
      (0.5 + - 0.1 * ln (1 + order_size) / 10.0 + 0.1 * tanh spread
       + - 0.2 * volatility + 0.1 * orderbook_imbalance))).
Proof.
  intros Hq. unfold MakerTakerModel._estimate_maker_proportion_fallback.
  rewrite NpFacts.log1p_above by done. simpl.
  rewrite (decide_False (P := 10.0 = 0)) by lra. simpl.
  rewrite NpFacts.clamp_Finite. done.
Qed.

(** At -1 and below the sum is +inf or nan, and the clamp returns 1. *)
Lemma maker_fallback_below (order_size spread volatility orderbook_imbalance : R) :
  order_size <= -1 ->
  MakerTakerModel._estimate_maker_proportion_fallback order_size spread volatility
    orderbook_imbalance = Return 1.0.
Proof.
  intros Hq. unfold MakerTakerModel._estimate_maker_proportion_fallback, Np.log1p.
  rewrite decide_False by lra.
  destruct (decide (order_size = -1)) as [->|Hlt]; simpl.
  - unfold Np.signed_inf. rewrite decide_True by lra. simpl.
    rewrite (decide_False (P := 10.0 < 0)) by lra. simpl.
    by rewrite NpFacts.clamp_PosInf.
  - by rewrite NpFacts.clamp_NaN.
Qed.

Lemma maker_fallback_returns (order_size spread volatility orderbook_imbalance : R) :
  exists p,
    MakerTakerModel._estimate_maker_proportion_fallback order_size spread volatility
      orderbook_imbalance = Return p /\ 0 <= p <= 1.
Proof.
  destruct (decide (-1 < order_size)) as [Hq|Hq].
  - rewrite maker_fallback_above by done. eexists. split; [done|]. split.
    + etrans; [|apply Rmax_l]. lra.
    + apply Rmax_lub; [lra|]. etrans; [apply Rmin_l|]. lra.
  - rewrite maker_fallback_below by lra. eexists. split; [done|]. lra.
Qed.

End HeuristicFacts.

(** ** [simulate_market_order] *)

Module SimulatorFacts.
Import TradeSimulator.

(** With both sides non-empty the three metrics have a value. *)
Lemma metrics_available (ob : Orderbook.t) :
  Orderbook.side_empty ob = false ->
  is_Some (Orderbook.get_mid_price ob) /\
  is_Some (Orderbook.get_spread ob) /\
  is_Some (Orderbook.get_orderbook_imbalance ob).
Proof.
  unfold Orderbook.get_mid_price, Orderbook.get_spread, Orderbook.get_orderbook_imbalance.
  intros Hne. rewrite Hne. unfold Orderbook.side_empty in Hne.
  destruct (Orderbook.asks ob) as [|[pa qa] asks]; [done|].
  destruct (Orderbook.bids ob) as [|[pb qb] bids]; [done|].
  repeat split; try by eexists.
  case_decide; by eexists.
Qed.

(** An empty side: the tagged error and nothing else. *)
Lemma simulate_empty (sk : Sklearn.predictors) (sim : t) (side : string) (quantity : R)
    (exchange market_type fee_tier : string) (volatility t0 t1 : R) :
  Orderbook.side_empty (orderbook sim) = true ->
  simulate_market_order sk sim side quantity exchange market_type fee_tier volatility t0 t1
  = Return (Error EmptyOrderBook).
Proof. intros Hempty. unfold simulate_market_order. by rewrite Hempty. Qed.

(** A dictionary is handed back as finite exactly when its five numbers
    are. *)
Lemma dictionary_Estimate (d : estimate_of Np.number) (est : estimate) :
  dictionary d = Estimate est <-> d = numbers est.
Proof.
  unfold dictionary, finite_estimate, numbers. split.
  - destruct d as [? ? ? ? ? ? [] ? ? ? [] [] ? ? [] [] ?]; simpl; try done.
    by intros [= <-].
  - intros ->. by destruct est.
Qed.

Lemma dictionary_NonFinite (d d' : estimate_of Np.number) :
  dictionary d = NonFinite d' <->
  d' = d /\
  Np.is_finite (execution_price d) && Np.is_finite (slippage d)
  && Np.is_finite (slippage_percentage d) && Np.is_finite (net_cost d)
  && Np.is_finite (net_cost_percentage d) = false.
Proof.
  unfold dictionary, finite_estimate. split.
  - destruct d as [? ? ? ? ? ? [] ? ? ? [] [] ? ? [] [] ?]; simpl; try done;
      by intros [= <-].
  - intros [-> Hd].
    destruct d as [? ? ? ? ? ? [] ? ? ? [] [] ? ? [] [] ?]; simpl in *; done.
Qed.

Lemma returned_dictionary (d : estimate_of Np.number) :
  returned (dictionary d) = Some d.
Proof.
  destruct (dictionary d) as [est|msg|d'] eqn:Hd; simpl.
  - apply dictionary_Estimate in Hd. by rewrite Hd.
  - unfold dictionary in Hd. by destruct (finite_estimate d).
  - apply dictionary_NonFinite in Hd as [-> _]. done.
Qed.

Lemma dictionary_not_Error (d : estimate_of Np.number) (msg : string) :
  dictionary d <> Error msg.
Proof. unfold dictionary. by destruct (finite_estimate d). Qed.

(** Both sides non-empty: the steps behind a returned result. *)
Lemma simulate_inv (sk : Sklearn.predictors) (sim : t) (side : string) (quantity : R)
    (exchange market_type fee_tier : string) (volatility t0 t1 : R) (r : result) :
  let ob := orderbook sim in
  let depth := py_sum (Orderbook.bids ob).*2 + py_sum (Orderbook.asks ob).*2 in
  Orderbook.side_empty ob = false ->
  simulate_market_order sk sim side quantity exchange market_type fee_tier volatility t0 t1
  = Return r <->
  exists mid spread imb mp f sl mi shift,
    Orderbook.get_mid_price ob = Some mid /\
    Orderbook.get_spread ob = Some spread /\
    Orderbook.get_orderbook_imbalance ob = Some imb /\
    MakerTakerModel.estimate_maker_proportion sk (maker_taker_model sim)
      quantity spread volatility imb = Return mp /\
    FeeModel.calculate_fee (fee_model sim) (quantity * mid) exchange market_type
      fee_tier mp = Return f /\
    SlippageModel.estimate_slippage_value sk (slippage_model sim)
      quantity spread volatility imb = Return sl /\
    AlmgrenChrissModel.calculate_market_impact (market_impact_model sim)
      quantity (depth * 100) volatility mid depth 1.0 = Return mi /\
    divide (negb (SlippageModel.is_fitted (slippage_model sim))
            || AlmgrenChrissModel.temporary_impact_is_float64 quantity (depth * 100) depth)
      (Np.add sl (Np.Finite (AlmgrenChrissModel.temporary_impact mi))) quantity
    = Return shift /\
    r = dictionary (mk_estimate (Orderbook.timestamp ob) exchange (Orderbook.symbol ob)
          side quantity mid
          (if decide (lower side = "buy") then Np.add (Np.Finite mid) shift
           else Np.sub (Np.Finite mid) shift)
          (quantity * mid) mp f sl
          (if decide (quantity * mid > 0)
           then Np.mul (Np.div sl (Np.Finite (quantity * mid))) (Np.Finite 100)
           else Np.Finite 0)
          mi
          (if decide (quantity * mid > 0)
           then AlmgrenChrissModel.total_impact mi / (quantity * mid) * 100 else 0)
          (Np.add (Np.add (Np.Finite (FeeModel.total_fee f)) sl)
             (Np.Finite (AlmgrenChrissModel.total_impact mi)))
          (if decide (quantity * mid > 0)
           then Np.mul
                  (Np.div (Np.add (Np.add (Np.Finite (FeeModel.total_fee f)) sl)
                             (Np.Finite (AlmgrenChrissModel.total_impact mi)))
                     (Np.Finite (quantity * mid)))
                  (Np.Finite 100)
           else Np.Finite 0)
          ((t1 - t0) * 1000)).
Proof.
  intros ob depth Hne. unfold simulate_market_order. fold ob. rewrite Hne.
  destruct (metrics_available _ Hne) as ([mid Hmid] & [spread Hspread] & [imb Himb]).
  rewrite Hmid, Hspread, Himb. fold depth.
  split.
  - intros Hsim. exists mid, spread, imb.
    destruct (MakerTakerModel.estimate_maker_proportion _ _ _ _ _ _) as [mp|] eqn:Hmp;
      simpl in Hsim; [|done].
    destruct (FeeModel.calculate_fee _ _ _ _ _ _) as [f|] eqn:Hf; simpl in Hsim; [|done].
    destruct (SlippageModel.estimate_slippage_value _ _ _ _ _ _) as [sl|] eqn:Hsl;
      simpl in Hsim; [|done].
    destruct (AlmgrenChrissModel.calculate_market_impact _ _ _ _ _ _ _) as [mi|] eqn:Hmi;
      simpl in Hsim; [|done].
    destruct (divide _ _ _) as [shift|] eqn:Hshift; simpl in Hsim; [|done].
    exists mp, f, sl, mi, shift. injection Hsim as <-. done.
  - intros (mid' & spread' & imb' & mp & f & sl & mi & shift
            & [= <-] & [= <-] & [= <-] & Hmp & Hf & Hsl & Hmi & Hshift & ->).
    rewrite Hmp. simpl. rewrite Hf. simpl. rewrite Hsl. simpl.
    rewrite Hmi. simpl. rewrite Hshift. done.
Qed.

(** Both sides non-empty: a full dictionary or a fault, never a tagged
    error. *)
Lemma simulate_nonempty (sk : Sklearn.predictors) (sim : t) (side : string) (quantity : R)
    (exchange market_type fee_tier : string) (volatility t0 t1 : R) :
  Orderbook.side_empty (orderbook sim) = false ->
  (exists e,
     simulate_market_order sk sim side quantity exchange market_type fee_tier
       volatility t0 t1 = Raise e) \/
  (exists est,
     simulate_market_order sk sim side quantity exchange market_type fee_tier
       volatility t0 t1 = Return (Estimate est)) \/
  (exists d,
     simulate_market_order sk sim side quantity exchange market_type fee_tier
       volatility t0 t1 = Return (NonFinite d)).
Proof.
  intros Hne.
  destruct (simulate_market_order sk sim side quantity exchange market_type fee_tier
              volatility t0 t1) as [r|e] eqn:Hsim; [|eauto].
  apply simulate_inv in Hsim as (? & ? & ? & ? & ? & ? & ? & ? & Hr); [|done].
  destruct Hr as (_ & _ & _ & _ & _ & _ & _ & _ & ->).
  unfold dictionary. destruct (finite_estimate _); eauto.
Qed.

End SimulatorFacts.

(** X12: the tagged error 'Orderbook is empty' is returned exactly when a
    side of the book is empty, for every side name, quantity, exchange,
    market type, fee tier and volatility, and whatever the estimators
    predict. *)
Lemma empty_book_error_iff (sk : Sklearn.predictors) (sim : TradeSimulator.t)
    (side : string) (quantity : R) (exchange market_type fee_tier : string)
    (volatility t0 t1 : R) :
  TradeSimulator.simulate_market_order sk sim side quantity exchange market_type fee_tier
    volatility t0 t1 = Return (TradeSimulator.Error TradeSimulator.EmptyOrderBook)
  <-> Orderbook.asks (TradeSimulator.orderbook sim) = []
      \/ Orderbook.bids (TradeSimulator.orderbook sim) = [].
Proof.
  rewrite side_empty_true. split.
  - intros Hres.
    destruct (Orderbook.side_empty (TradeSimulator.orderbook sim)) eqn:Hne; [done|].
    destruct (SimulatorFacts.simulate_nonempty sk sim side quantity exchange market_type
                fee_tier volatility t0 t1 Hne) as [[e He]|[[est He]|[d He]]];
      rewrite He in Hres; discriminate.
  - apply SimulatorFacts.simulate_empty.
Qed.

(** C10: with both sides non-empty, [get_mid_price], [get_spread] and
    [get_orderbook_imbalance] all have a value, and no call of
    [simulate_market_order] returns the 'Invalid orderbook metrics' error. *)
Theorem invalid_metrics_unreachable (sk : Sklearn.predictors) (sim : TradeSimulator.t)
    (side : string) (quantity : R) (exchange market_type fee_tier : string)
    (volatility t0 t1 : R) :
  let ob := TradeSimulator.orderbook sim in
  (Orderbook.asks ob <> [] -> Orderbook.bids ob <> [] ->
     is_Some (Orderbook.get_mid_price ob) /\
     is_Some (Orderbook.get_spread ob) /\
     is_Some (Orderbook.get_orderbook_imbalance ob)) /\
  TradeSimulator.simulate_market_order sk sim side quantity exchange market_type fee_tier
    volatility t0 t1 <> Return (TradeSimulator.Error TradeSimulator.InvalidMetrics).
Proof.
  intros ob. split.
  - intros Ha Hb. apply SimulatorFacts.metrics_available. by apply side_empty_false.
  - destruct (Orderbook.side_empty ob) eqn:Hne.
    + rewrite SimulatorFacts.simulate_empty by done. discriminate.
    + destruct (SimulatorFacts.simulate_nonempty sk sim side quantity exchange market_type
                  fee_tier volatility t0 t1 Hne) as [[e He]|[[est He]|[d He]]];
        rewrite He; discriminate.
Qed.

Lemma invalid_metrics_unreachable_witness :
  is_Some (Orderbook.get_mid_price sample_book) /\
  is_Some (Orderbook.get_spread sample_book) /\
  is_Some (Orderbook.get_orderbook_imbalance sample_book).
Proof.
  apply (invalid_metrics_unreachable Sklearn.constant_predictors sample_simulator
           "buy" 0.1 "OKX" "spot" "VIP0" 0.01 0 1); discriminate.
Defined.

(** [calculate_market_impact] returns whenever the execution time is not 0:
    its other divisions and its square root are guarded. *)
Lemma calculate_market_impact_returns (m : AlmgrenChrissModel.t)
    (order_size avg_daily_volume volatility mid_price orderbook_depth execution_time : R) :
  execution_time <> 0 ->
  exists i,
    AlmgrenChrissModel.calculate_market_impact m order_size avg_daily_volume volatility
      mid_price orderbook_depth execution_time = Return i /\
    AlmgrenChrissModel.total_impact i
    = AlmgrenChrissModel.temporary_impact i + AlmgrenChrissModel.permanent_impact i
      + AlmgrenChrissModel.execution_risk i.
Proof.
  intros Ht. unfold AlmgrenChrissModel.calculate_market_impact.
  assert (exists ns,
            (if decide (avg_daily_volume > 0) then fdiv order_size avg_daily_volume
             else Return 0) = Return ns) as [ns Hns].
  { destruct (decide (avg_daily_volume > 0)); [|eexists; reflexivity].
    rewrite fdiv_nonzero by lra. eexists; reflexivity. }
  rewrite (bind_Return _ _ _ Hns), (bind_Return _ _ _ (fdiv_nonzero _ _ Ht)).
  assert (exists sc,
            (if decide (ns > 0) then np_sqrt ns else Return 1.0) = Return sc) as [sc Hsc].
  { destruct (decide (ns > 0)); [|eexists; reflexivity].
    unfold np_sqrt. rewrite decide_False by lra. eexists; reflexivity. }
  rewrite (bind_Return _ _ _ Hsc).
  assert (exists da,
            (if decide (orderbook_depth > 0)
             then depth_ratio ← fdiv order_size orderbook_depth;
                  Return (1.0 + tanh depth_ratio)
             else Return 1.0) = Return da) as [da Hda].
  { destruct (decide (orderbook_depth > 0)); [|eexists; reflexivity].
    rewrite fdiv_nonzero by lra. eexists; reflexivity. }
  rewrite (bind_Return _ _ _ Hda).
  eexists. split; reflexivity.
Qed.

(** On a complete table [calculate_fee] returns. *)
Lemma calculate_fee_returns (fm : FeeModel.t) (order_value : R)
    (exchange market_type fee_tier : string) (maker_proportion : R) :
  FeeModel.complete fm ->
  exists f,
    FeeModel.calculate_fee fm order_value exchange market_type fee_tier maker_proportion
    = Return f.
Proof.
  intros Hfee.
  destruct (FeeFacts.get_fee_rate_complete fm exchange market_type fee_tier true Hfee)
    as (? & ? & ? & maker_rate & _ & _ & _ & _ & Hmr).
  destruct (FeeFacts.get_fee_rate_complete fm exchange market_type fee_tier false Hfee)
    as (? & ? & ? & taker_rate & _ & _ & _ & _ & Htr).
  unfold FeeModel.calculate_fee.
  rewrite (bind_Return _ _ _ Hmr), (bind_Return _ _ _ Htr). eexists; reflexivity.
Qed.

(** ** The state of the estimators between calls of [fit] *)

Module FitFacts.

(** A slippage model on which scikit-learn never failed: fitted, it holds
    a fitted scaler and a trained regressor of its type; unfitted, it holds
    no regressor. *)
Lemma slippage_trained (m : SlippageModel.t) :
  SlippageModel.trained_without_failure m ->
  if SlippageModel.is_fitted m then
    exists rows f,
      SlippageModel.scaler m = Some rows /\
      SlippageModel.model m = Some (Sklearn.Trained f) /\
      (SlippageModel.regression_type m = "linear"
       /\ Sklearn.kind f = Sklearn.LinearRegression
       \/ SlippageModel.regression_type m = "quantile"
          /\ Sklearn.kind f = Sklearn.QuantileRegressor (SlippageModel.quantile m) 0.5)
  else SlippageModel.model m = None.
Proof.
  induction 1 as [rt q|m X y Hm IH]; [done|].
  unfold SlippageModel.fit, SlippageModel.fit_with.
  destruct (decide (length X < 10)%nat); [exact IH|].
  destruct (decide (SlippageModel.regression_type m = "linear")) as [Hlin|Hlin]; simpl.
  { eexists _, _. split; [done|]. split; [done|]. by left. }
  destruct (decide (SlippageModel.regression_type m = "quantile")) as [Hq|Hq]; simpl.
  { eexists _, _. split; [done|]. split; [done|]. by right. }
  destruct (SlippageModel.is_fitted m); [|exact IH].
  destruct IH as (rows & f & _ & _ & [[? _]|[? _]]); done.
Qed.

(** So its estimate is the prediction of the regressor. *)
Lemma slippage_trained_predicts (sk : Sklearn.predictors) (m : SlippageModel.t)
    (order_size spread volatility orderbook_imbalance : R) :
  SlippageModel.trained_without_failure m ->
  SlippageModel.is_fitted m = true ->
  exists rows f,
    SlippageModel.scaler m = Some rows /\
    SlippageModel.model m = Some (Sklearn.Trained f) /\
    SlippageModel.estimate_slippage_value sk m order_size spread volatility
      orderbook_imbalance
    = Return (Np.Finite (Sklearn.predict sk rows f
                           [order_size; spread; volatility; orderbook_imbalance])).
Proof.
  intros Hm Hfit. pose proof (slippage_trained m Hm) as Hinv. rewrite Hfit in Hinv.
  destruct Hinv as (rows & f & Hrows & Hf & _). exists rows, f.
  split; [done|]. split; [done|].
  unfold SlippageModel.estimate_slippage_value, SlippageModel.predict.
  by rewrite Hfit, Hrows, Hf.
Qed.

End FitFacts.

(** C1 fails in the code at [quantity = 0]: with a fitted slippage model
    its estimate is a Python float, and on a book with both sides non-empty
    whose quantities sum to 0 the temporary impact is one as well, so the
    division of their sum by the quantity raises ZeroDivisionError and the
    caller gets neither the dictionary nor a tagged error. *)
Theorem simulate_zero_quantity_raises (sk : Sklearn.predictors) (sim : TradeSimulator.t)
    (side : string) (exchange market_type fee_tier : string) (volatility t0 t1 : R) :
  let ob := TradeSimulator.orderbook sim in
  Orderbook.asks ob <> [] -> Orderbook.bids ob <> [] ->
  py_sum (Orderbook.bids ob).*2 + py_sum (Orderbook.asks ob).*2 <= 0 ->
  MakerTakerModel.is_fitted (TradeSimulator.maker_taker_model sim) = false ->
  SlippageModel.trained_without_failure (TradeSimulator.slippage_model sim) ->
  SlippageModel.is_fitted (TradeSimulator.slippage_model sim) = true ->
  FeeModel.complete (TradeSimulator.fee_model sim) ->
  TradeSimulator.simulate_market_order sk sim side 0 exchange market_type fee_tier
    volatility t0 t1 = Raise ZeroDivision.
Proof.
  intros ob Ha Hb Hdepth Hmt Htrained Hfit Hfee.
  pose proof (side_empty_false _ Ha Hb) as Hne.
  unfold TradeSimulator.simulate_market_order. fold ob. rewrite Hne.
  destruct (SimulatorFacts.metrics_available _ Hne)
    as ([mid Hmid] & [spread Hspread] & [imb Himb]).
  rewrite Hmid, Hspread, Himb.
  unfold MakerTakerModel.estimate_maker_proportion. rewrite Hmt. simpl negb. cbv iota.
  rewrite HeuristicFacts.maker_fallback_above by lra. simpl.
  match goal with
  | |- context [FeeModel.calculate_fee ?fm ?v ?e ?mt ?ft ?mp] =>
      destruct (calculate_fee_returns fm v e mt ft mp Hfee) as [f Hf]; rewrite Hf
  end.
  simpl.
  destruct (FitFacts.slippage_trained_predicts sk _ 0 spread volatility imb Htrained Hfit)
    as (rows & trained & _ & _ & Hsl).
  rewrite Hsl. simpl.
  match goal with
  | |- context [AlmgrenChrissModel.calculate_market_impact ?m ?q ?a ?v ?p ?d ?e] =>
      destruct (calculate_market_impact_returns m q a v p d e) as (i & Hi & _); [lra|];
      rewrite Hi
  end.
  simpl. rewrite Hfit. unfold AlmgrenChrissModel.temporary_impact_is_float64. simpl.
  set (depth := py_sum (Orderbook.bids ob).*2 + py_sum (Orderbook.asks ob).*2) in *.
  destruct (decide (depth * 100 > 0)) as [Hpos|_]; [lra|].
  rewrite (bool_decide_false (0 > 0)) by lra.
  rewrite (bool_decide_false (depth > 0)) by lra. simpl.
  unfold TradeSimulator.divide. by rewrite (decide_True (P := 0 = 0)).
Qed.

Lemma simulate_zero_quantity_raises_witness :
  TradeSimulator.simulate_market_order Sklearn.constant_predictors fitted_simulator
    "buy" 0 "OKX" "spot" "VIP0" 0.01 0 1 = Raise ZeroDivision.
Proof.
  apply (simulate_zero_quantity_raises Sklearn.constant_predictors fitted_simulator
           "buy" "OKX" "spot" "VIP0" 0.01 0 1).
  - discriminate.
  - discriminate.
  - unfold py_sum. simpl. lra.
  - reflexivity.
  - apply SlippageModel.trained_fit, SlippageModel.trained_init.
  - reflexivity.
  - exact FeeFacts.complete_init.
Defined.

(** With unfitted estimators and a complete fee table every step returns,
    whatever the quantity: the dictionary comes back, built from the two
    heuristics, the fees and the impact. *)
Lemma simulate_heuristic (sk : Sklearn.predictors) (sim : TradeSimulator.t)
    (side : string) (quantity : R) (exchange market_type fee_tier : string)
    (volatility t0 t1 : R) :
  let ob := TradeSimulator.orderbook sim in
  let depth := py_sum (Orderbook.bids ob).*2 + py_sum (Orderbook.asks ob).*2 in
  Orderbook.side_empty ob = false ->
  MakerTakerModel.is_fitted (TradeSimulator.maker_taker_model sim) = false ->
  SlippageModel.is_fitted (TradeSimulator.slippage_model sim) = false ->
  FeeModel.complete (TradeSimulator.fee_model sim) ->
  exists mid spread imb mp f mi,
    Orderbook.get_mid_price ob = Some mid /\
    Orderbook.get_spread ob = Some spread /\
    Orderbook.get_orderbook_imbalance ob = Some imb /\
    MakerTakerModel._estimate_maker_proportion_fallback quantity spread volatility imb
    = Return mp /\
    FeeModel.calculate_fee (TradeSimulator.fee_model sim) (quantity * mid) exchange
      market_type fee_tier mp = Return f /\
    AlmgrenChrissModel.calculate_market_impact (TradeSimulator.market_impact_model sim)
      quantity (depth * 100) volatility mid depth 1.0 = Return mi /\
    let sl :=
      SlippageModel._estimate_slippage_fallback_value quantity spread volatility imb in
    let shift :=
      Np.div (Np.add sl (Np.Finite (AlmgrenChrissModel.temporary_impact mi)))
        (Np.Finite quantity) in
    let net_cost :=
      Np.add (Np.add (Np.Finite (FeeModel.total_fee f)) sl)
        (Np.Finite (AlmgrenChrissModel.total_impact mi)) in
    TradeSimulator.simulate_market_order sk sim side quantity exchange market_type
      fee_tier volatility t0 t1
    = Return (TradeSimulator.dictionary
        (TradeSimulator.mk_estimate (Orderbook.timestamp ob) exchange
           (Orderbook.symbol ob) side quantity mid
           (if decide (lower side = "buy") then Np.add (Np.Finite mid) shift
            else Np.sub (Np.Finite mid) shift)
           (quantity * mid) mp f sl
           (if decide (quantity * mid > 0)
            then Np.mul (Np.div sl (Np.Finite (quantity * mid))) (Np.Finite 100)
            else Np.Finite 0)
           mi
           (if decide (quantity * mid > 0)
            then AlmgrenChrissModel.total_impact mi / (quantity * mid) * 100 else 0)
           net_cost
           (if decide (quantity * mid > 0)
            then Np.mul (Np.div net_cost (Np.Finite (quantity * mid))) (Np.Finite 100)
            else Np.Finite 0)
           ((t1 - t0) * 1000))).
Proof.
  intros ob depth Hne Hmt Hsl Hfee.
  destruct (SimulatorFacts.metrics_available _ Hne)
    as ([mid Hmid] & [spread Hspread] & [imb Himb]).
  destruct (HeuristicFacts.maker_fallback_returns quantity spread volatility imb)
    as (mp & Hmp & _).
  destruct (calculate_fee_returns (TradeSimulator.fee_model sim) (quantity * mid)
              exchange market_type fee_tier mp Hfee) as [f Hf].
  destruct (calculate_market_impact_returns (TradeSimulator.market_impact_model sim)
              quantity (depth * 100) volatility mid depth 1.0) as (mi & Hmi & _); [lra|].
  exists mid, spread, imb, mp, f, mi.
  split; [done|]. split; [done|]. split; [done|]. split; [done|]. split; [done|].
  split; [done|]. cbv zeta.
  apply SimulatorFacts.simulate_inv; [done|].
  eexists mid, spread, imb, mp, f, _, mi, _.
  split; [done|]. split; [done|]. split; [done|].
  split. { unfold MakerTakerModel.estimate_maker_proportion. by rewrite Hmt. }
  split; [done|].
  split. { unfold SlippageModel.estimate_slippage_value. by rewrite Hsl. }
  split; [done|].
  split. { rewrite Hsl. reflexivity. }
  reflexivity.
Qed.

(** With both sides non-empty, unfitted estimators, a complete fee table
    and a quantity above -1 other than 0, the caller gets the full estimate,
    whose net cost is the sum of its parts. *)
Lemma simulate_returns_estimate (sk : Sklearn.predictors) (sim : TradeSimulator.t)
    (side : string) (quantity : R) (exchange market_type fee_tier : string)
    (volatility t0 t1 : R) :
  Orderbook.side_empty (TradeSimulator.orderbook sim) = false ->
  MakerTakerModel.is_fitted (TradeSimulator.maker_taker_model sim) = false ->
  SlippageModel.is_fitted (TradeSimulator.slippage_model sim) = false ->
  FeeModel.complete (TradeSimulator.fee_model sim) ->
  -1 < quantity -> quantity <> 0 ->
  exists est,
    TradeSimulator.simulate_market_order sk sim side quantity exchange market_type fee_tier
      volatility t0 t1 = Return (TradeSimulator.Estimate est) /\
    TradeSimulator.net_cost est
    = FeeModel.total_fee (TradeSimulator.fees est) + TradeSimulator.slippage est
      + AlmgrenChrissModel.total_impact (TradeSimulator.market_impact est).
Proof.
  intros Hne Hmt Hsl Hfee Hq1 Hq0.
  destruct (simulate_heuristic sk sim side quantity exchange market_type fee_tier
              volatility t0 t1 Hne Hmt Hsl Hfee)
    as (mid & spread & imb & mp & f & mi & _ & _ & _ & _ & _ & _ & Hsim).
  cbv zeta in Hsim. rewrite Hsim.
  rewrite HeuristicFacts.slippage_fallback_value_above by done. simpl.
  repeat (case_decide; try lra; try done; simpl); eexists; split; reflexivity.
Qed.

(** The order of [tests/test_simulator.py] gets a full estimate. *)
Lemma simulate_sample_order :
  exists est,
    TradeSimulator.simulate_market_order Sklearn.constant_predictors sample_simulator
      "buy" 0.1 "OKX" "spot" "VIP0" 0.01 0 1 = Return (TradeSimulator.Estimate est) /\
    TradeSimulator.mid_price est = 45000 /\
    TradeSimulator.order_value est = 4500 /\
    TradeSimulator.net_cost est
      = FeeModel.total_fee (TradeSimulator.fees est) + TradeSimulator.slippage est
        + AlmgrenChrissModel.total_impact (TradeSimulator.market_impact est).
Proof.
  destruct (simulate_heuristic Sklearn.constant_predictors sample_simulator "buy" 0.1
              "OKX" "spot" "VIP0" 0.01 0 1 eq_refl eq_refl eq_refl FeeFacts.complete_init)
    as (mid & spread & imb & mp & f & mi & [= <-] & _ & _ & _ & _ & _ & Hsim).
  cbv zeta in Hsim. rewrite Hsim.
  rewrite HeuristicFacts.slippage_fallback_value_above by lra. simpl.
  repeat (case_decide; try lra; try done; simpl).
  eexists. split; [reflexivity|]. simpl. repeat split; lra.
Qed.

(** With the estimators of [TradeSimulator()] a call at [quantity = 0]
    returns the full dictionary: slippage and temporary impact are NumPy
    numbers there, the execution price is inf or nan and the other numbers
    are finite. *)
Lemma simulate_heuristic_zero_quantity (sk : Sklearn.predictors) (sim : TradeSimulator.t)
    (side : string) (exchange market_type fee_tier : string) (volatility t0 t1 : R) :
  Orderbook.side_empty (TradeSimulator.orderbook sim) = false ->
  MakerTakerModel.is_fitted (TradeSimulator.maker_taker_model sim) = false ->
  SlippageModel.is_fitted (TradeSimulator.slippage_model sim) = false ->
  FeeModel.complete (TradeSimulator.fee_model sim) ->
  exists d,
    TradeSimulator.simulate_market_order sk sim side 0 exchange market_type fee_tier
      volatility t0 t1 = Return (TradeSimulator.NonFinite d) /\
    Np.is_finite (TradeSimulator.execution_price d) = false /\
    Np.is_finite (TradeSimulator.slippage d) = true /\
    Np.is_finite (TradeSimulator.net_cost d) = true /\
    TradeSimulator.slippage_percentage d = Np.Finite 0 /\
    TradeSimulator.net_cost_percentage d = Np.Finite 0 /\
    TradeSimulator.market_impact_percentage d = 0 /\
    TradeSimulator.order_value d = 0.
Proof.
  intros Hne Hmt Hsl Hfee.
  destruct (simulate_heuristic sk sim side 0 exchange market_type fee_tier
              volatility t0 t1 Hne Hmt Hsl Hfee)
    as (mid & spread & imb & mp & f & mi & _ & _ & _ & _ & _ & _ & Hsim).
  cbv zeta in Hsim. rewrite Hsim. clear Hsim.
  rewrite HeuristicFacts.slippage_fallback_value_above by lra.
  rewrite !(decide_False (P := 0 * mid > 0)) by lra.
  set (price := if decide (lower side = "buy") then Np.add _ _ else _).
  assert (Np.is_finite price = false) as Hprice.
  { subst price.
    destruct (decide (lower side = "buy"));
      rewrite ?NpFacts.add_finite_l, ?NpFacts.sub_finite_l, NpFacts.div_finite_r;
      rewrite (bool_decide_false (0 <> 0)) by (intros H; by apply H);
      by rewrite andb_false_r. }
  eexists. split.
  - f_equal. apply SimulatorFacts.dictionary_NonFinite. split; [reflexivity|].
    cbn [TradeSimulator.execution_price]. by rewrite Hprice.
  - cbn [TradeSimulator.execution_price TradeSimulator.slippage TradeSimulator.net_cost
         TradeSimulator.slippage_percentage TradeSimulator.net_cost_percentage
         TradeSimulator.market_impact_percentage TradeSimulator.order_value].
    split; [done|]. split; [done|]. split; [done|]. split; [done|]. split; [done|].
    split; [done|]. lra.
Qed.

(** ** Loops over arrays *)

Section Loops.
Context {A : Type}.

Lemma for_range_seq {S : Type} (lo k : nat) (body : nat -> S -> S) (s : S) :
  for_range lo (lo + k) body s = foldl (fun s i => body i s) s (seq lo k).
Proof. unfold for_range. by replace (lo + k - lo)%nat with k by lia. Qed.

(** A loop that writes [f i] at index [i], for [i] from [lo] below [hi]. *)
Lemma foldl_write (f : nat -> A) (k lo : nat) (a : list A) :
  let a' := foldl (fun a i => <[i := f i]> a) a (seq lo k) in
  length a' = length a /\
  forall i, a' !! i = if decide (lo <= i < lo + k /\ i < length a)%nat
                      then Some (f i) else a !! i.
Proof.
  revert lo a. induction k as [|k IH]; intros lo a; simpl.
  - split; [done|]. intros i. rewrite decide_False by lia. done.
  - destruct (IH (S lo) (<[lo := f lo]> a)) as [Hlen Hlook].
    rewrite length_insert in Hlen, Hlook. split; [done|].
    intros i. rewrite Hlook.
    destruct (decide (i = lo)) as [->|Hne].
    + rewrite decide_False by lia. case_decide as Hin.
      * apply list_lookup_insert_eq. lia.
      * rewrite list_insert_ge by lia. done.
    + rewrite list_lookup_insert_ne by done.
      repeat case_decide; try done; lia.
Qed.

Lemma for_range_write (f : nat -> A) (lo hi : nat) (a : list A) :
  let a' := for_range lo hi (fun i a => <[i := f i]> a) a in
  length a' = length a /\
  forall i, a' !! i = if decide (lo <= i < hi /\ i < length a)%nat
                      then Some (f i) else a !! i.
Proof.
  unfold for_range.
  destruct (foldl_write f (hi - lo) lo a) as [Hlen Hlook].
  split; [done|]. intros i. rewrite Hlook.
  repeat case_decide; try done; lia.
Qed.

Lemma foldl_raise {S : Type} (body : nat -> S -> outcome S) (e : fault) (l : list nat) :
  foldl (fun acc i => s ← acc; body i s) (Raise e) l = Raise e.
Proof. induction l as [|i l IH]; simpl; done. Qed.

(** The loop with a fallible body, when every round returns. *)
Lemma for_range_m_returns (body : nat -> list A -> outcome (list A)) (f : nat -> A)
    (lo hi : nat) (a : list A) :
  (forall i a, (lo <= i < hi)%nat -> body i a = Return (<[i := f i]> a)) ->
  for_range_m lo hi body a = Return (for_range lo hi (fun i a => <[i := f i]> a) a).
Proof.
  unfold for_range_m, for_range. intros Hbody.
  assert (forall k lo' a, (lo <= lo')%nat -> (lo' + k <= Nat.max lo hi)%nat ->
            foldl (fun acc i => s ← acc; body i s) (Return a) (seq lo' k)
            = Return (foldl (fun a i => <[i := f i]> a) a (seq lo' k))) as Hgen.
  { induction k as [|k IH]; intros lo' a' Hlo Hhi; simpl; [done|].
    rewrite Hbody by lia. apply IH; lia. }
  apply Hgen; lia.
Qed.

(** The loop with a fallible body, when its first round faults. *)
Lemma for_range_m_raises {S : Type} (body : nat -> S -> outcome S) (e : fault)
    (lo hi : nat) (s : S) :
  (lo < hi)%nat -> body lo s = Raise e -> for_range_m lo hi body s = Raise e.
Proof.
  intros Hlt Hbody. unfold for_range_m.
  destruct (hi - lo)%nat as [|k] eqn:Hk; [lia|]. simpl.
  rewrite Hbody. apply foldl_raise.
Qed.

End Loops.

(** ** [np.linspace] and the number of intervals *)

Lemma length_linspace (start stop : R) (num : nat) :
  length (linspace start stop num) = num.
Proof.
  unfold linspace. case_decide.
  - by rewrite length_insert, length_fmap, length_seq.
  - by rewrite length_fmap, length_seq.
Qed.

(** Evenly spaced over [[0, stop]]. *)
Lemma linspace_lookup (stop : R) (num i : nat) :
  (2 <= num)%nat -> (i < num)%nat ->
  linspace 0 stop num !! i = Some (INR i * (stop / INR (num - 1))).
Proof.
  intros Hnum Hi. unfold linspace.
  rewrite decide_True by lia. rewrite decide_True by lia.
  assert (INR (num - 1) <> 0) as Hdiv by (apply not_0_INR; lia).
  destruct (decide (i = num - 1)%nat) as [->|Hne].
  - rewrite list_lookup_insert_eq by (rewrite length_fmap, length_seq; lia).
    f_equal. field. done.
  - rewrite list_lookup_insert_ne by done.
    rewrite list_lookup_fmap, lookup_seq_lt by done. simpl.
    f_equal. field. done.
Qed.

Lemma py_int_floor (x : R) : Z.max (py_int x) 2 = Z.max (Int_part x) 2.
Proof.
  unfold py_int. case_decide as Hx; [done|].
  destruct (base_Int_part x) as [Hfloor _].
  destruct (base_Int_part (- x)) as [_ Hneg].
  assert (IZR (Int_part x) < 0) as H1 by lra.
  assert (-1 < IZR (Int_part (- x))) as H2 by lra.
  apply lt_IZR in H1. apply lt_IZR in H2. lia.
Qed.

Lemma Int_part_IZR (z : Z) : Int_part (IZR z) = z.
Proof. symmetry. apply Int_part_spec. lra. Qed.

(** ** The execution schedule *)

Lemma list_from_lookup {A} (l : list A) (f : nat -> A) :
  (forall i, (i < length l)%nat -> l !! i = Some (f i)) -> l = f <$> seq 0 (length l).
Proof.
  intros Hl. apply list_eq. intros i.
  rewrite list_lookup_fmap.
  destruct (decide (i < length l)%nat) as [Hi|Hi].
  - rewrite Hl, lookup_seq_lt by done. done.
  - rewrite lookup_ge_None_2, lookup_seq_ge by lia. done.
Qed.

Lemma py_sum_constant (c : R) (f : nat -> R) (a k : nat) :
  (forall i, (a <= i < a + k)%nat -> f i = c) -> py_sum (f <$> seq a k) = INR k * c.
Proof.
  revert a. induction k as [|k IH]; intros a Hf.
  - simpl. rewrite py_sum_nil. lra.
  - rewrite S_INR. simpl. rewrite py_sum_cons, IH, Hf by (intros; try apply Hf; lia). lra.
Qed.

(** A sum of consecutive decrements telescopes. *)
Lemma py_sum_telescope (r f : nat -> R) (a k : nat) :
  (forall i, (a <= i < a + k)%nat -> f i = r i - r (S i)) ->
  py_sum (f <$> seq a k) = r a - r (a + k)%nat.
Proof.
  revert a. induction k as [|k IH]; intros a Hf.
  - simpl. rewrite py_sum_nil. replace (a + 0)%nat with a by lia. lra.
  - simpl. rewrite py_sum_cons, IH, Hf by (intros; try apply Hf; lia).
    replace (S a + k)%nat with (a + S k)%nat by lia. lra.
Qed.

Lemma sinh_nonzero (x : R) : x <> 0 -> sinh x <> 0.
Proof.
  intros Hx. destruct (Rtotal_order x 0) as [Hneg|[Hz|Hpos]]; [|done|].
  - pose proof (sinh_lt x 0 Hneg) as H. rewrite sinh_0 in H. lra.
  - pose proof (sinh_lt 0 x Hpos) as H. rewrite sinh_0 in H. lra.
Qed.

Module ScheduleFacts.
Import AlmgrenChrissModel.

Lemma intervals_ge_2 (time_horizon : R) : (2 <= intervals time_horizon)%nat.
Proof. unfold intervals. lia. Qed.

Lemma intervals_floor (time_horizon : R) :
  intervals time_horizon = Z.to_nat (Z.max (Int_part (time_horizon * 4)) 2).
Proof. unfold intervals. by rewrite py_int_floor. Qed.

(** *** The last statement *)

Lemma adjust_final_exact (total_size : R) (trade_sizes : list R) :
  py_sum trade_sizes = total_size -> adjust_final total_size trade_sizes = trade_sizes.
Proof.
  intros Hsum. unfold adjust_final. rewrite Hsum, decide_False; [done|].
  replace (total_size - total_size) with 0 by lra. rewrite Rabs_R0. lra.
Qed.

Lemma adjust_final_other (total_size : R) (trade_sizes : list R) (i : nat) :
  i <> (length trade_sizes - 1)%nat ->
  adjust_final total_size trade_sizes !! i = trade_sizes !! i.
Proof.
  intros Hi. unfold adjust_final. case_decide; [|done].
  by rewrite list_lookup_insert_ne.
Qed.

Lemma py_sum_insert_last (xs : list R) (x : R) :
  xs <> [] ->
  py_sum (<[(length xs - 1)%nat := x]> xs) = py_sum xs - xs !!! (length xs - 1)%nat + x.
Proof.
  intros Hne. destruct (exists_last Hne) as (init & y & ->).
  rewrite length_app. simpl. replace (length init + 1 - 1)%nat with (length init) by lia.
  rewrite list_lookup_total_middle by done.
  replace (length init) with (length init + 0)%nat at 1 by lia.
  rewrite insert_app_r. simpl. rewrite !py_sum_app, !py_sum_cons, py_sum_nil. lra.
Qed.

Lemma adjust_final_sum (total_size : R) (trade_sizes : list R) :
  trade_sizes <> [] ->
  Rabs (py_sum (adjust_final total_size trade_sizes) - total_size) <= 1 / 10 ^ 10.
Proof.
  intros Hne. unfold adjust_final. case_decide as Hres; [|lra].
  rewrite py_sum_insert_last by done.
  match goal with |- Rabs ?x <= _ => replace x with 0 by lra end.
  rewrite Rabs_R0. lra.
Qed.

(** *** The loops as lists *)

Lemma risk_neutral_sizes (c : R) (n : nat) :
  (2 <= n)%nat ->
  for_range 0 (n - 1) (fun i trade_sizes => <[i := c]> trade_sizes) (replicate n 0)
  = ((fun _ => c) <$> seq 0 (n - 1)) ++ [0].
Proof.
  intros Hn.
  destruct (for_range_write (fun _ => c) 0 (n - 1) (replicate n 0)) as [Hlen Hlook].
  apply list_eq. intros i. rewrite Hlook, length_replicate.
  destruct (decide (i < n - 1)%nat) as [Hi|Hi].
  - rewrite decide_True by lia.
    rewrite lookup_app_l by (rewrite length_fmap, length_seq; lia).
    rewrite list_lookup_fmap, lookup_seq_lt by done. done.
  - rewrite decide_False by lia.
    rewrite lookup_app_r by (rewrite length_fmap, length_seq; lia).
    rewrite length_fmap, length_seq.
    destruct (decide (i = n - 1)%nat) as [->|Hne].
    + rewrite lookup_replicate_2 by lia. by replace (n - 1 - (n - 1))%nat with 0%nat by lia.
    + rewrite lookup_ge_None_2 by (rewrite length_replicate; lia).
      destruct (i - (n - 1))%nat as [|j] eqn:Hj; [lia | done].
Qed.

Lemma remaining_loop (f : nat -> R) (total_size : R) (n : nat) :
  (2 <= n)%nat ->
  for_range 1 n (fun i remaining_sizes => <[i := f i]> remaining_sizes)
    (<[0%nat := total_size]> (replicate n 0))
  = (fun i => if decide (i = 0%nat) then total_size else f i) <$> seq 0 n.
Proof.
  intros Hn.
  destruct (for_range_write f 1 n (<[0%nat := total_size]> (replicate n 0)))
    as [Hlen Hlook].
  rewrite length_insert, length_replicate in Hlen, Hlook.
  apply list_eq. intros i. rewrite Hlook, list_lookup_fmap.
  destruct (decide (i < n)%nat) as [Hi|Hi].
  - rewrite lookup_seq_lt by done. simpl.
    destruct (decide (i = 0%nat)) as [->|Hne].
    + rewrite decide_False by lia.
      apply list_lookup_insert_eq. rewrite length_replicate. lia.
    + by rewrite decide_True by lia.
  - rewrite decide_False by lia. rewrite lookup_seq_ge by lia. simpl.
    apply lookup_ge_None_2. rewrite length_insert, length_replicate. lia.
Qed.

Lemma decrement_loop (remaining_sizes : list R) (n : nat) :
  (2 <= n)%nat ->
  <[(n - 1)%nat := remaining_sizes !!! (n - 1)%nat]>
    (for_range 0 (n - 1)
       (fun i trade_sizes =>
          <[i := remaining_sizes !!! i - remaining_sizes !!! (i + 1)%nat]> trade_sizes)
       (replicate n 0))
  = ((fun i => remaining_sizes !!! i - remaining_sizes !!! S i) <$> seq 0 (n - 1))
    ++ [remaining_sizes !!! (n - 1)%nat].
Proof.
  intros Hn.
  destruct (for_range_write
              (fun i => remaining_sizes !!! i - remaining_sizes !!! (i + 1)%nat)
              0 (n - 1) (replicate n 0)) as [Hlen Hlook].
  rewrite length_replicate in Hlen, Hlook.
  apply list_eq. intros i.
  destruct (decide (i = n - 1)%nat) as [->|Hne].
  - rewrite list_lookup_insert_eq by lia.
    rewrite lookup_app_r by (rewrite length_fmap, length_seq; lia).
    rewrite length_fmap, length_seq.
    by replace (n - 1 - (n - 1))%nat with 0%nat by lia.
  - rewrite list_lookup_insert_ne by done. rewrite Hlook.
    destruct (decide (i < n - 1)%nat) as [Hi|Hi].
    + rewrite decide_True by lia.
      rewrite lookup_app_l by (rewrite length_fmap, length_seq; lia).
      rewrite list_lookup_fmap, lookup_seq_lt by done. simpl.
      by replace (i + 1)%nat with (S i) by lia.
    + rewrite decide_False by lia.
      rewrite lookup_ge_None_2 by (rewrite length_replicate; lia).
      symmetry. apply lookup_ge_None_2.
      rewrite length_app, length_fmap, length_seq. simpl. lia.
Qed.

(** *** The two branches *)

Section Branches.
Variable m : t.
Variables total_size time_horizon volatility : R.

Let n := intervals time_horizon.
Let alpha := risk_aversion m * volatility ^ 2.
Let gamma := temporary_impact_factor m.

Let inventory := inventory m total_size time_horizon volatility.

Lemma trajectory_risk_neutral :
  alpha = 0 ->
  exists remaining_sizes,
    trajectory m total_size time_horizon volatility
    = Return (linspace 0 time_horizon n, remaining_sizes,
              ((fun _ => total_size / INR (n - 1)) <$> seq 0 (n - 1)) ++ [0]).
Proof.
  intros Halpha. unfold trajectory. cbv zeta. fold n alpha.
  rewrite decide_True by done.
  pose proof (intervals_ge_2 time_horizon) as Hn. fold n in Hn.
  rewrite (bind_Return _ _ (total_size / INR (n - 1))).
  2:{ apply fdiv_nonzero, not_0_INR. lia. }
  rewrite risk_neutral_sizes by done.
  eexists. reflexivity.
Qed.

Lemma kappa_horizon_nonzero :
  0 < alpha * gamma -> time_horizon <> 0 -> kappa m volatility * time_horizon <> 0.
Proof.
  intros Hpos Ht. unfold kappa. fold alpha gamma.
  pose proof (sqrt_lt_R0 _ Hpos) as Hk.
  intros Hz. apply Rmult_integral in Hz as [Hz|Hz]; [lra | done].
Qed.

Lemma trajectory_risk_averse :
  0 < alpha * gamma -> time_horizon <> 0 ->
  let remaining_sizes := inventory <$> seq 0 n in
  trajectory m total_size time_horizon volatility
  = Return (linspace 0 time_horizon n, remaining_sizes,
            ((fun i => remaining_sizes !!! i - remaining_sizes !!! S i) <$> seq 0 (n - 1))
            ++ [remaining_sizes !!! (n - 1)%nat]).
Proof.
  intros Hpos Ht remaining_sizes. unfold trajectory. cbv zeta. fold n alpha gamma.
  pose proof (intervals_ge_2 time_horizon) as Hn. fold n in Hn.
  assert (alpha <> 0) as Halpha by (intros H0; rewrite H0 in Hpos; lra).
  rewrite decide_False by done.
  assert (np_sqrt (alpha * gamma) = Return (kappa m volatility)) as Hroot.
  { unfold np_sqrt. rewrite decide_False by lra. reflexivity. }
  rewrite (bind_Return _ _ _ Hroot).
  pose proof (sinh_nonzero _ (kappa_horizon_nonzero Hpos Ht)) as Hsinh.
  rewrite (for_range_m_returns _ inventory).
  2:{ intros i a Hi.
      rewrite (bind_Return _ _ _ Hroot).
      rewrite (list_lookup_total_correct _ _ _ (linspace_lookup time_horizon n i Hn (proj2 Hi))).
      rewrite (bind_Return _ _ _ (fdiv_nonzero _ _ Hsinh)).
      unfold inventory, AlmgrenChrissModel.inventory. fold n.
      rewrite decide_False by lia. reflexivity. }
  rewrite (bind_Return _ _ (inventory <$> seq 0 n)).
  2:{ f_equal. rewrite remaining_loop by done.
      apply list_fmap_ext. intros i x Hx.
      unfold inventory, AlmgrenChrissModel.inventory. by case_decide. }
  fold remaining_sizes. rewrite decrement_loop by done. reflexivity.
Qed.

(** What the stored inventory is at both ends and in between. *)
Lemma inventory_lookup (i : nat) :
  (i < n)%nat -> (inventory <$> seq 0 n) !! i = Some (inventory i).
Proof. intros Hi. rewrite list_lookup_fmap, lookup_seq_lt by done. done. Qed.

Lemma inventory_total (i : nat) :
  (i < n)%nat -> (inventory <$> seq 0 n) !!! i = inventory i.
Proof. intros Hi. apply list_lookup_total_correct. by apply inventory_lookup. Qed.

Lemma inventory_closed_form (i : nat) :
  0 < alpha * gamma -> time_horizon <> 0 ->
  inventory i
  = holdings m total_size time_horizon volatility (INR i * (time_horizon / INR (n - 1))).
Proof.
  intros Hpos Ht. unfold inventory, AlmgrenChrissModel.inventory, holdings. fold n.
  pose proof (sinh_nonzero _ (kappa_horizon_nonzero Hpos Ht)) as Hsinh.
  case_decide as Hi.
  - subst i. simpl. rewrite Rmult_0_l, Rminus_0_r. field. done.
  - unfold Rdiv. ring.
Qed.

Lemma inventory_last : inventory (n - 1) = 0.
Proof.
  unfold inventory, AlmgrenChrissModel.inventory. fold n.
  pose proof (intervals_ge_2 time_horizon) as Hn. fold n in Hn.
  rewrite decide_False by lia.
  assert (INR (n - 1) <> 0) as Hdiv by (apply not_0_INR; lia).
  replace (time_horizon - INR (n - 1) * (time_horizon / INR (n - 1))) with 0
    by (field; done).
  rewrite Rmult_0_r, sinh_0. unfold Rdiv. ring.
Qed.

(** The trade sizes of either branch add up to the order. *)
Lemma risk_neutral_sum :
  py_sum (((fun _ => total_size / INR (n - 1)) <$> seq 0 (n - 1)) ++ [0]) = total_size.
Proof.
  pose proof (intervals_ge_2 time_horizon) as Hn. fold n in Hn.
  assert (INR (n - 1) <> 0) as Hdiv by (apply not_0_INR; lia).
  rewrite py_sum_app, py_sum_cons, py_sum_nil.
  rewrite (py_sum_constant (total_size / INR (n - 1))) by done.
  field. done.
Qed.

Lemma risk_averse_sum (remaining_sizes : list R) :
  py_sum (((fun i => remaining_sizes !!! i - remaining_sizes !!! S i) <$> seq 0 (n - 1))
          ++ [remaining_sizes !!! (n - 1)%nat])
  = remaining_sizes !!! 0%nat.
Proof.
  rewrite py_sum_app, py_sum_cons, py_sum_nil.
  rewrite (py_sum_telescope (fun i => remaining_sizes !!! i)) by done.
  simpl. lra.
Qed.

End Branches.

End ScheduleFacts.

Lemma intervals_half_hour : AlmgrenChrissModel.intervals 0.5 = 2%nat.
Proof.
  unfold AlmgrenChrissModel.intervals, py_int. rewrite decide_True by lra.
  replace (0.5 * 4) with (IZR 2) by lra. by rewrite Int_part_IZR.
Qed.

Lemma intervals_zero : AlmgrenChrissModel.intervals 0 = 2%nat.
Proof.
  unfold AlmgrenChrissModel.intervals, py_int. rewrite decide_True by lra.
  replace (0 * 4) with (IZR 0) by lra. by rewrite Int_part_IZR.
Qed.

(** The risk-averse branch, end to end. *)
Lemma risk_averse_schedule (m : AlmgrenChrissModel.t) (total_size time_horizon volatility : R) :
  0 < AlmgrenChrissModel.risk_aversion m * volatility ^ 2
      * AlmgrenChrissModel.temporary_impact_factor m ->
  time_horizon <> 0 ->
  let n := AlmgrenChrissModel.intervals time_horizon in
  exists times remaining_sizes trade_sizes,
    AlmgrenChrissModel.trajectory m total_size time_horizon volatility
      = Return (times, remaining_sizes, trade_sizes) /\
    AlmgrenChrissModel.calculate_optimal_execution_schedule m total_size time_horizon
      volatility = Return (times, trade_sizes) /\
    times = linspace 0 time_horizon n /\
    length remaining_sizes = n /\ length trade_sizes = n /\
    (forall i t, times !! i = Some t ->
       remaining_sizes !! i
       = Some (AlmgrenChrissModel.holdings m total_size time_horizon volatility t)) /\
    remaining_sizes !! 0%nat = Some total_size /\
    (forall i, (i < n - 1)%nat ->
       trade_sizes !! i = Some (remaining_sizes !!! i - remaining_sizes !!! S i)) /\
    trade_sizes !! (n - 1)%nat = Some (remaining_sizes !!! (n - 1)%nat) /\
    remaining_sizes !!! (n - 1)%nat = 0 /\
    py_sum trade_sizes = total_size.
Proof.
  intros Hpos Ht n.
  pose proof (ScheduleFacts.intervals_ge_2 time_horizon) as Hn. fold n in Hn.
  pose proof (ScheduleFacts.trajectory_risk_averse m total_size time_horizon volatility
                Hpos Ht) as Htraj.
  cbv zeta in Htraj. fold n in Htraj.
  pose proof (ScheduleFacts.inventory_total m total_size time_horizon volatility) as Htot.
  pose proof (ScheduleFacts.inventory_lookup m total_size time_horizon volatility) as Hlook.
  pose proof (ScheduleFacts.inventory_last m total_size time_horizon volatility) as Hzero.
  pose proof (ScheduleFacts.inventory_closed_form m total_size time_horizon volatility)
    as Hclosed.
  fold n in Htot, Hlook, Hzero, Hclosed.
  set (remaining_sizes :=
         AlmgrenChrissModel.inventory m total_size time_horizon volatility <$> seq 0 n)
    in *.
  assert (remaining_sizes !!! 0%nat = total_size) as Hfirst.
  { rewrite Htot by lia. reflexivity. }
  assert (remaining_sizes !!! (n - 1)%nat = 0) as Hlast.
  { rewrite Htot by lia. exact Hzero. }
  assert (py_sum (((fun i => remaining_sizes !!! i - remaining_sizes !!! S i)
                   <$> seq 0 (n - 1)) ++ [remaining_sizes !!! (n - 1)%nat])
          = total_size) as Hsum.
  { etrans; [apply (ScheduleFacts.risk_averse_sum time_horizon) | exact Hfirst]. }
  eexists _, _, _. split; [exact Htraj|].
  split.
  { unfold AlmgrenChrissModel.calculate_optimal_execution_schedule.
    rewrite Htraj. simpl. by rewrite ScheduleFacts.adjust_final_exact. }
  split; [done|].
  split; [unfold remaining_sizes; by rewrite length_fmap, length_seq|].
  split; [rewrite length_app, length_fmap, length_seq; simpl; lia|].
  split.
  { intros i t Hi.
    assert (i < n)%nat as Hlt.
    { apply lookup_lt_Some in Hi. by rewrite length_linspace in Hi. }
    rewrite linspace_lookup in Hi by done. injection Hi as <-.
    rewrite Hlook by done. f_equal. by apply Hclosed. }
  split.
  { rewrite Hlook by lia. reflexivity. }
  split.
  { intros i Hi.
    rewrite lookup_app_l by (rewrite length_fmap, length_seq; lia).
    rewrite list_lookup_fmap, lookup_seq_lt by done. done. }
  split.
  { rewrite lookup_app_r by (rewrite length_fmap, length_seq; lia).
    rewrite length_fmap, length_seq.
    by replace (n - 1 - (n - 1))%nat with 0%nat by lia. }
  split; done.
Qed.

(** The risk-neutral branch, end to end. *)
Lemma risk_neutral_schedule (m : AlmgrenChrissModel.t) (total_size time_horizon volatility : R) :
  AlmgrenChrissModel.risk_aversion m * volatility ^ 2 = 0 ->
  let n := AlmgrenChrissModel.intervals time_horizon in
  exists trade_sizes,
    AlmgrenChrissModel.calculate_optimal_execution_schedule m total_size time_horizon
      volatility = Return (linspace 0 time_horizon n, trade_sizes) /\
    length trade_sizes = n /\
    py_sum trade_sizes = total_size.
Proof.
  intros Halpha n.
  pose proof (ScheduleFacts.intervals_ge_2 time_horizon) as Hn. fold n in Hn.
  destruct (ScheduleFacts.trajectory_risk_neutral m total_size time_horizon volatility
              Halpha) as [remaining_sizes Htraj].
  fold n in Htraj.
  pose proof (ScheduleFacts.risk_neutral_sum total_size time_horizon) as Hsum.
  fold n in Hsum.
  eexists. split.
  { unfold AlmgrenChrissModel.calculate_optimal_execution_schedule.
    rewrite Htraj. simpl. by rewrite ScheduleFacts.adjust_final_exact. }
  split; [|done].
  rewrite length_app, length_fmap, length_seq. simpl. lia.
Qed.

(** C2 (amended): in the risk-averse branch, when [alpha * gamma > 0] and
    the horizon is not 0, the remaining inventory at every time point [t] is
    [total_size * sinh(kappa * (T - t)) / sinh(kappa * T)] with
    [kappa = sqrt(alpha * gamma)], it is [total_size] at [t = 0], every
    slice but the last trades the decrement of the remaining inventory
    between its time point and the next, and the last slice trades the
    remaining inventory at the last time point, which is 0. *)
Theorem risk_averse_trajectory_spec (m : AlmgrenChrissModel.t)
    (total_size time_horizon volatility : R) :
  0 < AlmgrenChrissModel.risk_aversion m * volatility ^ 2
      * AlmgrenChrissModel.temporary_impact_factor m ->
  time_horizon <> 0 ->
  let n := AlmgrenChrissModel.intervals time_horizon in
  exists times remaining_sizes trade_sizes,
    AlmgrenChrissModel.trajectory m total_size time_horizon volatility
      = Return (times, remaining_sizes, trade_sizes) /\
    AlmgrenChrissModel.calculate_optimal_execution_schedule m total_size time_horizon
      volatility = Return (times, trade_sizes) /\
    length times = n /\ length remaining_sizes = n /\ length trade_sizes = n /\
    (forall i t, times !! i = Some t ->
       remaining_sizes !! i
       = Some (AlmgrenChrissModel.holdings m total_size time_horizon volatility t)) /\
    remaining_sizes !! 0%nat = Some total_size /\
    (forall i, (i < n - 1)%nat ->
       trade_sizes !! i = Some (remaining_sizes !!! i - remaining_sizes !!! S i)) /\
    trade_sizes !! (n - 1)%nat = Some (remaining_sizes !!! (n - 1)%nat) /\
    remaining_sizes !!! (n - 1)%nat = 0.
Proof.
  intros Hpos Ht n.
  destruct (risk_averse_schedule m total_size time_horizon volatility Hpos Ht)
    as (times & remaining_sizes & trade_sizes & Htraj & Hsched & Htimes & Hlr & Hlt
        & Hform & Hfirst & Hdecr & Hlast & Hzero & _).
  exists times, remaining_sizes, trade_sizes.
  repeat split; try done.
  rewrite Htimes. apply length_linspace.
Qed.

Lemma risk_averse_trajectory_spec_witness :
  let n := AlmgrenChrissModel.intervals 4 in
  exists times remaining_sizes trade_sizes,
    AlmgrenChrissModel.trajectory AlmgrenChrissModel.init 100 4 0.01
      = Return (times, remaining_sizes, trade_sizes) /\
    AlmgrenChrissModel.calculate_optimal_execution_schedule AlmgrenChrissModel.init
      100 4 0.01 = Return (times, trade_sizes) /\
    length times = n /\ length remaining_sizes = n /\ length trade_sizes = n /\
    (forall i t, times !! i = Some t ->
       remaining_sizes !! i
       = Some (AlmgrenChrissModel.holdings AlmgrenChrissModel.init 100 4 0.01 t)) /\
    remaining_sizes !! 0%nat = Some 100 /\
    (forall i, (i < n - 1)%nat ->
       trade_sizes !! i = Some (remaining_sizes !!! i - remaining_sizes !!! S i)) /\
    trade_sizes !! (n - 1)%nat = Some (remaining_sizes !!! (n - 1)%nat) /\
    remaining_sizes !!! (n - 1)%nat = 0.
Proof.
  apply (risk_averse_trajectory_spec AlmgrenChrissModel.init 100 4 0.01); simpl; lra.
Defined.

(** C2, as stated, fails in its last part: for an order of 1 over half an
    hour (two time points) at volatility 1, the remaining inventory at the
    second-to-last time point is 1 and the last trade is 0, the remaining
    inventory at the last time point. *)
Lemma last_trade_is_terminal_inventory :
  exists times remaining_sizes trade_sizes,
    AlmgrenChrissModel.trajectory AlmgrenChrissModel.init 1 0.5 1
      = Return (times, remaining_sizes, trade_sizes) /\
    AlmgrenChrissModel.calculate_optimal_execution_schedule AlmgrenChrissModel.init
      1 0.5 1 = Return (times, trade_sizes) /\
    length times = 2%nat /\
    remaining_sizes !! 0%nat = Some 1 /\
    remaining_sizes !!! 1%nat = 0 /\
    trade_sizes !! 1%nat = Some 0 /\
    trade_sizes !! 1%nat <> remaining_sizes !! 0%nat.
Proof.
  destruct (risk_averse_schedule AlmgrenChrissModel.init 1 0.5 1)
    as (times & remaining_sizes & trade_sizes & Htraj & Hsched & Htimes & Hlr & Hlt
        & Hform & Hfirst & Hdecr & Hlast & Hzero & _); [simpl; lra | lra |].
  rewrite intervals_half_hour in *. simpl in Hlast, Hzero.
  exists times, remaining_sizes, trade_sizes.
  rewrite Hlast, Hzero, Hfirst.
  repeat split; try done.
  - rewrite Htimes. apply length_linspace.
  - intros [= H]. lra.
Qed.

(** X25: when [alpha = 0], or when [alpha * gamma > 0] and the horizon is
    not 0, the schedule has [n = max(floor(time_horizon * 4), 2)] slices at
    the evenly spaced time points [i * time_horizon / (n - 1)] and its trade
    sizes add up to [total_size].  The last statement leaves every slice but
    the final one as it is and brings the sum of any non-empty array of
    trade sizes within 1e-10 of [total_size]. *)
Lemma schedule_conserves_size (m : AlmgrenChrissModel.t)
    (total_size time_horizon volatility : R) :
  let alpha := AlmgrenChrissModel.risk_aversion m * volatility ^ 2 in
  let gamma := AlmgrenChrissModel.temporary_impact_factor m in
  alpha = 0 \/ (0 < alpha * gamma /\ time_horizon <> 0) ->
  let n := Z.to_nat (Z.max (Int_part (time_horizon * 4)) 2) in
  (exists times trade_sizes,
     AlmgrenChrissModel.calculate_optimal_execution_schedule m total_size time_horizon
       volatility = Return (times, trade_sizes) /\
     length times = n /\ length trade_sizes = n /\
     (forall i, (i < n)%nat -> times !! i = Some (INR i * (time_horizon / INR (n - 1)))) /\
     py_sum trade_sizes = total_size) /\
  (forall sizes : list R, sizes <> [] ->
     Rabs (py_sum (AlmgrenChrissModel.adjust_final total_size sizes) - total_size)
       <= 1 / 10 ^ 10 /\
     forall i, i <> (length sizes - 1)%nat ->
       AlmgrenChrissModel.adjust_final total_size sizes !! i = sizes !! i).
Proof.
  intros alpha gamma Hcase n. split.
  - assert (n = AlmgrenChrissModel.intervals time_horizon) as Hn.
    { subst n. by rewrite ScheduleFacts.intervals_floor. }
    rewrite Hn.
    pose proof (ScheduleFacts.intervals_ge_2 time_horizon) as Hge.
    destruct Hcase as [Hzero|[Hpos Ht]].
    + destruct (risk_neutral_schedule m total_size time_horizon volatility Hzero)
        as (trade_sizes & Hsched & Hlen & Hsum).
      eexists _, trade_sizes. split; [exact Hsched|].
      rewrite length_linspace. repeat split; try done.
      intros i Hi. by apply linspace_lookup.
    + destruct (risk_averse_schedule m total_size time_horizon volatility Hpos Ht)
        as (times & remaining_sizes & trade_sizes & Htraj & Hsched & -> & Hlr & Hlt
            & _ & _ & _ & _ & _ & Hsum).
      eexists _, trade_sizes. split; [exact Hsched|].
      rewrite length_linspace. repeat split; try done.
      intros i Hi. by apply linspace_lookup.
  - intros sizes Hne. split.
    + by apply ScheduleFacts.adjust_final_sum.
    + intros i Hi. by apply ScheduleFacts.adjust_final_other.
Qed.

Lemma schedule_conserves_size_four_hours :
  let n := Z.to_nat (Z.max (Int_part (4 * 4)) 2) in
  (exists times trade_sizes,
     AlmgrenChrissModel.calculate_optimal_execution_schedule AlmgrenChrissModel.init
       100 4 0.01 = Return (times, trade_sizes) /\
     length times = n /\ length trade_sizes = n /\
     (forall i, (i < n)%nat -> times !! i = Some (INR i * (4 / INR (n - 1)))) /\
     py_sum trade_sizes = 100) /\
  (forall sizes : list R, sizes <> [] ->
     Rabs (py_sum (AlmgrenChrissModel.adjust_final 100 sizes) - 100) <= 1 / 10 ^ 10 /\
     forall i, i <> (length sizes - 1)%nat ->
       AlmgrenChrissModel.adjust_final 100 sizes !! i = sizes !! i).
Proof.
  apply (schedule_conserves_size AlmgrenChrissModel.init 100 4 0.01).
  right. simpl. split; lra.
Defined.

(** C4 at [time_horizon = 0] in the risk-averse branch (order of 1,
    volatility 1, default parameters): [sinh(kappa * 0) = 0] divides the
    remaining factor, so no trade sizes that add up to the order come back;
    the risk-neutral branch and the last statement do not have this
    division. *)
Theorem schedule_zero_horizon :
  AlmgrenChrissModel.calculate_optimal_execution_schedule AlmgrenChrissModel.init 1 0 1
  = Raise ZeroDivision.
Proof.
  unfold AlmgrenChrissModel.calculate_optimal_execution_schedule,
    AlmgrenChrissModel.trajectory.
  cbv zeta. rewrite intervals_zero. simpl AlmgrenChrissModel.risk_aversion.
  simpl AlmgrenChrissModel.temporary_impact_factor.
  rewrite decide_False by lra.
  assert (np_sqrt (0.001 * 1 ^ 2 * 0.1) = Return (sqrt (0.001 * 1 ^ 2 * 0.1))) as Hroot.
  { unfold np_sqrt. rewrite decide_False by lra. reflexivity. }
  rewrite (bind_Return _ _ _ Hroot).
  rewrite (bind_Raise _ _ ZeroDivision); [reflexivity|].
  rewrite (bind_Raise _ _ ZeroDivision); [reflexivity|].
  apply for_range_m_raises; [lia|].
  rewrite (bind_Return _ _ _ Hroot).
  rewrite Rmult_0_r, sinh_0, fdiv_zero. reflexivity.
Qed.

(** * Further properties *)

(** ** Parsing a snapshot *)

Module ParseFacts.
Import Orderbook.

Lemma parse_levels_returns (float : string -> option R) (raw : list (string * string)) :
  (exists levels, parse_levels float raw = Return levels) <->
  (forall p q, (p, q) ∈ raw -> is_Some (float p) /\ is_Some (float q)).
Proof.
  induction raw as [|[p q] raw IH]; simpl.
  - split; [|by eexists]. intros _ p q Hin. by apply elem_of_nil in Hin.
  - unfold to_float. split.
    + intros [levels Hparse] p' q' Hin.
      destruct (float p) as [x|] eqn:Hp; [|done].
      destruct (float q) as [y|] eqn:Hq; [|done]. simpl in Hparse.
      destruct (parse_levels float raw) as [rest|e] eqn:Hrest; [|done].
      apply elem_of_cons in Hin as [[= -> ->]|Hin].
      * rewrite Hp, Hq. split; by eexists.
      * apply IH; [by eexists | done].
    + intros Hall.
      destruct (Hall p q) as [[x Hp] [y Hq]]; [by left|].
      rewrite Hp, Hq. simpl.
      destruct (proj2 IH) as [rest Hrest].
      { intros p' q' Hin. apply Hall. by right. }
      rewrite Hrest. by eexists.
Qed.

Lemma parse_levels_raises (float : string -> option R) (raw : list (string * string))
    (e : fault) :
  parse_levels float raw = Raise e ->
  exists before p q after s,
    raw = before ++ (p, q) :: after /\
    (exists levels, parse_levels float before = Return levels) /\
    e = ValueError s /\ float s = None /\
    (s = p \/ (is_Some (float p) /\ s = q)).
Proof.
  induction raw as [|[p q] raw IH]; simpl; [done|].
  unfold to_float.
  destruct (float p) as [x|] eqn:Hp; simpl.
  2:{ intros [= <-]. exists [], p, q, raw, p. repeat split; try done.
      - by eexists.
      - by left. }
  destruct (float q) as [y|] eqn:Hq; simpl.
  2:{ intros [= <-]. exists [], p, q, raw, q. repeat split; try done.
      - by eexists.
      - right. split; [by eexists | done]. }
  destruct (parse_levels float raw) as [rest|e'] eqn:Hrest; simpl; [done|].
  intros [= <-].
  destruct (IH eq_refl) as (before & p' & q' & after & s & -> & [levels Hbefore] & He & Hs & Hwhich).
  exists ((p, q) :: before), p', q', after, s. repeat split; try done.
  simpl. unfold to_float. rewrite Hp, Hq. simpl. rewrite Hbefore. by eexists.
Qed.

Lemma parse_levels_length (float : string -> option R) (raw : list (string * string))
    (levels : list level) :
  parse_levels float raw = Return levels -> length levels = length raw.
Proof.
  revert levels. induction raw as [|[p q] raw IH]; intros levels; simpl.
  - by intros [= <-].
  - unfold to_float. destruct (float p); [|done]. destruct (float q); [|done]. simpl.
    destruct (parse_levels float raw) as [rest|]; [|done]. simpl.
    intros [= <-]. simpl. f_equal. by apply IH.
Qed.

End ParseFacts.

(** X1: [update] returns exactly when [float] accepts every price and
    quantity text of both sides, and the latency it returns is the clock
    difference in milliseconds. *)
Theorem update_returns_iff_texts_parse (float : string -> option R) (ob : Orderbook.t)
    (data : Orderbook.snapshot) (t0 t1 : R) :
  ((exists ob', Orderbook.update float ob data t0 t1 = (ob', Return ((t1 - t0) * 1000))) <->
   (forall p q,
      (p, q) ∈ default [] (Orderbook.snap_asks data)
               ++ default [] (Orderbook.snap_bids data) ->
      is_Some (float p) /\ is_Some (float q))) /\
  (forall ob' latency,
     Orderbook.update float ob data t0 t1 = (ob', Return latency) ->
     latency = (t1 - t0) * 1000).
Proof.
  split.
  - unfold Orderbook.update. split.
    + intros [ob' Hupd] p q Hin.
      destruct (Orderbook.parse_levels float (default [] (Orderbook.snap_asks data)))
        as [new_asks|] eqn:Ha; [|done].
      destruct (Orderbook.parse_levels float (default [] (Orderbook.snap_bids data)))
        as [new_bids|] eqn:Hb; [|done].
      apply elem_of_app in Hin as [Hin|Hin].
      * by apply (proj1 (ParseFacts.parse_levels_returns float _) (ex_intro _ _ Ha)).
      * by apply (proj1 (ParseFacts.parse_levels_returns float _) (ex_intro _ _ Hb)).
    + intros Hall.
      destruct (proj2 (ParseFacts.parse_levels_returns float
                         (default [] (Orderbook.snap_asks data)))) as [new_asks Ha].
      { intros p q Hin. apply Hall, elem_of_app. by left. }
      destruct (proj2 (ParseFacts.parse_levels_returns float
                         (default [] (Orderbook.snap_bids data)))) as [new_bids Hb].
      { intros p q Hin. apply Hall, elem_of_app. by right. }
      rewrite Ha, Hb. by eexists.
  - intros ob' latency. unfold Orderbook.update.
    destruct (Orderbook.parse_levels float (default [] (Orderbook.snap_asks data)));
      [|done].
    destruct (Orderbook.parse_levels float (default [] (Orderbook.snap_bids data)));
      [|done].
    by intros [= _ <-].
Qed.

Lemma update_returns_iff_texts_parse_witness :
  exists ob',
    Orderbook.update sample_float (Orderbook.init 50) sample_data 0 1
    = (ob', Return ((1 - 0) * 1000)).
Proof.
  apply (update_returns_iff_texts_parse sample_float (Orderbook.init 50) sample_data 0 1).
  intros p q Hin. simpl in Hin.
  repeat (apply elem_of_cons in Hin as [[= -> ->]|Hin];
          [split; eexists; vm_compute; reflexivity|]).
  by apply elem_of_nil in Hin.
Defined.

(** X2: when [update] raises, the exception is the ValueError of the first
    text that [float] refuses, asks before bids and price before quantity;
    the timestamp, exchange and symbol of the snapshot are stored all the
    same, while both sides, the depth, the update time and the latency
    window stay as they were. *)
Theorem update_raise_keeps_book (float : string -> option R) (ob ob' : Orderbook.t)
    (data : Orderbook.snapshot) (t0 t1 : R) (e : fault) :
  Orderbook.update float ob data t0 t1 = (ob', Raise e) ->
  (exists before p q after s,
     default [] (Orderbook.snap_asks data) ++ default [] (Orderbook.snap_bids data)
       = before ++ (p, q) :: after /\
     (forall p' q', (p', q') ∈ before -> is_Some (float p') /\ is_Some (float q')) /\
     e = ValueError s /\ float s = None /\
     (s = p \/ (is_Some (float p) /\ s = q))) /\
  Orderbook.timestamp ob' = Orderbook.snap_timestamp data /\
  Orderbook.exchange ob' = Orderbook.snap_exchange data /\
  Orderbook.symbol ob' = Orderbook.snap_symbol data /\
  Orderbook.asks ob' = Orderbook.asks ob /\
  Orderbook.bids ob' = Orderbook.bids ob /\
  Orderbook.max_depth ob' = Orderbook.max_depth ob /\
  Orderbook.last_update_time ob' = Orderbook.last_update_time ob /\
  Orderbook.processing_times ob' = Orderbook.processing_times ob.
Proof.
  unfold Orderbook.update.
  destruct (Orderbook.parse_levels float (default [] (Orderbook.snap_asks data)))
    as [new_asks|ea] eqn:Ha.
  - destruct (Orderbook.parse_levels float (default [] (Orderbook.snap_bids data)))
      as [new_bids|eb] eqn:Hb; [done|].
    intros [= <- <-]. split; [|done].
    destruct (ParseFacts.parse_levels_raises _ _ _ Hb)
      as (before & p & q & after & s & Hraw & Hbefore & He & Hs & Hwhich).
    exists (default [] (Orderbook.snap_asks data) ++ before), p, q, after, s.
    rewrite Hraw, <- app_assoc. split; [done|]. split; [|done].
    intros p' q' Hin. apply elem_of_app in Hin as [Hin|Hin].
    + by apply (proj1 (ParseFacts.parse_levels_returns float _) (ex_intro _ _ Ha)).
    + by apply (proj1 (ParseFacts.parse_levels_returns float _) Hbefore).
  - intros [= <- <-]. split; [|done].
    destruct (ParseFacts.parse_levels_raises _ _ _ Ha)
      as (before & p & q & after & s & Hraw & Hbefore & He & Hs & Hwhich).
    exists before, p, q, (after ++ default [] (Orderbook.snap_bids data)), s.
    rewrite Hraw, <- app_assoc. split; [done|]. split; [|done].
    intros p' q' Hin.
    by apply (proj1 (ParseFacts.parse_levels_returns float _) Hbefore).
Qed.

Lemma update_raise_keeps_book_witness :
  Orderbook.asks (Orderbook.update sample_float sample_book bad_data 1 2).1
    = Orderbook.asks sample_book /\
  Orderbook.timestamp (Orderbook.update sample_float sample_book bad_data 1 2).1
    = Some "2023-05-04T10:39:14Z".
Proof.
  assert (Hraise : Orderbook.update sample_float sample_book bad_data 1 2
                   = ((Orderbook.update sample_float sample_book bad_data 1 2).1,
                      Raise (ValueError "n/a"))).
  { vm_compute. reflexivity. }
  destruct (update_raise_keeps_book _ _ _ _ _ _ _ Hraise)
    as (_ & Htime & _ & _ & Hasks & _).
  split; [exact Hasks | exact Htime].
Defined.

(** ** The latency window *)

(** [times.append(x); if len(times) > 1000: times = times[-1000:]] *)
Lemma window_append (l : list R) (x : R) :
  let w := if decide (1000 < length (l ++ [x]))%nat
           then slice_last 1000 (l ++ [x]) else l ++ [x] in
  ((length l <= 1000)%nat -> (length w <= 1000)%nat) /\
  last w = Some x /\
  ((length l < 1000)%nat -> w = l ++ [x]) /\
  ((length l = 1000)%nat -> w = drop 1 l ++ [x]) /\
  (forall y, y ∈ w -> y ∈ l \/ y = x).
Proof.
  simpl. rewrite length_app. simpl. unfold slice_last. rewrite length_app. simpl.
  case_decide as Hlen.
  - replace (length l + 1 - 1000)%nat with (length l - 999)%nat by lia.
    rewrite drop_app_le by lia. repeat split.
    + intros Hle. rewrite length_app, length_drop. simpl. lia.
    + apply last_snoc.
    + lia.
    + intros ->. done.
    + intros y Hy. apply elem_of_app in Hy as [Hy|Hy].
      * left. revert Hy. apply subseteq_drop.
      * right. by apply list_elem_of_singleton in Hy.
  - repeat split.
    + intros _. rewrite length_app. simpl. lia.
    + apply last_snoc.
    + lia.
    + intros y Hy. apply elem_of_app in Hy as [Hy|Hy]; [by left|].
      right. by apply list_elem_of_singleton in Hy.
Qed.

(** X3: the book keeps its latencies in a window of 1000: after a returning
    [update] on a book that holds at most 1000 of them, it still holds at
    most 1000, the newest one is last, and the oldest one has been dropped
    exactly when the window was full. *)
Theorem processing_times_window (float : string -> option R) (ob ob' : Orderbook.t)
    (data : Orderbook.snapshot) (t0 t1 latency : R) :
  (length (Orderbook.processing_times ob) <= 1000)%nat ->
  Orderbook.update float ob data t0 t1 = (ob', Return latency) ->
  (length (Orderbook.processing_times ob') <= 1000)%nat /\
  last (Orderbook.processing_times ob') = Some latency /\
  ((length (Orderbook.processing_times ob) < 1000)%nat ->
   Orderbook.processing_times ob' = Orderbook.processing_times ob ++ [latency]) /\
  ((length (Orderbook.processing_times ob) = 1000)%nat ->
   Orderbook.processing_times ob'
   = drop 1 (Orderbook.processing_times ob) ++ [latency]).
Proof.
  intros Hlen. unfold Orderbook.update.
  destruct (Orderbook.parse_levels float (default [] (Orderbook.snap_asks data)));
    [|done].
  destruct (Orderbook.parse_levels float (default [] (Orderbook.snap_bids data)));
    [|done].
  intros [= <- <-]. simpl.
  destruct (window_append (Orderbook.processing_times ob) ((t1 - t0) * 1000))
    as (Hle & Hlast & Hshort & Hfull & _).
  auto.
Qed.

Lemma processing_times_window_witness :
  last (Orderbook.processing_times
          (Orderbook.update sample_float (Orderbook.init 50) sample_data 0 1).1)
  = Some 1000.
Proof.
  destruct (processing_times_window sample_float (Orderbook.init 50) sample_book
              sample_data 0 1 1000) as (_ & Hlast & _).
  - simpl. lia.
  - apply update_sample.
  - rewrite update_sample. exact Hlast.
Defined.

(** ** Best prices and order of arrival *)

Module BookFacts.
Import Orderbook.

Lemma Sorted_asc_head (x : level) (l : list level) :
  Sorted asc (x :: l) -> forall y, y ∈ x :: l -> x.1 <= y.1.
Proof.
  intros Hs y Hy.
  assert (Transitive asc) as Htr by (intros a b c; unfold asc; lra).
  apply (Sorted_StronglySorted asc) in Hs.
  apply elem_of_cons in Hy as [->|Hy]; [lra|].
  apply StronglySorted_inv in Hs as [_ Hall].
  rewrite Forall_forall in Hall. by apply Hall.
Qed.

Lemma Sorted_desc_head (x : level) (l : list level) :
  Sorted desc (x :: l) -> forall y, y ∈ x :: l -> x.1 >= y.1.
Proof.
  intros Hs y Hy.
  assert (Transitive desc) as Htr by (intros a b c; unfold desc; lra).
  apply (Sorted_StronglySorted desc) in Hs.
  apply elem_of_cons in Hy as [->|Hy]; [lra|].
  apply StronglySorted_inv in Hs as [_ Hall].
  rewrite Forall_forall in Hall. by apply Hall.
Qed.

Lemma slice_to_head (k : Z) (l : list level) :
  (1 <= k)%Z -> head (slice_to k l) = head l.
Proof.
  intros Hk. unfold slice_to. case_decide; [|lia].
  destruct (Z.to_nat k) as [|n] eqn:Hn; [lia|]. by destruct l.
Qed.

Lemma parse_levels_omap (float : string -> option R) (raw : list (string * string))
    (levels : list level) :
  parse_levels float raw = Return levels -> levels = omap (read_level float) raw.
Proof.
  revert levels. induction raw as [|[p q] raw IH]; intros levels; simpl.
  - by intros [= <-].
  - unfold to_float, read_level at 1. simpl.
    destruct (float p); [|done]. destruct (float q); [|done]. simpl.
    destruct (parse_levels float raw) as [rest|]; [|done]. simpl.
    intros [= <-]. f_equal. by apply IH.
Qed.

Lemma parse_levels_elem (float : string -> option R) (raw : list (string * string))
    (levels : list level) (l : level) :
  parse_levels float raw = Return levels ->
  l ∈ levels <-> exists p q, (p, q) ∈ raw /\ float p = Some l.1 /\ float q = Some l.2.
Proof.
  intros ->%parse_levels_omap. rewrite list_elem_of_omap. split.
  - intros [[p q] [Hin Hread]]. exists p, q. split; [done|].
    unfold read_level in Hread. simpl in Hread.
    destruct (float p); [|done]. destruct (float q); [|done].
    simpl in Hread. by injection Hread as <-.
  - intros (p & q & Hin & Hp & Hq). exists (p, q). split; [done|].
    unfold read_level. simpl. rewrite Hp, Hq. simpl. by destruct l.
Qed.

End BookFacts.

Module TouchFacts.
Import Orderbook.

Lemma best_ask (k : Z) (levels : list level) (l : level) :
  (1 <= k)%Z -> l ∈ levels ->
  exists best, head (slice_to k (sorted_asc levels)) = Some best /\
               best ∈ levels /\ best.1 <= l.1.
Proof.
  intros Hk Hin. rewrite BookFacts.slice_to_head by done.
  pose proof (SortFacts.sorted_asc_sorted levels) as Hs.
  pose proof (SortFacts.sorted_asc_perm levels) as Hp.
  rewrite <- Hp in Hin.
  destruct (sorted_asc levels) as [|best rest]; [by apply elem_of_nil in Hin|].
  exists best. split; [done|]. split; [rewrite <- Hp; by left|].
  by apply (BookFacts.Sorted_asc_head best rest).
Qed.

Lemma best_bid (k : Z) (levels : list level) (l : level) :
  (1 <= k)%Z -> l ∈ levels ->
  exists best, head (slice_to k (sorted_desc levels)) = Some best /\
               best ∈ levels /\ best.1 >= l.1.
Proof.
  intros Hk Hin. rewrite BookFacts.slice_to_head by done.
  pose proof (SortFacts.sorted_desc_sorted levels) as Hs.
  pose proof (SortFacts.sorted_desc_perm levels) as Hp.
  rewrite <- Hp in Hin.
  destruct (sorted_desc levels) as [|best rest]; [by apply elem_of_nil in Hin|].
  exists best. split; [done|]. split; [rewrite <- Hp; by left|].
  by apply (BookFacts.Sorted_desc_head best rest).
Qed.

Lemma same_price_same_level (float : string -> option R)
    (raw : list (string * string)) (levels : list level) :
  (forall p q p' q', (p, q) ∈ raw -> (p', q') ∈ raw ->
                     float p = float p' -> float q = float q') ->
  parse_levels float raw = Return levels ->
  forall x y, x ∈ levels -> y ∈ levels -> x.1 = y.1 -> x = y.
Proof.
  intros Hone Hparse [x1 x2] [y1 y2] Hx Hy Heq. simpl in Heq. subst y1.
  apply (BookFacts.parse_levels_elem _ _ _ _ Hparse) in Hx as (p & q & Hin & Hp & Hq).
  apply (BookFacts.parse_levels_elem _ _ _ _ Hparse) in Hy as (p' & q' & Hin' & Hp' & Hq').
  simpl in *. assert (float q = float q') as Hqq.
  { apply (Hone p q p' q'); [done|done|]. by rewrite Hp, Hp'. }
  rewrite Hq, Hq' in Hqq. by injection Hqq as ->.
Qed.

Lemma parse_levels_perm (float : string -> option R)
    (raw raw' : list (string * string)) (levels : list level) :
  raw ≡ₚ raw' -> parse_levels float raw = Return levels ->
  exists levels', parse_levels float raw' = Return levels' /\ levels ≡ₚ levels'.
Proof.
  intros Hperm Hparse.
  destruct (proj2 (ParseFacts.parse_levels_returns float raw')) as [levels' Hparse'].
  { intros p q Hin. rewrite <- Hperm in Hin.
    by apply (proj1 (ParseFacts.parse_levels_returns float raw) (ex_intro _ _ Hparse)). }
  exists levels'. split; [done|].
  apply BookFacts.parse_levels_omap in Hparse as ->.
  apply BookFacts.parse_levels_omap in Hparse' as ->.
  by rewrite Hperm.
Qed.

Lemma sorted_asc_order_free (l l' : list level) :
  l ≡ₚ l' -> (forall x y, x ∈ l -> y ∈ l -> x.1 = y.1 -> x = y) ->
  sorted_asc l = sorted_asc l'.
Proof.
  intros Hperm Hone.
  assert (Transitive asc) as Htr by (intros a b c; unfold asc; lra).
  apply (Sorted_unique_strong asc).
  - intros x y Hx Hy Hxy Hyx. unfold asc in *.
    rewrite SortFacts.sorted_asc_perm in Hx.
    rewrite SortFacts.sorted_asc_perm, <- Hperm in Hy.
    apply Hone; [done|done|lra].
  - apply SortFacts.sorted_asc_sorted.
  - apply SortFacts.sorted_asc_sorted.
  - by rewrite !SortFacts.sorted_asc_perm.
Qed.

Lemma sorted_desc_order_free (l l' : list level) :
  l ≡ₚ l' -> (forall x y, x ∈ l -> y ∈ l -> x.1 = y.1 -> x = y) ->
  sorted_desc l = sorted_desc l'.
Proof.
  intros Hperm Hone.
  assert (Transitive desc) as Htr by (intros a b c; unfold desc; lra).
  apply (Sorted_unique_strong desc).
  - intros x y Hx Hy Hxy Hyx. unfold desc in *.
    rewrite SortFacts.sorted_desc_perm in Hx.
    rewrite SortFacts.sorted_desc_perm, <- Hperm in Hy.
    apply Hone; [done|done|lra].
  - apply SortFacts.sorted_desc_sorted.
  - apply SortFacts.sorted_desc_sorted.
  - by rewrite !SortFacts.sorted_desc_perm.
Qed.

End TouchFacts.

(** X4: after a returning [update] of a book with room for at least one
    level, the first stored ask is a level of the snapshot with the lowest
    ask price in it, and the first stored bid is a level of the snapshot
    with the highest bid price in it. *)
Theorem update_stores_best_prices (float : string -> option R) (ob ob' : Orderbook.t)
    (data : Orderbook.snapshot) (t0 t1 latency : R) :
  (1 <= Orderbook.max_depth ob)%Z ->
  Orderbook.update float ob data t0 t1 = (ob', Return latency) ->
  (forall text, text ∈ default [] (Orderbook.snap_asks data) ->
     exists best best_text l,
       head (Orderbook.asks ob') = Some best /\
       best_text ∈ default [] (Orderbook.snap_asks data) /\
       Orderbook.read_level float best_text = Some best /\
       Orderbook.read_level float text = Some l /\ best.1 <= l.1) /\
  (forall text, text ∈ default [] (Orderbook.snap_bids data) ->
     exists best best_text l,
       head (Orderbook.bids ob') = Some best /\
       best_text ∈ default [] (Orderbook.snap_bids data) /\
       Orderbook.read_level float best_text = Some best /\
       Orderbook.read_level float text = Some l /\ best.1 >= l.1).
Proof.
  intros Hk Hupd.
  destruct (SortFacts.update_returns _ _ _ _ _ _ _ Hupd)
    as (new_asks & new_bids & Ha & Hb & -> & -> & _).
  pose proof (BookFacts.parse_levels_omap _ _ _ Ha) as Ea.
  pose proof (BookFacts.parse_levels_omap _ _ _ Hb) as Eb.
  split; intros text Hin.
  - destruct (proj1 (ParseFacts.parse_levels_returns float _) (ex_intro _ _ Ha)
                text.1 text.2) as [[x Hx] [y Hy]]; [by destruct text|].
    assert (Orderbook.read_level float text = Some (x, y)) as Hread.
    { unfold Orderbook.read_level. by rewrite Hx, Hy. }
    assert ((x, y) ∈ new_asks) as Hl.
    { rewrite Ea. apply list_elem_of_omap. by exists text. }
    destruct (TouchFacts.best_ask _ _ _ Hk Hl) as (best & Hhead & Hbest & Hle).
    rewrite Ea in Hbest. apply list_elem_of_omap in Hbest as (best_text & ? & ?).
    by exists best, best_text, (x, y).
  - destruct (proj1 (ParseFacts.parse_levels_returns float _) (ex_intro _ _ Hb)
                text.1 text.2) as [[x Hx] [y Hy]]; [by destruct text|].
    assert (Orderbook.read_level float text = Some (x, y)) as Hread.
    { unfold Orderbook.read_level. by rewrite Hx, Hy. }
    assert ((x, y) ∈ new_bids) as Hl.
    { rewrite Eb. apply list_elem_of_omap. by exists text. }
    destruct (TouchFacts.best_bid _ _ _ Hk Hl) as (best & Hhead & Hbest & Hle).
    rewrite Eb in Hbest. apply list_elem_of_omap in Hbest as (best_text & ? & ?).
    by exists best, best_text, (x, y).
Qed.

Lemma update_stores_best_prices_witness :
  exists best best_text l,
    head (Orderbook.asks sample_book) = Some best /\
    best_text ∈ default [] (Orderbook.snap_asks shuffled_data) /\
    Orderbook.read_level sample_float best_text = Some best /\
    Orderbook.read_level sample_float ("45002.0", "3.0") = Some l /\ best.1 <= l.1.
Proof.
  assert (Orderbook.update sample_float (Orderbook.init 50) shuffled_data 0 1
          = (sample_book, Return 1000)) as Hupd.
  { unfold Orderbook.update.
    replace (Orderbook.parse_levels sample_float
               (default [] (Orderbook.snap_asks shuffled_data)))
      with (Return
              [(45002.0, 3.0); (45000.5, 1.5); (45004.0, 5.0); (45001.0, 2.0);
               (45003.0, 4.0)]) by (vm_compute; reflexivity).
    replace (Orderbook.parse_levels sample_float
               (default [] (Orderbook.snap_bids shuffled_data)))
      with (Return
              [(44997.0, 4.0); (44999.5, 1.0); (44996.0, 5.0); (44998.0, 3.0);
               (44999.0, 2.0)]) by (vm_compute; reflexivity).
    unfold sample_book, Orderbook.init, slice_to. simpl. decide_R.
    repeat f_equal; lra. }
  apply (proj1 (update_stores_best_prices sample_float (Orderbook.init 50) sample_book
                  shuffled_data 0 1 1000 ltac:(simpl; lia) Hupd)).
  simpl. left.
Defined.

(** X5: the stored book does not depend on the order in which the levels of
    a snapshot arrive: if no two levels of a side carry the same price with
    different quantities, a snapshot with the same levels in another order
    leaves the same book and returns the same latency. *)
Theorem update_order_of_arrival (float : string -> option R) (ob ob' : Orderbook.t)
    (ts ex sy : option string) (asks1 asks2 bids1 bids2 : list (string * string))
    (t0 t1 latency : R) :
  asks1 ≡ₚ asks2 -> bids1 ≡ₚ bids2 ->
  (forall p q p' q', (p, q) ∈ asks1 -> (p', q') ∈ asks1 ->
                     float p = float p' -> float q = float q') ->
  (forall p q p' q', (p, q) ∈ bids1 -> (p', q') ∈ bids1 ->
                     float p = float p' -> float q = float q') ->
  Orderbook.update float ob
    (Orderbook.mk_snapshot ts ex sy (Some asks1) (Some bids1)) t0 t1
  = (ob', Return latency) ->
  Orderbook.update float ob
    (Orderbook.mk_snapshot ts ex sy (Some asks2) (Some bids2)) t0 t1
  = (ob', Return latency).
Proof.
  intros Hpa Hpb Hone_a Hone_b. unfold Orderbook.update. simpl.
  destruct (Orderbook.parse_levels float asks1) as [new_asks|] eqn:Ha; [|done].
  destruct (Orderbook.parse_levels float bids1) as [new_bids|] eqn:Hb; [|done].
  destruct (TouchFacts.parse_levels_perm _ _ _ _ Hpa Ha) as (new_asks' & -> & Hpa').
  destruct (TouchFacts.parse_levels_perm _ _ _ _ Hpb Hb) as (new_bids' & -> & Hpb').
  rewrite <- (TouchFacts.sorted_asc_order_free _ _ Hpa'
                (TouchFacts.same_price_same_level _ _ _ Hone_a Ha)).
  rewrite <- (TouchFacts.sorted_desc_order_free _ _ Hpb'
                (TouchFacts.same_price_same_level _ _ _ Hone_b Hb)).
  done.
Qed.

Lemma update_order_of_arrival_witness :
  Orderbook.update sample_float (Orderbook.init 50) shuffled_data 0 1
  = (sample_book, Return 1000).
Proof.
  apply (update_order_of_arrival sample_float (Orderbook.init 50) sample_book
           (Some "2023-05-04T10:39:13Z") (Some "OKX") (Some "BTC-USDT-SWAP")
           (default [] (Orderbook.snap_asks sample_data))
           (default [] (Orderbook.snap_asks shuffled_data))
           (default [] (Orderbook.snap_bids sample_data))
           (default [] (Orderbook.snap_bids shuffled_data)) 0 1 1000).
  - apply (bool_decide_unpack _). vm_compute. reflexivity.
  - apply (bool_decide_unpack _). vm_compute. reflexivity.
  - simpl. intros p q p' q' Hin Hin'.
    repeat (apply elem_of_cons in Hin as [[= -> ->]|Hin]);
      try (by apply elem_of_nil in Hin);
      repeat (apply elem_of_cons in Hin' as [[= -> ->]|Hin']);
      try (by apply elem_of_nil in Hin');
      first [ reflexivity
            | intros Heq; exfalso; vm_compute in Heq; injection Heq as Heq; lra ].
  - simpl. intros p q p' q' Hin Hin'.
    repeat (apply elem_of_cons in Hin as [[= -> ->]|Hin]);
      try (by apply elem_of_nil in Hin);
      repeat (apply elem_of_cons in Hin' as [[= -> ->]|Hin']);
      try (by apply elem_of_nil in Hin');
      first [ reflexivity
            | intros Heq; exfalso; vm_compute in Heq; injection Heq as Heq; lra ].
  - apply update_sample.
Defined.

(** ** Depth queries on a sorted side *)

Section Depth.
Import Orderbook.

Variable le : R -> R -> Prop.
Context `{le_dec : forall x y, Decision (le x y)}.
Hypothesis le_trans : Transitive le.
Hypothesis le_total : forall x y, le x y \/ le y x.

Lemma filter_none (P : level -> Prop) `{forall l, Decision (P l)} (ls : list level) :
  Forall (fun l => ~ P l) ls -> filter P ls = [].
Proof.
  induction 1 as [|l ls Hl _ IH]; [done|].
  rewrite filter_cons. by rewrite decide_False.
Qed.

(** On a sorted side the [break] of the loop loses nothing: the loop adds
    every level that passes the test. *)
Lemma volume_while_filter (ls : list level) (price : R) :
  Sorted (fun x y => le x.1 y.1) ls ->
  volume_while (fun p => bool_decide (le p price)) ls 0
  = py_sum (filter (fun l => le l.1 price) ls).*2.
Proof.
  intros Hs.
  assert (Transitive (fun x y : level => le x.1 y.1)) as Htr.
  { intros x y z Hxy Hyz. by etrans. }
  apply (Sorted_StronglySorted _) in Hs. clear Htr.
  induction Hs as [|[p q] ls Hs IH Hall]; simpl; [done|].
  rewrite filter_cons. simpl. case_bool_decide as Hp.
  - rewrite decide_True by done. rewrite fmap_cons, py_sum_cons. simpl.
    rewrite volume_while_acc, IH. lra.
  - rewrite decide_False by done.
    replace (filter (fun l : level => le l.1 price) ls) with (@nil level);
      [reflexivity|].
    symmetry. apply filter_none. rewrite Forall_forall in Hall |- *.
    intros l Hl Hkeep. apply Hp. etrans; [exact (Hall l Hl)|exact Hkeep].
Qed.

Lemma py_sum_filter_mono (P Q : level -> Prop) `{forall l, Decision (P l)}
    `{forall l, Decision (Q l)} (ls : list level) :
  (forall l, P l -> Q l) -> Forall (fun l => 0 <= l.2) ls ->
  0 <= py_sum (filter P ls).*2 <= py_sum (filter Q ls).*2 /\
  py_sum (filter Q ls).*2 <= py_sum ls.*2.
Proof.
  intros HPQ. induction 1 as [|[p q] ls Hq _ IH].
  - rewrite !filter_nil, !fmap_nil, py_sum_nil. lra.
  - simpl in Hq. rewrite !filter_cons, (fmap_cons _ (p, q) ls), py_sum_cons. simpl.
    destruct (decide (P (p, q))) as [HP|HP].
    + rewrite decide_True by auto. rewrite !fmap_cons, !py_sum_cons. simpl. lra.
    + destruct (decide (Q (p, q))); rewrite ?fmap_cons, ?py_sum_cons; simpl; lra.
Qed.

Lemma price_walk_elem (ls : list level) (v p : R) :
  price_walk ls v = Some p -> p ∈ ls.*1.
Proof.
  revert v. induction ls as [|[p0 q0] ls IH]; intros v; simpl; [done|].
  case_decide.
  - intros [= ->]. by left.
  - intros Hwalk. right. by apply (IH _ Hwalk).
Qed.

(** A larger volume never stops the walk earlier. *)
Lemma price_walk_mono (ls : list level) (v v' p' : R) :
  Sorted (fun x y => le x.1 y.1) ls -> v <= v' ->
  price_walk ls v' = Some p' ->
  exists p, price_walk ls v = Some p /\ le p p'.
Proof.
  intros Hs.
  assert (Transitive (fun x y : level => le x.1 y.1)) as Htr.
  { intros x y z Hxy Hyz. by etrans. }
  apply (Sorted_StronglySorted _) in Hs. clear Htr.
  assert (forall x, le x x) as Hrefl by (intros x; by destruct (le_total x x)).
  revert v v'.
  induction Hs as [|[p0 q0] ls Hs IH Hall]; intros v v' Hv; simpl; [done|].
  destruct (decide (v' - q0 <= 0)) as [Hstop'|Hgo'].
  - intros [= <-]. rewrite decide_True by lra. by exists p0.
  - intros Hwalk. destruct (decide (v - q0 <= 0)) as [Hstop|Hgo].
    + exists p0. split; [done|].
      apply price_walk_elem in Hwalk. apply list_elem_of_fmap in Hwalk as (l & -> & Hl).
      rewrite Forall_forall in Hall. exact (Hall l Hl).
    + apply (IH (v - q0) (v' - q0)); [lra | done].
Qed.

End Depth.

(** X6: on a book with sorted sides [get_volume_up_to_price] is the summed
    quantity of all levels of the side priced within the limit (the early
    exit of the loop loses none); with no negative quantity it does not
    decrease when the limit moves away from the touch and never exceeds the
    depth of the side. *)
Theorem volume_up_to_price_spec (ob : Orderbook.t) (price price' : R) :
  Sorted Orderbook.asc (Orderbook.asks ob) ->
  Sorted Orderbook.desc (Orderbook.bids ob) ->
  (Orderbook.get_volume_up_to_price ob "ask" price
   = py_sum (filter (fun l => l.1 <= price) (Orderbook.asks ob)).*2 /\
   Orderbook.get_volume_up_to_price ob "bid" price
   = py_sum (filter (fun l => l.1 >= price) (Orderbook.bids ob)).*2) /\
  (Forall (fun l => 0 <= l.2) (Orderbook.asks ob) -> price <= price' ->
     0 <= Orderbook.get_volume_up_to_price ob "ask" price
       <= Orderbook.get_volume_up_to_price ob "ask" price' /\
     Orderbook.get_volume_up_to_price ob "ask" price'
       <= py_sum (Orderbook.asks ob).*2) /\
  (Forall (fun l => 0 <= l.2) (Orderbook.bids ob) -> price <= price' ->
     0 <= Orderbook.get_volume_up_to_price ob "bid" price'
       <= Orderbook.get_volume_up_to_price ob "bid" price /\
     Orderbook.get_volume_up_to_price ob "bid" price
       <= py_sum (Orderbook.bids ob).*2).
Proof.
  intros Hasks Hbids.
  assert (forall x,
            Orderbook.get_volume_up_to_price ob "ask" x
            = py_sum (filter (fun l => l.1 <= x) (Orderbook.asks ob)).*2) as Ea.
  { intros x. unfold Orderbook.get_volume_up_to_price. simpl.
    by apply (volume_while_filter Rle Rle_transitive). }
  assert (forall x,
            Orderbook.get_volume_up_to_price ob "bid" x
            = py_sum (filter (fun l => l.1 >= x) (Orderbook.bids ob)).*2) as Eb.
  { intros x. unfold Orderbook.get_volume_up_to_price. simpl.
    by apply (volume_while_filter Rge Rge_transitive). }
  split; [done|]. split.
  - intros Hq Hle. rewrite !Ea.
    apply py_sum_filter_mono; [|done]. intros l Hl. lra.
  - intros Hq Hle. rewrite !Eb.
    apply py_sum_filter_mono; [|done]. intros l Hl. lra.
Qed.

Lemma volume_up_to_price_spec_witness :
  Orderbook.get_volume_up_to_price sample_book "ask" 45002
  = py_sum (filter (fun l => l.1 <= 45002) (Orderbook.asks sample_book)).*2.
Proof.
  apply (volume_up_to_price_spec sample_book 45002 45003).
  - unfold Orderbook.asc. simpl. repeat constructor; simpl; lra.
  - unfold Orderbook.desc. simpl. repeat constructor; simpl; lra.
Defined.

(** X7: on a book with sorted sides a larger order is never priced better:
    if [get_price_for_volume] finds a price for a volume, it finds one for
    every smaller volume, and that one is no further from the touch. *)
Theorem price_for_volume_monotone (ob : Orderbook.t) (side : string) (v v' p' : R) :
  Sorted Orderbook.asc (Orderbook.asks ob) ->
  Sorted Orderbook.desc (Orderbook.bids ob) ->
  v <= v' ->
  Orderbook.get_price_for_volume ob side v' = Some p' ->
  exists p,
    Orderbook.get_price_for_volume ob side v = Some p /\
    (lower side = "ask" -> p <= p') /\
    (lower side <> "ask" -> p >= p').
Proof.
  intros Hasks Hbids Hv. unfold Orderbook.get_price_for_volume.
  destruct (decide (lower side = "ask")) as [Ha|Ha].
  - intros Hwalk.
    destruct (price_walk_mono Rle Rle_transitive Rle_either _ _ _ _ Hasks Hv Hwalk)
      as (p & Hp & Hle).
    exists p. by repeat split.
  - destruct (decide (lower side = "bid")) as [Hb|Hb]; [|done].
    intros Hwalk.
    destruct (price_walk_mono Rge Rge_transitive Rge_either _ _ _ _ Hbids Hv Hwalk)
      as (p & Hp & Hle).
    exists p. by repeat split.
Qed.

Lemma price_for_volume_monotone_witness :
  exists p,
    Orderbook.get_price_for_volume sample_book "ask" 2 = Some p /\
    (lower "ask" = "ask" -> p <= 45002) /\
    (lower "ask" <> "ask" -> p >= 45002).
Proof.
  apply (price_for_volume_monotone sample_book "ask" 2 5 45002).
  - unfold Orderbook.asc. simpl. repeat constructor; simpl; lra.
  - unfold Orderbook.desc. simpl. repeat constructor; simpl; lra.
  - lra.
  - unfold Orderbook.get_price_for_volume. simpl. decide_R. f_equal. lra.
Defined.

(** ** Imbalance, touch metrics and average latency *)

(** X8: with no negative quantity the sign of the imbalance tells which
    side is heavier: it is positive exactly when the bids outweigh the asks,
    negative exactly when the asks outweigh the bids, [1] or [-1] exactly
    when the other side has no volume at all; and the book with its two
    sides exchanged has the opposite imbalance. *)
Theorem imbalance_sign (ob : Orderbook.t) (r : R) :
  let bid_volume := py_sum (Orderbook.bids ob).*2 in
  let ask_volume := py_sum (Orderbook.asks ob).*2 in
  Forall (fun l => 0 <= l.2) (Orderbook.asks ob) ->
  Forall (fun l => 0 <= l.2) (Orderbook.bids ob) ->
  Orderbook.get_orderbook_imbalance ob = Some r ->
  (0 < r <-> ask_volume < bid_volume) /\
  (r < 0 <-> bid_volume < ask_volume) /\
  (r = 1 <-> ask_volume = 0 /\ 0 < bid_volume) /\
  (r = -1 <-> bid_volume = 0 /\ 0 < ask_volume) /\
  Orderbook.get_orderbook_imbalance
    (Orderbook.mk (Orderbook.max_depth ob) (Orderbook.bids ob) (Orderbook.asks ob)
       (Orderbook.timestamp ob) (Orderbook.exchange ob) (Orderbook.symbol ob)
       (Orderbook.last_update_time ob) (Orderbook.processing_times ob))
  = Some (- r).
Proof.
  intros bid_volume ask_volume Ha Hb.
  assert (0 <= ask_volume) as Hask.
  { apply py_sum_nonneg. rewrite Forall_fmap. exact Ha. }
  assert (0 <= bid_volume) as Hbid.
  { apply py_sum_nonneg. rewrite Forall_fmap. exact Hb. }
  unfold Orderbook.get_orderbook_imbalance.
  replace (Orderbook.side_empty (Orderbook.mk _ _ _ _ _ _ _ _))
    with (Orderbook.side_empty ob)
    by (unfold Orderbook.side_empty; simpl;
        by destruct (Orderbook.asks ob), (Orderbook.bids ob)).
  destruct (Orderbook.side_empty ob); [done|].
  cbn [Orderbook.asks Orderbook.bids].
  fold bid_volume ask_volume. clearbody bid_volume ask_volume.
  destruct (decide (bid_volume + ask_volume = 0)) as [Hzero|Hpos].
  - intros [= <-]. rewrite decide_True by lra.
    repeat split; try lra. f_equal. lra.
  - intros [= <-]. rewrite decide_False by lra.
    assert (0 < bid_volume + ask_volume) as Htotal by lra.
    assert (forall x, (0 < x / (bid_volume + ask_volume) <-> 0 < x)) as Hsign.
    { intros x. split; intros Hx.
      - apply (Rmult_lt_compat_r (bid_volume + ask_volume)) in Hx; [|done].
        rewrite Rmult_0_l in Hx. unfold Rdiv in Hx.
        rewrite Rmult_assoc, Rinv_l, Rmult_1_r in Hx; lra.
      - apply Rdiv_lt_0_compat; done. }
    assert (forall c, (bid_volume - ask_volume) / (bid_volume + ask_volume) = c
                      <-> bid_volume - ask_volume = c * (bid_volume + ask_volume))
      as Heq.
    { intros c. split; intros Hc.
      - rewrite <- Hc. field. lra.
      - rewrite Hc. field. lra. }
    repeat split.
    + intros Hr. apply (proj1 (Hsign _)) in Hr. lra.
    + intros Hr. apply (proj2 (Hsign _)). lra.
    + intros Hr.
      assert (0 < (ask_volume - bid_volume) / (bid_volume + ask_volume)) as Hneg.
      { replace ((ask_volume - bid_volume) / (bid_volume + ask_volume))
          with (- ((bid_volume - ask_volume) / (bid_volume + ask_volume)))
          by (field; lra). lra. }
      apply (proj1 (Hsign _)) in Hneg. lra.
    + intros Hr.
      assert (0 < (ask_volume - bid_volume) / (bid_volume + ask_volume)) as Hneg.
      { apply (proj2 (Hsign _)). lra. }
      replace ((ask_volume - bid_volume) / (bid_volume + ask_volume))
        with (- ((bid_volume - ask_volume) / (bid_volume + ask_volume))) in Hneg
        by (field; lra). lra.
    + apply (proj1 (Heq _)) in H. lra.
    + apply (proj1 (Heq _)) in H. lra.
    + intros [H0 H1]. apply (proj2 (Heq _)). lra.
    + apply (proj1 (Heq _)) in H. lra.
    + apply (proj1 (Heq _)) in H. lra.
    + intros [H0 H1]. apply (proj2 (Heq _)). lra.
    + f_equal. field. lra.
Qed.

Lemma imbalance_sign_witness :
  exists r, Orderbook.get_orderbook_imbalance sample_book = Some r /\ r < 0.
Proof.
  assert (exists r, Orderbook.get_orderbook_imbalance sample_book = Some r) as [r Hr].
  { unfold Orderbook.get_orderbook_imbalance. simpl. case_decide; by eexists. }
  exists r. split; [exact Hr|].
  apply (imbalance_sign sample_book r); [| |exact Hr|].
  - simpl. repeat constructor; simpl; lra.
  - simpl. repeat constructor; simpl; lra.
  - simpl. rewrite !py_sum_cons, py_sum_nil. lra.
Defined.

(** X9: mid price and spread have a value exactly when both sides hold a
    level, and then they determine the two best prices: the best ask is the
    mid price plus half the spread and the best bid the mid price minus half
    the spread.  On a book that is not crossed the spread is not negative
    and the mid price lies between the best prices.  The spread percentage
    has a value exactly when the mid price is not 0, and then it is the
    spread in hundredths of the mid price. *)
Theorem touch_metrics (ob : Orderbook.t) :
  (Orderbook.get_mid_price ob = None <->
     Orderbook.asks ob = [] \/ Orderbook.bids ob = []) /\
  (Orderbook.get_spread ob = None <->
     Orderbook.asks ob = [] \/ Orderbook.bids ob = []) /\
  (forall best_ask best_bid,
     head (Orderbook.asks ob).*1 = Some best_ask ->
     head (Orderbook.bids ob).*1 = Some best_bid ->
     exists mid spread,
       Orderbook.get_mid_price ob = Some mid /\
       Orderbook.get_spread ob = Some spread /\
       best_ask = mid + spread / 2 /\ best_bid = mid - spread / 2 /\
       (best_bid <= best_ask -> 0 <= spread /\ best_bid <= mid <= best_ask) /\
       (mid = 0 -> Orderbook.get_spread_percentage ob = None) /\
       (mid <> 0 ->
          exists pct, Orderbook.get_spread_percentage ob = Some pct /\
                      pct * mid = spread * 100)).
Proof.
  unfold Orderbook.get_spread_percentage, Orderbook.get_mid_price, Orderbook.get_spread.
  destruct (Orderbook.asks ob) as [|[a qa] asks];
    destruct (Orderbook.bids ob) as [|[b qb] bids]; simpl.
  - repeat split; try done; by left.
  - repeat split; try done; by left.
  - repeat split; try done; by right.
  - split; [|split].
    + split; [done|]. by intros [?|?].
    + split; [done|]. by intros [?|?].
    + intros best_ask best_bid [= <-] [= <-].
      exists ((a + b) / 2), (a - b). repeat split; try lra.
      * intros Hmid. by rewrite decide_True.
      * intros Hmid. rewrite decide_False by done.
        eexists. split; [done|]. field. lra.
Qed.

Lemma average_between (ts : list R) (lo hi : R) :
  ts <> [] -> Forall (fun t => lo <= t <= hi) ts ->
  lo <= py_sum ts / INR (length ts) <= hi.
Proof.
  intros Hne Hall.
  assert (INR (length ts) * lo <= py_sum ts <= INR (length ts) * hi) as Hsum.
  { clear Hne. induction Hall as [|t ts Ht _ IH].
    - rewrite py_sum_nil. simpl. lra.
    - rewrite py_sum_cons, length_cons, S_INR. lra. }
  assert (0 < INR (length ts)) as Hlen.
  { apply lt_0_INR. destruct ts; [done|simpl; lia]. }
  split.
  - apply Rmult_le_reg_r with (INR (length ts)); [done|].
    unfold Rdiv. rewrite Rmult_assoc, Rinv_l, Rmult_1_r; lra.
  - apply Rmult_le_reg_r with (INR (length ts)); [done|].
    unfold Rdiv. rewrite Rmult_assoc, Rinv_l, Rmult_1_r; lra.
Qed.

(** X10: the average latency of the book is 0 when no update has returned
    yet, and otherwise lies between any two bounds that hold for every
    latency in the window. *)
Theorem average_processing_time_bounds (ob : Orderbook.t) (lo hi : R) :
  (Orderbook.processing_times ob = [] ->
     Orderbook.get_average_processing_time ob = 0) /\
  (Orderbook.processing_times ob <> [] ->
   Forall (fun t => lo <= t <= hi) (Orderbook.processing_times ob) ->
     lo <= Orderbook.get_average_processing_time ob <= hi).
Proof.
  unfold Orderbook.get_average_processing_time. split.
  - by intros ->.
  - intros Hne Hall.
    pose proof (average_between _ lo hi Hne Hall) as Havg.
    by destruct (Orderbook.processing_times ob).
Qed.

Lemma average_processing_time_bounds_witness :
  1000 <= Orderbook.get_average_processing_time sample_book <= 1000.
Proof.
  apply (average_processing_time_bounds sample_book 1000 1000).
  - done.
  - simpl. repeat constructor; lra.
Defined.

Lemma touch_metrics_witness :
  exists mid spread,
    Orderbook.get_mid_price sample_book = Some mid /\
    Orderbook.get_spread sample_book = Some spread /\
    45000.5 = mid + spread / 2 /\ 44999.5 = mid - spread / 2 /\
    (44999.5 <= 45000.5 -> 0 <= spread /\ 44999.5 <= mid <= 45000.5) /\
    (mid = 0 -> Orderbook.get_spread_percentage sample_book = None) /\
    (mid <> 0 ->
       exists pct, Orderbook.get_spread_percentage sample_book = Some pct /\
                   pct * mid = spread * 100).
Proof.
  apply (touch_metrics sample_book); reflexivity.
Defined.

(** ** The simulator's book-keeping *)

(** X11: [update_orderbook] raises exactly when the book's [update] raises,
    with the same exception, and then the simulator's clock and latency
    window are untouched.  When the book's [update] returns, it returns the
    clock difference in milliseconds but never less than 0.001.  A returned
    latency is appended to the simulator's window, which keeps at most 1000
    entries, all at least 0.001 if they were before, so that the average
    latency is at least 0.001 as well. *)
Theorem update_orderbook_latency (float : string -> option R) (sim sim' : TradeSimulator.t)
    (data : Orderbook.snapshot) (start_time ob_start ob_end end_time : R)
    (r : outcome R) :
  TradeSimulator.update_orderbook float sim data start_time ob_start ob_end end_time
  = (sim', r) ->
  TradeSimulator.orderbook sim'
  = (Orderbook.update float (TradeSimulator.orderbook sim) data ob_start ob_end).1 /\
  (forall e,
     (Orderbook.update float (TradeSimulator.orderbook sim) data ob_start ob_end).2
     = Raise e ->
     r = Raise e /\
     TradeSimulator.last_update_time sim' = TradeSimulator.last_update_time sim /\
     TradeSimulator.processing_times sim' = TradeSimulator.processing_times sim) /\
  (forall e,
     r = Raise e <->
     (Orderbook.update float (TradeSimulator.orderbook sim) data ob_start ob_end).2
     = Raise e) /\
  (forall book_latency,
     (Orderbook.update float (TradeSimulator.orderbook sim) data ob_start ob_end).2
     = Return book_latency ->
     r = Return (Rmax ((end_time - start_time) * 1000) 0.001)) /\
  (forall latency,
     r = Return latency ->
     latency = Rmax ((end_time - start_time) * 1000) 0.001 /\
     0.001 <= latency /\
     TradeSimulator.last_update_time sim' = end_time /\
     last (TradeSimulator.processing_times sim') = Some latency /\
     ((length (TradeSimulator.processing_times sim) <= 1000)%nat ->
      (length (TradeSimulator.processing_times sim') <= 1000)%nat) /\
     (Forall (fun t => 0.001 <= t) (TradeSimulator.processing_times sim) ->
      Forall (fun t => 0.001 <= t) (TradeSimulator.processing_times sim') /\
      0.001 <= TradeSimulator.get_average_processing_time sim')).
Proof.
  unfold TradeSimulator.update_orderbook.
  destruct (Orderbook.update float (TradeSimulator.orderbook sim) data ob_start ob_end)
    as [ob [latency0|e0]]; simpl.
  - intros [= <- <-]. simpl. split; [done|]. split; [done|].
    split; [done|]. split; [done|].
    intros latency [= <-].
    destruct (window_append (TradeSimulator.processing_times sim)
                (Rmax ((end_time - start_time) * 1000) 0.001))
      as (Hle & Hlast & _ & _ & Hin).
    pose proof (Rmax_r ((end_time - start_time) * 1000) 0.001) as Hmax.
    repeat split; try done.
    + rewrite Forall_forall in H |- *. intros t Ht.
      destruct (Hin t Ht) as [Hold| ->]; [by apply H | done].
    + unfold TradeSimulator.get_average_processing_time. simpl.
      set (ts := if decide (1000 < _)%nat then _ else _) in *.
      assert (ts <> []) as Hne by (intros Hnil; by rewrite Hnil in Hlast).
      assert (Forall (fun t => 0.001 <= t <= py_sum ts + 1) ts) as Hall.
      { rewrite Forall_forall in H |- *. intros t Ht. split.
        - destruct (Hin t Ht) as [Hold| ->]; [by apply H | done].
        - assert (Forall (fun t => 0 <= t) ts) as Hpos.
          { rewrite Forall_forall. intros t' Ht'.
            destruct (Hin t' Ht') as [Hold| ->]; [|lra].
            specialize (H t' Hold). simpl in H. lra. }
          clear - Ht Hpos. induction Hpos as [|x ts Hx Hpos IH].
          + by apply elem_of_nil in Ht.
          + rewrite py_sum_cons. apply py_sum_nonneg in Hpos as Hsum.
            apply elem_of_cons in Ht as [->|Ht]; [lra|].
            specialize (IH Ht). lra. }
      pose proof (average_between ts 0.001 (py_sum ts + 1) Hne Hall) as Havg.
      destruct ts; [done|]. apply Havg.
  - intros [= <- <-]. simpl. split; [done|]. split; [by intros e [= <-]|].
    split; [done|]. done.
Qed.

Lemma update_orderbook_latency_witness :
  exists sim' latency,
    TradeSimulator.update_orderbook sample_float TradeSimulator.init sample_data 0 0 1 1
    = (sim', Return latency) /\
    0.001 <= latency /\
    last (TradeSimulator.processing_times sim') = Some latency.
Proof.
  assert (exists sim' latency,
            TradeSimulator.update_orderbook sample_float TradeSimulator.init sample_data
              0 0 1 1 = (sim', Return latency)) as (sim' & latency & Hupd).
  { unfold TradeSimulator.update_orderbook. simpl TradeSimulator.orderbook.
    rewrite update_sample. by eexists _, _. }
  exists sim', latency. split; [exact Hupd|].
  destruct (update_orderbook_latency _ _ _ _ _ _ _ _ _ Hupd) as (_ & _ & _ & _ & Hret).
  destruct (Hret latency eq_refl) as (_ & Hmin & _ & Hlast & _).
  split; [exact Hmin | exact Hlast].
Defined.

(** ** The cost estimate *)

Module EstimateFacts.
Import TradeSimulator.

(** The estimate assembled from the intermediate results. *)
Lemma simulate_estimate_inv (sk : Sklearn.predictors) (sim : t) (side : string)
    (quantity : R) (exchange market_type fee_tier : string) (volatility t0 t1 : R)
    (est : estimate) :
  let ob := orderbook sim in
  let depth := py_sum (Orderbook.bids ob).*2 + py_sum (Orderbook.asks ob).*2 in
  simulate_market_order sk sim side quantity exchange market_type fee_tier volatility t0 t1
  = Return (Estimate est) <->
  Orderbook.side_empty ob = false /\
  exists mid spread imb mp f sl mi,
    Orderbook.get_mid_price ob = Some mid /\
    Orderbook.get_spread ob = Some spread /\
    Orderbook.get_orderbook_imbalance ob = Some imb /\
    MakerTakerModel.estimate_maker_proportion sk (maker_taker_model sim)
      quantity spread volatility imb = Return mp /\
    FeeModel.calculate_fee (fee_model sim) (quantity * mid) exchange market_type
      fee_tier mp = Return f /\
    SlippageModel.estimate_slippage sk (slippage_model sim)
      quantity spread volatility imb = Return sl /\
    AlmgrenChrissModel.calculate_market_impact (market_impact_model sim)
      quantity (depth * 100) volatility mid depth 1.0 = Return mi /\
    quantity <> 0 /\
    est = mk_estimate (Orderbook.timestamp ob) exchange (Orderbook.symbol ob) side
            quantity mid
            (if decide (lower side = "buy")
             then mid + (sl + AlmgrenChrissModel.temporary_impact mi) / quantity
             else mid - (sl + AlmgrenChrissModel.temporary_impact mi) / quantity)
            (quantity * mid) mp f sl
            (if decide (quantity * mid > 0) then sl / (quantity * mid) * 100 else 0)
            mi
            (if decide (quantity * mid > 0)
             then AlmgrenChrissModel.total_impact mi / (quantity * mid) * 100 else 0)
            (FeeModel.total_fee f + sl + AlmgrenChrissModel.total_impact mi)
            (if decide (quantity * mid > 0)
             then (FeeModel.total_fee f + sl + AlmgrenChrissModel.total_impact mi)
                  / (quantity * mid) * 100
             else 0)
            ((t1 - t0) * 1000).
Proof.
  intros ob depth.
  destruct (Orderbook.side_empty ob) eqn:Hne.
  { rewrite SimulatorFacts.simulate_empty by done. split; [done|]. by intros [? _]. }
  split.
  - intros Hsim. split; [done|].
    apply SimulatorFacts.simulate_inv in Hsim
      as (mid & spread & imb & mp & f & sl & mi & shift
          & Hmid & Hspread & Himb & Hmp & Hf & Hsl & Hmi & Hshift & Hest); [|done].
    fold ob in Hmid, Hspread, Himb, Hest. fold depth in Hmi, Hshift.
    symmetry in Hest. apply SimulatorFacts.dictionary_Estimate in Hest.
    destruct est as [ts ex sy sd q md ep ov mpr fs s sp im imp nc ncp pt].
    unfold numbers in Hest. simpl in Hest.
    injection Hest as <- <- <- <- <- <- Hep <- <- <- -> Hsp <- <- Hnc Hncp <-.
    exists mid, spread, imb, mp, f, s, mi.
    split; [done|]. split; [done|]. split; [done|]. split; [done|]. split; [done|].
    split. { rewrite HeuristicFacts.estimate_slippage_value_real, Hsl. done. }
    split; [done|].
    simpl in Hshift, Hnc, Hncp, Hsp.
    assert (quantity <> 0 /\
            shift = Np.Finite ((s + AlmgrenChrissModel.temporary_impact mi) / quantity))
      as [Hq ->].
    { unfold divide in Hshift.
      destruct (decide (quantity = 0)) as [->|Hq].
      - exfalso.
        assert (Np.is_finite shift = false) as Hinf.
        { destruct (_ || _); [|done]. injection Hshift as <-. simpl.
          rewrite decide_True by done. apply NpFacts.signed_inf_not_finite. }
        destruct (decide (lower side = "buy")); destruct shift; done.
      - split; [done|].
        assert (Return (Np.div (Np.Finite (s + AlmgrenChrissModel.temporary_impact mi))
                          (Np.Finite quantity)) = Return shift) as Hdiv.
        { by destruct (_ || _). }
        injection Hdiv as <-. simpl. by rewrite decide_False. }
    split; [done|].
    injection Hnc as <-.
    destruct (decide (lower side = "buy")); simpl in Hep; injection Hep as <-;
      destruct (decide (quantity * mid > 0)) as [Hv|Hv]; simpl in Hsp, Hncp;
      try (rewrite (decide_False (P := quantity * mid = 0)) in Hsp by lra;
           rewrite (decide_False (P := quantity * mid = 0)) in Hncp by lra;
           simpl in Hsp, Hncp);
      injection Hsp as <-; injection Hncp as <-; reflexivity.
  - intros (_ & mid & spread & imb & mp & f & sl & mi
            & Hmid & Hspread & Himb & Hmp & Hf & Hsl & Hmi & Hq & ->).
    apply SimulatorFacts.simulate_inv; [done|]. fold ob depth.
    rewrite HeuristicFacts.estimate_slippage_value_real in Hsl.
    destruct (SlippageModel.estimate_slippage_value _ _ _ _ _ _) as [[s| | |]|] eqn:Hval;
      simpl in Hsl; try done.
    injection Hsl as ->.
    exists mid, spread, imb, mp, f, (Np.Finite sl), mi,
      (Np.Finite ((sl + AlmgrenChrissModel.temporary_impact mi) / quantity)).
    split; [done|]. split; [done|]. split; [done|]. split; [done|]. split; [done|].
    split; [done|]. split; [done|].
    split.
    { unfold divide. simpl. rewrite !(decide_False (P := quantity = 0)) by done.
      by destruct (_ || _). }
    symmetry. apply SimulatorFacts.dictionary_Estimate. unfold numbers. simpl.
    destruct (decide (lower side = "buy")); simpl;
      destruct (decide (quantity * mid > 0)) as [Hv|Hv]; simpl;
      rewrite ?(decide_False (P := quantity * mid = 0)) by lra; reflexivity.
Qed.

Lemma calculate_fee_inv (fm : FeeModel.t) (order_value : R)
    (exchange market_type fee_tier : string) (maker_proportion : R) (f : FeeModel.fees) :
  FeeModel.calculate_fee fm order_value exchange market_type fee_tier maker_proportion
  = Return f ->
  exists maker_rate taker_rate,
    FeeModel.get_fee_rate fm exchange market_type fee_tier true = Return maker_rate /\
    FeeModel.get_fee_rate fm exchange market_type fee_tier false = Return taker_rate /\
    FeeModel.maker_fee f = order_value * maker_proportion * maker_rate /\
    FeeModel.taker_fee f = order_value * (1 - maker_proportion) * taker_rate /\
    FeeModel.total_fee f = FeeModel.maker_fee f + FeeModel.taker_fee f /\
    FeeModel.effective_rate f
    = if decide (order_value > 0) then FeeModel.total_fee f / order_value else 0.
Proof.
  unfold FeeModel.calculate_fee.
  destruct (FeeModel.get_fee_rate fm exchange market_type fee_tier true) as [mr|];
    simpl; [|done].
  destruct (FeeModel.get_fee_rate fm exchange market_type fee_tier false) as [tr|];
    simpl; [|done].
  intros [= <-]. exists mr, tr. done.
Qed.

Lemma calculate_market_impact_inv (m : AlmgrenChrissModel.t)
    (order_size avg_daily_volume volatility mid_price orderbook_depth execution_time : R)
    (i : AlmgrenChrissModel.impact) :
  AlmgrenChrissModel.calculate_market_impact m order_size avg_daily_volume volatility
    mid_price orderbook_depth execution_time = Return i ->
  let normalized_size :=
    if decide (avg_daily_volume > 0) then order_size / avg_daily_volume else 0 in
  let size_scaling := if decide (normalized_size > 0) then sqrt normalized_size else 1 in
  let depth_adjustment :=
    if decide (orderbook_depth > 0) then 1 + tanh (order_size / orderbook_depth) else 1 in
  execution_time <> 0 /\
  AlmgrenChrissModel.temporary_impact i
  = AlmgrenChrissModel.temporary_impact_factor m * mid_price
    * (order_size / execution_time) * size_scaling
    * (1 + AlmgrenChrissModel.market_vol_factor m * volatility) * depth_adjustment /\
  AlmgrenChrissModel.permanent_impact i
  = AlmgrenChrissModel.permanent_impact_factor m * mid_price * order_size /\
  AlmgrenChrissModel.execution_risk i
  = 0.5 * AlmgrenChrissModel.risk_aversion m * volatility ^ 2 * execution_time
    * order_size ^ 2 /\
  AlmgrenChrissModel.total_impact i
  = AlmgrenChrissModel.temporary_impact i + AlmgrenChrissModel.permanent_impact i
    + AlmgrenChrissModel.execution_risk i.
Proof.
  unfold AlmgrenChrissModel.calculate_market_impact, fdiv, np_sqrt.
  intros Hret. cbv zeta.
  destruct (decide (avg_daily_volume > 0)) as [Hv|Hv].
  - rewrite (decide_False (P:=avg_daily_volume = 0)) in Hret by lra. simpl in Hret.
    destruct (decide (execution_time = 0)) as [Ht|Ht]; simpl in Hret; [done|].
    destruct (decide (order_size / avg_daily_volume > 0)) as [Hn|Hn].
    + destruct (decide (order_size / avg_daily_volume < 0)); [lra|]. simpl in Hret.
      destruct (decide (orderbook_depth > 0)) as [Hd|Hd].
      * rewrite (decide_False (P:=orderbook_depth = 0)) in Hret by lra. simpl in Hret.
        injection Hret as <-. simpl. repeat split; try done; lra.
      * simpl in Hret. injection Hret as <-. simpl. repeat split; try done; lra.
    + simpl in Hret.
      destruct (decide (orderbook_depth > 0)) as [Hd|Hd].
      * rewrite (decide_False (P:=orderbook_depth = 0)) in Hret by lra. simpl in Hret.
        injection Hret as <-. simpl. repeat split; try done; lra.
      * simpl in Hret. injection Hret as <-. simpl. repeat split; try done; lra.
  - simpl in Hret.
    destruct (decide (execution_time = 0)) as [Ht|Ht]; simpl in Hret; [done|].
    destruct (decide (0 > 0)) as [H0|H0]; [lra|]. simpl in Hret.
    destruct (decide (orderbook_depth > 0)) as [Hd|Hd].
    + rewrite (decide_False (P:=orderbook_depth = 0)) in Hret by lra. simpl in Hret.
      injection Hret as <-. simpl. repeat split; try done; lra.
    + simpl in Hret. injection Hret as <-. simpl. repeat split; try done; lra.
Qed.

End EstimateFacts.

(** ** Hyperbolic functions and logarithm *)

Lemma cosh_pos (x : R) : 0 < cosh x.
Proof.
  unfold cosh. pose proof (exp_pos x). pose proof (exp_pos (- x)). lra.
Qed.

Lemma sinh_nonneg (x : R) : 0 <= x -> 0 <= sinh x.
Proof.
  intros [Hx| <-]; [|rewrite sinh_0; lra].
  apply sinh_lt in Hx. rewrite sinh_0 in Hx. lra.
Qed.


Lemma tanh_nonneg (x : R) : 0 <= x -> 0 <= tanh x.
Proof.
  intros Hx. unfold tanh. apply Rmult_le_pos; [by apply sinh_nonneg|].
  left. apply Rinv_0_lt_compat, cosh_pos.
Qed.

Lemma ln_le (x y : R) : 0 < x -> x <= y -> ln x <= ln y.
Proof.
  intros Hx [Hlt| ->]; [|lra]. left. by apply ln_increasing.
Qed.

Lemma ln1p_nonneg (x : R) : 0 <= x -> 0 <= ln (1 + x).
Proof.
  intros Hx. rewrite <- ln_1. apply ln_le; lra.
Qed.

Lemma imbalance_range (ob : Orderbook.t) (r : R) :
  Forall (fun l => 0 <= l.2) (Orderbook.asks ob) ->
  Forall (fun l => 0 <= l.2) (Orderbook.bids ob) ->
  Orderbook.get_orderbook_imbalance ob = Some r -> -1 <= r <= 1.
Proof.
  intros Ha Hb. unfold Orderbook.get_orderbook_imbalance.
  destruct (Orderbook.side_empty ob); [done|].
  assert (0 <= py_sum (Orderbook.asks ob).*2) as Hask.
  { apply py_sum_nonneg. rewrite Forall_fmap. exact Ha. }
  assert (0 <= py_sum (Orderbook.bids ob).*2) as Hbid.
  { apply py_sum_nonneg. rewrite Forall_fmap. exact Hb. }
  set (b := py_sum (Orderbook.bids ob).*2) in *.
  set (a := py_sum (Orderbook.asks ob).*2) in *.
  destruct (decide (b + a = 0)) as [Hzero|Hpos]; intros [= <-]; [lra|].
  assert (0 < b + a) as Htotal by lra. split.
  - apply Rmult_le_reg_r with (b + a); [done|].
    unfold Rdiv. rewrite Rmult_assoc, Rinv_l; lra.
  - apply Rmult_le_reg_r with (b + a); [done|].
    unfold Rdiv. rewrite Rmult_assoc, Rinv_l; lra.
Qed.

(** X13: every dictionary that [simulate_market_order] returns, whether its
    numbers are all finite or not, is consistent with itself and with the
    book: it echoes side, quantity and exchange, carries the book's
    timestamp, symbol and mid price, its order value is quantity times mid
    price, its fee and impact totals are the sums of their parts, its net
    cost is fee plus slippage plus impact, its execution price is the mid
    price moved by (slippage + temporary impact) / quantity, up for a buy and
    down otherwise, for a positive order value each percentage is its amount
    over the order value times 100, and for a non-positive one all
    percentages are 0.  At quantity 0 the execution price is not finite.
    When all numbers are finite, the execution price differs from the mid
    price by (slippage + temporary impact) per unit and, for a positive order
    value, the net cost percentage is the sum of the three percentages of
    its parts. *)
Theorem estimate_self_consistent (sk : Sklearn.predictors) (sim : TradeSimulator.t)
    (side : string) (quantity : R) (exchange market_type fee_tier : string)
    (volatility t0 t1 : R) (r : TradeSimulator.result)
    (d : TradeSimulator.estimate_of Np.number) :
  TradeSimulator.simulate_market_order sk sim side quantity exchange market_type fee_tier
    volatility t0 t1 = Return r ->
  TradeSimulator.returned r = Some d ->
  let ob := TradeSimulator.orderbook sim in
  let fees := TradeSimulator.fees d in
  let impact := TradeSimulator.market_impact d in
  let value := TradeSimulator.order_value d in
  (TradeSimulator.side d = side /\ TradeSimulator.quantity d = quantity /\
   TradeSimulator.exchange d = exchange /\
   TradeSimulator.timestamp d = Orderbook.timestamp ob /\
   TradeSimulator.symbol d = Orderbook.symbol ob /\
   TradeSimulator.processing_time d = (t1 - t0) * 1000) /\
  (Orderbook.get_mid_price ob = Some (TradeSimulator.mid_price d) /\
   value = quantity * TradeSimulator.mid_price d) /\
  (FeeModel.total_fee fees = FeeModel.maker_fee fees + FeeModel.taker_fee fees /\
   AlmgrenChrissModel.total_impact impact
   = AlmgrenChrissModel.temporary_impact impact
     + AlmgrenChrissModel.permanent_impact impact
     + AlmgrenChrissModel.execution_risk impact /\
   TradeSimulator.net_cost d
   = Np.add (Np.add (Np.Finite (FeeModel.total_fee fees)) (TradeSimulator.slippage d))
       (Np.Finite (AlmgrenChrissModel.total_impact impact))) /\
  TradeSimulator.execution_price d
  = (let shift :=
       Np.div (Np.add (TradeSimulator.slippage d)
                 (Np.Finite (AlmgrenChrissModel.temporary_impact impact)))
         (Np.Finite quantity) in
     if decide (lower side = "buy")
     then Np.add (Np.Finite (TradeSimulator.mid_price d)) shift
     else Np.sub (Np.Finite (TradeSimulator.mid_price d)) shift) /\
  (value > 0 ->
     TradeSimulator.slippage_percentage d
     = Np.mul (Np.div (TradeSimulator.slippage d) (Np.Finite value)) (Np.Finite 100) /\
     TradeSimulator.net_cost_percentage d
     = Np.mul (Np.div (TradeSimulator.net_cost d) (Np.Finite value)) (Np.Finite 100) /\
     TradeSimulator.market_impact_percentage d
     = AlmgrenChrissModel.total_impact impact / value * 100 /\
     FeeModel.effective_rate fees = FeeModel.total_fee fees / value) /\
  (value <= 0 ->
     TradeSimulator.net_cost_percentage d = Np.Finite 0 /\
     TradeSimulator.slippage_percentage d = Np.Finite 0 /\
     TradeSimulator.market_impact_percentage d = 0 /\
     FeeModel.effective_rate fees = 0) /\
  (quantity = 0 -> Np.is_finite (TradeSimulator.execution_price d) = false) /\
  (forall est, r = TradeSimulator.Estimate est ->
     TradeSimulator.net_cost est
     = FeeModel.total_fee fees + TradeSimulator.slippage est
       + AlmgrenChrissModel.total_impact impact /\
     (TradeSimulator.execution_price est - TradeSimulator.mid_price est) * quantity
     = (if decide (lower side = "buy") then 1 else -1)
       * (TradeSimulator.slippage est + AlmgrenChrissModel.temporary_impact impact) /\
     (value > 0 ->
        TradeSimulator.net_cost_percentage est * value
        = TradeSimulator.net_cost est * 100 /\
        TradeSimulator.net_cost_percentage est
        = FeeModel.effective_rate fees * 100 + TradeSimulator.slippage_percentage est
          + TradeSimulator.market_impact_percentage est)).
Proof.
  intros Hsim Hd ob fees impact value.
  destruct (Orderbook.side_empty ob) eqn:Hne.
  { rewrite SimulatorFacts.simulate_empty in Hsim by done.
    injection Hsim as <-. done. }
  pose proof Hsim as Hinv.
  apply SimulatorFacts.simulate_inv in Hinv
    as (mid & spread & imb & mp & f & sl & mi & shift
        & Hmid & Hspread & Himb & Hmp & Hf & _ & Hmi & Hshift & Hr); [|done].
  pose proof Hf as Hf0. pose proof Hmi as Hmi0.
  assert (shift = Np.div (Np.add sl (Np.Finite (AlmgrenChrissModel.temporary_impact mi)))
                    (Np.Finite quantity)) as ->.
  { unfold TradeSimulator.divide in Hshift.
    destruct (_ || _); [by injection Hshift|].
    destruct (decide (quantity = 0)); [done|]. by injection Hshift. }
  pose proof (SimulatorFacts.returned_dictionary
                (TradeSimulator.mk_estimate (Orderbook.timestamp ob) exchange
                   (Orderbook.symbol ob) side quantity mid
                   (if decide (lower side = "buy")
                    then Np.add (Np.Finite mid)
                           (Np.div (Np.add sl
                              (Np.Finite (AlmgrenChrissModel.temporary_impact mi)))
                              (Np.Finite quantity))
                    else Np.sub (Np.Finite mid)
                           (Np.div (Np.add sl
                              (Np.Finite (AlmgrenChrissModel.temporary_impact mi)))
                              (Np.Finite quantity)))
                   (quantity * mid) mp f sl
                   (if decide (quantity * mid > 0)
                    then Np.mul (Np.div sl (Np.Finite (quantity * mid))) (Np.Finite 100)
                    else Np.Finite 0)
                   mi
                   (if decide (quantity * mid > 0)
                    then AlmgrenChrissModel.total_impact mi / (quantity * mid) * 100
                    else 0)
                   (Np.add (Np.add (Np.Finite (FeeModel.total_fee f)) sl)
                      (Np.Finite (AlmgrenChrissModel.total_impact mi)))
                   (if decide (quantity * mid > 0)
                    then Np.mul
                           (Np.div (Np.add (Np.add (Np.Finite (FeeModel.total_fee f)) sl)
                                      (Np.Finite (AlmgrenChrissModel.total_impact mi)))
                              (Np.Finite (quantity * mid)))
                           (Np.Finite 100)
                    else Np.Finite 0)
                   ((t1 - t0) * 1000))) as Hret.
  fold ob in Hr, Hmid. rewrite <- Hr, Hd in Hret. injection Hret as Hdict.
  apply EstimateFacts.calculate_fee_inv in Hf as (mr & tr & _ & _ & Hmf & Htf & Htotal & Heff).
  apply EstimateFacts.calculate_market_impact_inv in Hmi as (_ & _ & _ & _ & Himpact).
  subst fees impact value. rewrite Hdict.
  cbn [TradeSimulator.side TradeSimulator.quantity TradeSimulator.exchange
       TradeSimulator.timestamp TradeSimulator.symbol TradeSimulator.processing_time
       TradeSimulator.mid_price TradeSimulator.order_value TradeSimulator.fees
       TradeSimulator.market_impact TradeSimulator.net_cost TradeSimulator.slippage
       TradeSimulator.execution_price TradeSimulator.slippage_percentage
       TradeSimulator.net_cost_percentage TradeSimulator.market_impact_percentage].
  split; [done|]. split; [done|]. split; [done|]. split; [done|].
  split. { intros Hpos. rewrite Heff, !decide_True by done. done. }
  split. { intros Hneg. rewrite Heff, !decide_False by lra. done. }
  split.
  { intros ->.
    pose proof (NpFacts.div_finite_r
                  (Np.add sl (Np.Finite (AlmgrenChrissModel.temporary_impact mi))) 0)
      as Hfin.
    rewrite (bool_decide_false (0 <> 0)), andb_false_r in Hfin
      by (intros H; by apply H).
    destruct (decide (lower side = "buy")); by destruct (Np.div _ _). }
  intros est ->.
  apply EstimateFacts.simulate_estimate_inv in Hsim
    as (_ & mid' & spread' & imb' & mp' & f' & sl' & mi'
        & Hmid' & Hspread' & Himb' & Hmp' & Hf' & _ & Hmi' & Hq & ->).
  subst ob.
  rewrite Hmid in Hmid'. injection Hmid' as <-.
  rewrite Hspread in Hspread'. injection Hspread' as <-.
  rewrite Himb in Himb'. injection Himb' as <-.
  rewrite Hmp in Hmp'. injection Hmp' as <-.
  rewrite Hf0 in Hf'. injection Hf' as <-.
  rewrite Hmi0 in Hmi'. injection Hmi' as <-.
  cbn [TradeSimulator.net_cost TradeSimulator.slippage TradeSimulator.execution_price
       TradeSimulator.mid_price TradeSimulator.net_cost_percentage
       TradeSimulator.slippage_percentage TradeSimulator.market_impact_percentage].
  split; [done|]. split.
  - destruct (decide (lower side = "buy")); field; done.
  - intros Hpos. rewrite Heff. rewrite !decide_True by done.
    assert (mid <> 0) as Hm by (intros Hm; rewrite Hm, Rmult_0_r in Hpos; lra).
    split; field; done.
Qed.

Lemma estimate_self_consistent_witness :
  exists r d,
    TradeSimulator.simulate_market_order Sklearn.constant_predictors sample_simulator
      "buy" 0.1 "OKX" "spot" "VIP0" 0.01 0 1 = Return r /\
    TradeSimulator.returned r = Some d /\
    TradeSimulator.order_value d = 0.1 * TradeSimulator.mid_price d /\
    TradeSimulator.net_cost d
    = Np.add (Np.add (Np.Finite (FeeModel.total_fee (TradeSimulator.fees d)))
                (TradeSimulator.slippage d))
        (Np.Finite (AlmgrenChrissModel.total_impact (TradeSimulator.market_impact d))).
Proof.
  destruct simulate_sample_order as (est & Hest & _).
  exists (TradeSimulator.Estimate est), (TradeSimulator.numbers est).
  split; [exact Hest|]. split; [reflexivity|].
  destruct (estimate_self_consistent _ _ _ _ _ _ _ _ _ _ _ _ Hest eq_refl)
    as (_ & [_ Hvalue] & (_ & _ & Hnet) & _).
  split; [exact Hvalue | exact Hnet].
Defined.

(** X14: on a book with both sides non-empty, with unfitted estimators and
    a complete fee table, [simulate_market_order] returns the full dictionary
    for every quantity, and which of its numbers are finite is decided by the
    quantity alone.  Above -1 and other than 0 all are.  At 0 the execution
    price is inf or nan while slippage and net cost are finite, the order
    value is 0 and the percentages are 0.  At -1 and below the maker
    proportion is 1 and slippage, net cost and execution price are not
    finite. *)
Theorem simulate_outcome_by_quantity (sk : Sklearn.predictors) (sim : TradeSimulator.t)
    (side : string) (quantity : R) (exchange market_type fee_tier : string)
    (volatility t0 t1 : R) :
  Orderbook.asks (TradeSimulator.orderbook sim) <> [] ->
  Orderbook.bids (TradeSimulator.orderbook sim) <> [] ->
  MakerTakerModel.is_fitted (TradeSimulator.maker_taker_model sim) = false ->
  SlippageModel.is_fitted (TradeSimulator.slippage_model sim) = false ->
  FeeModel.complete (TradeSimulator.fee_model sim) ->
  let outcome :=
    TradeSimulator.simulate_market_order sk sim side quantity exchange market_type
      fee_tier volatility t0 t1 in
  (exists r d,
     outcome = Return r /\ TradeSimulator.returned r = Some d /\
     TradeSimulator.quantity d = quantity /\
     0 <= TradeSimulator.maker_proportion d <= 1 /\
     Np.is_finite (TradeSimulator.slippage d) = bool_decide (-1 < quantity) /\
     Np.is_finite (TradeSimulator.net_cost d) = bool_decide (-1 < quantity) /\
     Np.is_finite (TradeSimulator.execution_price d)
     = bool_decide (-1 < quantity /\ quantity <> 0)) /\
  ((exists est, outcome = Return (TradeSimulator.Estimate est))
   <-> -1 < quantity /\ quantity <> 0) /\
  (quantity = 0 ->
     exists d,
       outcome = Return (TradeSimulator.NonFinite d) /\
       TradeSimulator.order_value d = 0 /\
       TradeSimulator.slippage_percentage d = Np.Finite 0 /\
       TradeSimulator.net_cost_percentage d = Np.Finite 0 /\
       TradeSimulator.market_impact_percentage d = 0) /\
  (quantity <= -1 ->
     exists d,
       outcome = Return (TradeSimulator.NonFinite d) /\
       TradeSimulator.maker_proportion d = 1).
Proof.
  intros Ha Hb Hmt Hsl Hfee outcome.
  pose proof (side_empty_false _ Ha Hb) as Hne.
  destruct (simulate_heuristic sk sim side quantity exchange market_type fee_tier
              volatility t0 t1 Hne Hmt Hsl Hfee)
    as (mid & spread & imb & mp & f & mi & _ & _ & _ & Hmp & _ & _ & Hsim).
  cbv zeta in Hsim. fold outcome in Hsim.
  destruct (HeuristicFacts.maker_fallback_returns quantity spread volatility imb)
    as (mp' & Hmp' & Hrange).
  rewrite Hmp in Hmp'. injection Hmp' as <-.
  set (sl := SlippageModel._estimate_slippage_fallback_value quantity spread volatility
               imb) in *.
  assert (Np.is_finite sl = bool_decide (-1 < quantity)) as Hslfin.
  { subst sl. case_bool_decide as Hq.
    - by rewrite HeuristicFacts.slippage_fallback_value_above.
    - apply HeuristicFacts.slippage_fallback_value_below. lra. }
  set (price := if decide (lower side = "buy") then Np.add _ _ else _) in Hsim.
  assert (Np.is_finite price = bool_decide (-1 < quantity /\ quantity <> 0)) as Hprice.
  { subst price.
    assert (Np.is_finite
              (Np.div (Np.add sl (Np.Finite (AlmgrenChrissModel.temporary_impact mi)))
                 (Np.Finite quantity))
            = bool_decide (-1 < quantity /\ quantity <> 0)) as Hshift.
    { rewrite NpFacts.div_finite_r, NpFacts.add_finite_r, Hslfin.
      repeat case_bool_decide; simpl; try done; tauto. }
    destruct (decide (lower side = "buy"));
      by rewrite ?NpFacts.add_finite_l, ?NpFacts.sub_finite_l. }
  set (d := TradeSimulator.mk_estimate _ _ _ _ _ _ _ _ _ _ _ _ _ _ _ _ _) in Hsim.
  assert (Np.is_finite (TradeSimulator.net_cost d) = bool_decide (-1 < quantity))
    as Hnet.
  { subst d. cbn [TradeSimulator.net_cost].
    by rewrite NpFacts.add_finite_r, NpFacts.add_finite_l. }
  assert (forall d', TradeSimulator.dictionary d = TradeSimulator.NonFinite d' -> d' = d)
    as Hsame.
  { intros d' Hd'. by apply SimulatorFacts.dictionary_NonFinite in Hd' as [-> _]. }
  assert ((exists est, outcome = Return (TradeSimulator.Estimate est))
          <-> -1 < quantity /\ quantity <> 0) as Hfinite.
  { rewrite Hsim. split.
    - intros [est Hest]. injection Hest as Hest.
      apply SimulatorFacts.dictionary_Estimate in Hest.
      assert (Np.is_finite (TradeSimulator.execution_price d) = true) as Hfin
        by by rewrite Hest.
      subst d. cbn [TradeSimulator.execution_price] in Hfin.
      rewrite Hprice in Hfin. by apply bool_decide_eq_true in Hfin.
    - intros [Hq1 Hq0].
      destruct (simulate_returns_estimate sk sim side quantity exchange market_type
                  fee_tier volatility t0 t1 Hne Hmt Hsl Hfee Hq1 Hq0) as (est & Hest & _).
      fold outcome in Hest. rewrite Hsim in Hest. by exists est. }
  assert (~ (-1 < quantity /\ quantity <> 0) ->
          outcome = Return (TradeSimulator.NonFinite d)) as Hnonfinite.
  { intros Hq. rewrite Hsim. f_equal.
    apply SimulatorFacts.dictionary_NonFinite. split; [done|].
    subst d. cbn [TradeSimulator.execution_price]. rewrite Hprice.
    by rewrite bool_decide_false. }
  split; [|split; [exact Hfinite|split]].
  - exists (TradeSimulator.dictionary d), d.
    split; [exact Hsim|]. split; [apply SimulatorFacts.returned_dictionary|].
    subst d. cbn [TradeSimulator.quantity TradeSimulator.maker_proportion
                   TradeSimulator.slippage TradeSimulator.execution_price].
    split; [done|]. split; [exact Hrange|]. split; [exact Hslfin|].
    split; [exact Hnet | exact Hprice].
  - intros Hq. exists d. split; [apply Hnonfinite; tauto|].
    subst d. cbn [TradeSimulator.order_value TradeSimulator.slippage_percentage
                   TradeSimulator.net_cost_percentage
                   TradeSimulator.market_impact_percentage].
    rewrite Hq. rewrite !(decide_False (P := 0 * mid > 0)) by lra.
    split; [lra|done].
  - intros Hq. exists d. split; [apply Hnonfinite; intros [? _]; lra|].
    subst d. cbn [TradeSimulator.maker_proportion].
    rewrite HeuristicFacts.maker_fallback_below in Hmp by done.
    injection Hmp as <-. lra.
Qed.

Lemma simulate_outcome_by_quantity_witness :
  exists d,
    TradeSimulator.simulate_market_order Sklearn.constant_predictors sample_simulator
      "buy" 0 "OKX" "spot" "VIP0" 0.01 0 1 = Return (TradeSimulator.NonFinite d) /\
    TradeSimulator.order_value d = 0 /\
    TradeSimulator.slippage_percentage d = Np.Finite 0 /\
    TradeSimulator.net_cost_percentage d = Np.Finite 0 /\
    TradeSimulator.market_impact_percentage d = 0.
Proof.
  destruct (simulate_outcome_by_quantity Sklearn.constant_predictors sample_simulator
              "buy" 0 "OKX" "spot" "VIP0" 0.01 0 1) as (_ & _ & Hzero & _).
  - discriminate.
  - discriminate.
  - reflexivity.
  - reflexivity.
  - exact FeeFacts.complete_init.
  - exact (Hzero eq_refl).
Defined.

(** X15: the side only decides the direction of the execution price.  If an
    order gets an estimate as a buy (in any letter case), the same order under
    any other side name gets one as well, with the same costs in every
    field, and the two execution prices lie symmetrically around the mid
    price. *)
Theorem buy_sell_mirror (sk : Sklearn.predictors) (sim : TradeSimulator.t)
    (buy other : string) (quantity : R) (exchange market_type fee_tier : string)
    (volatility t0 t1 : R) (bought : TradeSimulator.estimate) :
  lower buy = "buy" -> lower other <> "buy" ->
  TradeSimulator.simulate_market_order sk sim buy quantity exchange market_type fee_tier
    volatility t0 t1 = Return (TradeSimulator.Estimate bought) ->
  exists sold,
    TradeSimulator.simulate_market_order sk sim other quantity exchange market_type
      fee_tier volatility t0 t1 = Return (TradeSimulator.Estimate sold) /\
    TradeSimulator.execution_price bought + TradeSimulator.execution_price sold
    = 2 * TradeSimulator.mid_price bought /\
    TradeSimulator.mid_price sold = TradeSimulator.mid_price bought /\
    TradeSimulator.order_value sold = TradeSimulator.order_value bought /\
    TradeSimulator.maker_proportion sold = TradeSimulator.maker_proportion bought /\
    TradeSimulator.fees sold = TradeSimulator.fees bought /\
    TradeSimulator.slippage sold = TradeSimulator.slippage bought /\
    TradeSimulator.slippage_percentage sold = TradeSimulator.slippage_percentage bought /\
    TradeSimulator.market_impact sold = TradeSimulator.market_impact bought /\
    TradeSimulator.market_impact_percentage sold
    = TradeSimulator.market_impact_percentage bought /\
    TradeSimulator.net_cost sold = TradeSimulator.net_cost bought /\
    TradeSimulator.net_cost_percentage sold = TradeSimulator.net_cost_percentage bought.
Proof.
  intros Hbuy Hother Hsim.
  apply EstimateFacts.simulate_estimate_inv in Hsim
    as (Hne & mid & spread & imb & mp & f & sl & mi
        & Hmid & Hspread & Himb & Hmp & Hf & Hsl & Hmi & Hq & ->).
  eexists. split.
  - apply EstimateFacts.simulate_estimate_inv. split; [done|].
    exists mid, spread, imb, mp, f, sl, mi. repeat (split; [done|]). reflexivity.
  - simpl. rewrite decide_True by done. rewrite decide_False by done.
    repeat split; try done. lra.
Qed.

Lemma buy_sell_mirror_witness :
  exists bought sold,
    TradeSimulator.simulate_market_order Sklearn.constant_predictors sample_simulator
      "sell" 0.1 "OKX" "spot" "VIP0" 0.01 0 1 = Return (TradeSimulator.Estimate sold) /\
    TradeSimulator.execution_price bought + TradeSimulator.execution_price sold
    = 2 * TradeSimulator.mid_price bought.
Proof.
  destruct simulate_sample_order as (bought & Hbought & _).
  destruct (buy_sell_mirror Sklearn.constant_predictors sample_simulator "buy" "sell"
              0.1 "OKX" "spot" "VIP0" 0.01 0 1 bought)
    as (sold & Hsold & Hmirror & _); [reflexivity | discriminate | exact Hbought |].
  by exists bought, sold.
Defined.

(** X16: on a book that is not crossed, with non-negative best bid and
    quantities, an impact model without negative factors and unfitted
    estimators, an estimate for a positive quantity at non-negative
    volatility has non-negative slippage and non-negative impact parts, a
    maker proportion between 0 and 1, and an execution price at or above the
    mid price for a buy and at or below it for any other side. *)
Theorem execution_price_direction (sk : Sklearn.predictors) (sim : TradeSimulator.t)
    (side : string) (quantity : R) (exchange market_type fee_tier : string)
    (volatility t0 t1 : R) (est : TradeSimulator.estimate) (best_ask best_bid : R) :
  let ob := TradeSimulator.orderbook sim in
  let m := TradeSimulator.market_impact_model sim in
  head (Orderbook.asks ob).*1 = Some best_ask ->
  head (Orderbook.bids ob).*1 = Some best_bid ->
  0 <= best_bid <= best_ask ->
  Forall (fun l => 0 <= l.2) (Orderbook.asks ob) ->
  Forall (fun l => 0 <= l.2) (Orderbook.bids ob) ->
  0 <= AlmgrenChrissModel.temporary_impact_factor m ->
  0 <= AlmgrenChrissModel.permanent_impact_factor m ->
  0 <= AlmgrenChrissModel.market_vol_factor m ->
  0 <= AlmgrenChrissModel.risk_aversion m ->
  MakerTakerModel.is_fitted (TradeSimulator.maker_taker_model sim) = false ->
  SlippageModel.is_fitted (TradeSimulator.slippage_model sim) = false ->
  0 < quantity -> 0 <= volatility ->
  TradeSimulator.simulate_market_order sk sim side quantity exchange market_type fee_tier
    volatility t0 t1 = Return (TradeSimulator.Estimate est) ->
  0 <= TradeSimulator.slippage est /\
  0 <= AlmgrenChrissModel.temporary_impact (TradeSimulator.market_impact est) /\
  0 <= AlmgrenChrissModel.permanent_impact (TradeSimulator.market_impact est) /\
  0 <= AlmgrenChrissModel.execution_risk (TradeSimulator.market_impact est) /\
  0 <= TradeSimulator.maker_proportion est <= 1 /\
  (lower side = "buy" ->
     TradeSimulator.mid_price est <= TradeSimulator.execution_price est) /\
  (lower side <> "buy" ->
     TradeSimulator.execution_price est <= TradeSimulator.mid_price est).
Proof.
  intros ob m Hask Hbid Hprices Hqa Hqb Hgamma Heta Hvolf Hpsi Hmt Hsl Hq Hvol Hsim.
  apply EstimateFacts.simulate_estimate_inv in Hsim
    as (Hne & mid & spread & imb & mp & f & sl & mi
        & Hmid & Hspread & Himb & Hmp & Hf & Hslip & Hmi & _ & ->).
  fold ob in Hmid, Hspread, Himb, Hmi. fold m in Hmi.
  pose proof (imbalance_range ob imb Hqa Hqb Himb) as Hrange.
  assert (mid = (best_ask + best_bid) / 2 /\ spread = best_ask - best_bid)
    as [Emid Espread].
  { unfold Orderbook.get_mid_price, Orderbook.get_spread in *.
    destruct (Orderbook.asks ob) as [|[a qa] asks]; [done|].
    destruct (Orderbook.bids ob) as [|[b qb] bids]; [done|].
    simpl in *. injection Hask as <-. injection Hbid as <-.
    injection Hmid as <-. injection Hspread as <-. done. }
  assert (0 <= mid) as Hmid0 by lra.
  assert (0 <= spread) as Hspread0 by lra.
  pose proof (ln1p_nonneg quantity ltac:(lra)) as Hln.
  assert (0 <= sl) as Hsl0.
  { unfold SlippageModel.estimate_slippage, SlippageModel._estimate_slippage_fallback,
      np_log1p in Hslip.
    rewrite Hsl in Hslip. simpl in Hslip. rewrite decide_True in Hslip by lra.
    simpl in Hslip. injection Hslip as <-.
    assert (imb * spread <= spread) as Hprod.
    { rewrite <- (Rmult_1_l spread) at 2. apply Rmult_le_compat_r; lra. }
    lra. }
  assert (0 <= mp <= 1) as Hmp01.
  { unfold MakerTakerModel.estimate_maker_proportion in Hmp.
    rewrite Hmt in Hmp. simpl in Hmp.
    rewrite HeuristicFacts.maker_fallback_above in Hmp by lra.
    injection Hmp as <-. split.
    - etrans; [|apply Rmax_l]. lra.
    - apply Rmax_lub; [lra | etrans; [apply Rmin_l | lra]]. }
  apply EstimateFacts.calculate_market_impact_inv in Hmi
    as (_ & Htemp & Hperm & Hrisk & _).
  set (depth := py_sum (Orderbook.bids ob).*2 + py_sum (Orderbook.asks ob).*2) in *.
  assert (0 <= AlmgrenChrissModel.temporary_impact mi) as Htemp0.
  { rewrite Htemp.
    repeat apply Rmult_le_pos; try lra.
    - match goal with
      | |- 0 <= (if ?c then sqrt ?x else _) => destruct c; [apply sqrt_pos | lra]
      end.
    - pose proof (Rmult_le_pos _ _ Hvolf Hvol). lra.
    - destruct (decide (depth > 0)) as [Hd|Hd]; [|lra].
      assert (0 <= tanh (quantity / depth)) as Ht.
      { apply tanh_nonneg. apply Rmult_le_pos; [lra|].
        left. apply Rinv_0_lt_compat. lra. }
      lra. }
  assert (0 <= (sl + AlmgrenChrissModel.temporary_impact mi) / quantity) as Hshift.
  { apply Rmult_le_pos; [lra|]. left. apply Rinv_0_lt_compat. lra. }
  simpl. repeat split; try lra.
  - rewrite Hperm. repeat apply Rmult_le_pos; lra.
  - rewrite Hrisk.
    assert (0 <= AlmgrenChrissModel.risk_aversion m * volatility ^ 2 * quantity ^ 2)
      as Hprod.
    { apply Rmult_le_pos; [apply Rmult_le_pos; [exact Hpsi | apply pow2_ge_0]
                          | apply pow2_ge_0]. }
    lra.
  - intros Hbuy. rewrite decide_True by done. lra.
  - intros Hsell. rewrite decide_False by done. lra.
Qed.

Lemma execution_price_direction_witness :
  exists est,
    TradeSimulator.simulate_market_order Sklearn.constant_predictors sample_simulator
      "buy" 0.1 "OKX" "spot" "VIP0" 0.01 0 1 = Return (TradeSimulator.Estimate est) /\
    0 <= TradeSimulator.slippage est /\
    TradeSimulator.mid_price est <= TradeSimulator.execution_price est.
Proof.
  destruct simulate_sample_order as (est & Hest & _).
  exists est. split; [exact Hest|].
  destruct (execution_price_direction Sklearn.constant_predictors sample_simulator
              "buy" 0.1 "OKX" "spot" "VIP0" 0.01 0 1 est 45000.5 44999.5)
    as (Hslip & _ & _ & _ & _ & Hbuy & _);
    try reflexivity; try (simpl; lra); try exact Hest.
  - simpl. repeat constructor; simpl; lra.
  - simpl. repeat constructor; simpl; lra.
  - split; [exact Hslip | by apply Hbuy].
Defined.

(** ** The fee table *)

Module TableFacts.
Import FeeModel.

(** A fully listed key path needs no fallback. *)
Lemma get_fee_rate_listed (fm : t) (exchange market_type fee_tier : string)
    (is_maker : bool) (by_market : gmap string (gmap string (gmap string R)))
    (by_order : gmap string (gmap string R)) (by_tier : gmap string R) (rate : R) :
  fee_tiers fm !! exchange = Some by_market ->
  by_market !! market_type = Some by_order ->
  by_order !! (if is_maker then "maker" else "taker") = Some by_tier ->
  by_tier !! fee_tier = Some rate ->
  get_fee_rate fm exchange market_type fee_tier is_maker = Return rate.
Proof.
  intros Hex Hm Ho Ht. unfold get_fee_rate.
  rewrite decide_True by (by eexists).
  rewrite (FeeFacts.subscript_Some _ _ _ Hex). simpl.
  rewrite decide_True by (by eexists).
  rewrite (FeeFacts.subscript_Some _ _ _ Hm). simpl.
  rewrite (FeeFacts.subscript_Some _ _ _ Ho). simpl.
  rewrite decide_True by (by eexists).
  by apply FeeFacts.subscript_Some.
Qed.

(** The lookup reads the table only through the entry of the exchange it
    settles on. *)
Lemma get_fee_rate_same_entry (fm fm' : t) (exchange market_type fee_tier : string)
    (is_maker : bool) :
  (is_Some (fee_tiers fm' !! exchange) <-> is_Some (fee_tiers fm !! exchange)) ->
  fee_tiers fm' !! resolve (fee_tiers fm) exchange "OKX"
  = fee_tiers fm !! resolve (fee_tiers fm) exchange "OKX" ->
  get_fee_rate fm' exchange market_type fee_tier is_maker
  = get_fee_rate fm exchange market_type fee_tier is_maker.
Proof.
  intros Hlisted Hentry. unfold get_fee_rate, resolve in *.
  destruct (decide (is_Some (fee_tiers fm !! exchange))) as [Hin|Hout].
  - rewrite decide_True by (by apply Hlisted).
    simpl in *. unfold subscript. by rewrite Hentry.
  - rewrite decide_False by (by rewrite Hlisted).
    simpl in *. unfold subscript. by rewrite Hentry.
Qed.

End TableFacts.

(** X17: [add_exchange_fee_tiers] installs a structure under one exchange
    and touches nothing else.  Every rate listed in the installed structure
    is what [get_fee_rate] then returns for that exchange; the lookups for
    any other exchange are unchanged, provided that exchange is listed or
    the installed one is not the 'OKX' fallback; the available exchanges are
    the old ones and the installed one; and installing twice keeps the
    second structure only. *)
Theorem add_exchange_fee_tiers_spec (fm : FeeModel.t) (exchange : string)
    (tiers : gmap string (gmap string (gmap string R))) :
  let fm' := FeeModel.add_exchange_fee_tiers fm exchange tiers in
  (forall market_type fee_tier (is_maker : bool)
          (by_order : gmap string (gmap string R)) (by_tier : gmap string R) (rate : R),
     tiers !! market_type = Some by_order ->
     by_order !! (if is_maker then "maker" else "taker") = Some by_tier ->
     by_tier !! fee_tier = Some rate ->
     FeeModel.get_fee_rate fm' exchange market_type fee_tier is_maker = Return rate) /\
  (forall other market_type fee_tier (is_maker : bool),
     other <> exchange ->
     is_Some (FeeModel.fee_tiers fm !! other) \/ exchange <> "OKX" ->
     FeeModel.get_fee_rate fm' other market_type fee_tier is_maker
     = FeeModel.get_fee_rate fm other market_type fee_tier is_maker) /\
  (forall name,
     name ∈ FeeModel.get_available_exchanges fm'
     <-> name = exchange \/ name ∈ FeeModel.get_available_exchanges fm) /\
  (forall tiers',
     FeeModel.add_exchange_fee_tiers fm' exchange tiers'
     = FeeModel.add_exchange_fee_tiers fm exchange tiers').
Proof.
  intros fm'. subst fm'. repeat split.
  - intros market_type fee_tier is_maker by_order by_tier rate Hm Ho Ht.
    apply (TableFacts.get_fee_rate_listed _ _ _ _ _ tiers by_order by_tier);
      try done.
    simpl. apply lookup_insert_eq.
  - intros other market_type fee_tier is_maker Hne Hsafe.
    apply TableFacts.get_fee_rate_same_entry; simpl.
    + by rewrite lookup_insert_ne.
    + unfold FeeModel.resolve. case_decide as Hin.
      * by rewrite lookup_insert_ne.
      * destruct Hsafe as [Hlisted|Hokx]; [done|]. by rewrite lookup_insert_ne.
  - unfold FeeModel.get_available_exchanges. simpl.
    rewrite dom_insert. set_solver.
  - unfold FeeModel.get_available_exchanges. simpl.
    rewrite dom_insert. set_solver.
  - intros tiers'. unfold FeeModel.add_exchange_fee_tiers. simpl.
    by rewrite insert_insert_eq.
Qed.

Lemma add_exchange_fee_tiers_spec_witness :
  FeeModel.get_fee_rate (FeeModel.add_exchange_fee_tiers FeeModel.init "Binance" futures_only)
    "Binance" "futures" "VIP1" false = Return 0.0004 /\
  FeeModel.get_fee_rate (FeeModel.add_exchange_fee_tiers FeeModel.init "Binance" futures_only)
    "OKX" "spot" "VIP0" true
  = FeeModel.get_fee_rate FeeModel.init "OKX" "spot" "VIP0" true.
Proof.
  destruct (add_exchange_fee_tiers_spec FeeModel.init "Binance" futures_only)
    as (Hown & Hother & _).
  split.
  - apply (Hown "futures" "VIP1" false
             (<["maker" := FeeModel.okx_futures_maker]>
                (<["taker" := FeeModel.okx_futures_taker]> ∅))
             FeeModel.okx_futures_taker 0.0004); vm_compute; reflexivity.
  - apply Hother; [discriminate|]. right. discriminate.
Defined.

(** X18: for a positive order value the effective rate is the blend of the
    two rates by the maker proportion, so with a proportion between 0 and 1
    it lies between the maker and the taker rate, and the total fee between
    the order value charged at the lower and at the higher of the two. *)
Theorem effective_rate_blend (fm : FeeModel.t) (order_value : R)
    (exchange market_type fee_tier : string) (maker_proportion : R) (f : FeeModel.fees) :
  0 < order_value ->
  FeeModel.calculate_fee fm order_value exchange market_type fee_tier maker_proportion
  = Return f ->
  exists maker_rate taker_rate,
    FeeModel.get_fee_rate fm exchange market_type fee_tier true = Return maker_rate /\
    FeeModel.get_fee_rate fm exchange market_type fee_tier false = Return taker_rate /\
    FeeModel.effective_rate f
    = maker_proportion * maker_rate + (1 - maker_proportion) * taker_rate /\
    FeeModel.total_fee f = order_value * FeeModel.effective_rate f /\
    (0 <= maker_proportion <= 1 ->
       Rmin maker_rate taker_rate <= FeeModel.effective_rate f
         <= Rmax maker_rate taker_rate /\
       order_value * Rmin maker_rate taker_rate <= FeeModel.total_fee f
         <= order_value * Rmax maker_rate taker_rate).
Proof.
  intros Hpos Hfee.
  apply EstimateFacts.calculate_fee_inv in Hfee
    as (mr & tr & Hmr & Htr & Hmf & Htf & Htotal & Heff).
  exists mr, tr. rewrite decide_True in Heff by lra.
  rewrite Hmf, Htf in Htotal.
  assert (FeeModel.effective_rate f
          = maker_proportion * mr + (1 - maker_proportion) * tr) as Hblend.
  { rewrite Heff, Htotal. field. lra. }
  assert (FeeModel.total_fee f = order_value * FeeModel.effective_rate f) as Hfee.
  { rewrite Hblend, Htotal. ring. }
  repeat split; try done.
  - rewrite Hblend. unfold Rmin. destruct (Rle_dec mr tr); nra.
  - rewrite Hblend. unfold Rmax. destruct (Rle_dec mr tr); nra.
  - rewrite Hfee. apply Rmult_le_compat_l; [lra|].
    rewrite Hblend. unfold Rmin. destruct (Rle_dec mr tr); nra.
  - rewrite Hfee. apply Rmult_le_compat_l; [lra|].
    rewrite Hblend. unfold Rmax. destruct (Rle_dec mr tr); nra.
Qed.

Lemma effective_rate_blend_witness :
  exists f maker_rate taker_rate,
    FeeModel.calculate_fee FeeModel.init 4500 "OKX" "spot" "VIP0" 0.5 = Return f /\
    FeeModel.get_fee_rate FeeModel.init "OKX" "spot" "VIP0" true = Return maker_rate /\
    FeeModel.get_fee_rate FeeModel.init "OKX" "spot" "VIP0" false = Return taker_rate /\
    FeeModel.effective_rate f = 0.5 * maker_rate + (1 - 0.5) * taker_rate.
Proof.
  assert (exists f, FeeModel.calculate_fee FeeModel.init 4500 "OKX" "spot" "VIP0" 0.5
                    = Return f) as [f Hf].
  { unfold FeeModel.calculate_fee.
    rewrite (bind_Return _ _ _ (proj1 okx_spot_vip0_rates)),
      (bind_Return _ _ _ (proj2 okx_spot_vip0_rates)). by eexists. }
  destruct (effective_rate_blend FeeModel.init 4500 "OKX" "spot" "VIP0" 0.5 f)
    as (mr & tr & Hmr & Htr & Hblend & _); [lra | exact Hf |].
  by exists f, mr, tr.
Defined.

(** X19: on a listed exchange and market with a maker bucket
    [get_available_fee_tiers] returns, and a name is listed exactly when it
    is a tier of the maker bucket; for each listed tier [get_fee_rate]
    returns the maker rate stored under exactly that exchange, market and
    tier.  The taker bucket is not consulted.  For an exchange or market that
    is not listed the result is empty: the fallbacks of [get_fee_rate] are
    not followed.  The call raises exactly when a listed market has no maker
    bucket, and then with KeyError. *)
Theorem available_fee_tiers_spec (fm : FeeModel.t) (exchange market_type : string) :
  (forall (by_market : gmap string (gmap string (gmap string R)))
          (by_order : gmap string (gmap string R)) (by_tier : gmap string R),
     FeeModel.fee_tiers fm !! exchange = Some by_market ->
     by_market !! market_type = Some by_order ->
     by_order !! "maker" = Some by_tier ->
     exists tiers,
       FeeModel.get_available_fee_tiers fm exchange market_type = Return tiers /\
       forall fee_tier,
         fee_tier ∈ tiers <->
         exists rate,
           by_tier !! fee_tier = Some rate /\
           FeeModel.get_fee_rate fm exchange market_type fee_tier true = Return rate) /\
  (FeeModel.fee_tiers fm !! exchange = None ->
     FeeModel.get_available_fee_tiers fm exchange market_type = Return ∅) /\
  (forall by_market : gmap string (gmap string (gmap string R)),
     FeeModel.fee_tiers fm !! exchange = Some by_market ->
     by_market !! market_type = None ->
     FeeModel.get_available_fee_tiers fm exchange market_type = Return ∅) /\
  (forall e,
     FeeModel.get_available_fee_tiers fm exchange market_type = Raise e <->
     e = KeyError "maker" /\
     exists (by_market : gmap string (gmap string (gmap string R)))
            (by_order : gmap string (gmap string R)),
       FeeModel.fee_tiers fm !! exchange = Some by_market /\
       by_market !! market_type = Some by_order /\
       by_order !! "maker" = None).
Proof.
  unfold FeeModel.get_available_fee_tiers.
  destruct (FeeModel.fee_tiers fm !! exchange) as [by_market|] eqn:Hex.
  2:{ split; [done|]. split; [done|]. split; [done|].
      intros e. split; [done|]. by intros (_ & bm & bo & ? & _). }
  destruct (by_market !! market_type) as [by_order|] eqn:Hm.
  2:{ split; [by intros bm bo bt [= <-]; rewrite Hm|]. split; [done|].
      split; [done|].
      intros e. split; [done|].
      intros (_ & bm & bo & [= <-] & Hbo & _). by rewrite Hm in Hbo. }
  unfold subscript.
  destruct (by_order !! "maker") as [by_tier|] eqn:Ho; simpl.
  - split; [|split; [done|split]].
    + intros bm bo bt [= <-]. rewrite Hm. intros [= <-]. rewrite Ho. intros [= <-].
      eexists. split; [done|].
      intros fee_tier. rewrite elem_of_dom. split.
      * intros [rate Hrate]. exists rate. split; [done|].
        by apply (TableFacts.get_fee_rate_listed _ _ _ _ _ by_market by_order by_tier).
      * intros (rate & Hrate & _). by exists rate.
    + intros bm [= <-]. by rewrite Hm.
    + intros e. split; [done|].
      intros (_ & bm & bo & [= <-] & Hbo & Hnone).
      rewrite Hm in Hbo. injection Hbo as <-. by rewrite Ho in Hnone.
  - split; [|split; [done|split]].
    + intros bm bo bt [= <-]. rewrite Hm. intros [= <-]. by rewrite Ho.
    + intros bm [= <-]. by rewrite Hm.
    + intros e. split.
      * intros [= <-]. split; [done|]. by exists by_market, by_order.
      * by intros [-> _].
Qed.

Lemma available_fee_tiers_spec_witness :
  exists tiers,
    FeeModel.get_available_fee_tiers FeeModel.init "OKX" "spot" = Return tiers /\
    "VIP0" ∈ tiers /\ "VIP5" ∈ tiers /\ "VIP6" ∉ tiers.
Proof.
  destruct (available_fee_tiers_spec FeeModel.init "OKX" "spot") as (Hlisted & _).
  destruct (Hlisted
              (<["spot" := <["maker" := FeeModel.okx_spot_maker]>
                           (<["taker" := FeeModel.okx_spot_taker]> ∅)]>
               (<["futures" := <["maker" := FeeModel.okx_futures_maker]>
                               (<["taker" := FeeModel.okx_futures_taker]> ∅)]> ∅))
              (<["maker" := FeeModel.okx_spot_maker]>
               (<["taker" := FeeModel.okx_spot_taker]> ∅))
              FeeModel.okx_spot_maker eq_refl eq_refl eq_refl)
    as (tiers & Hret & Hin).
  exists tiers. split; [exact Hret|]. split; [|split].
  - apply Hin. exists 0.0010. split; [reflexivity|].
    exact (proj1 okx_spot_vip0_rates).
  - apply Hin. exists 0.0000. split; [reflexivity|].
    eapply (TableFacts.get_fee_rate_listed FeeModel.init "OKX" "spot" "VIP5" true);
      reflexivity.
  - intros Hlisted6. apply Hin in Hlisted6 as (rate & Hrate & _). discriminate Hrate.
Defined.

(** ** The heuristic estimators *)

Lemma sinh_minus (x y : R) : sinh (x - y) = sinh x * cosh y - cosh x * sinh y.
Proof.
  unfold sinh, cosh.
  replace (x - y) with (x + - y) by lra.
  replace (- (x + - y)) with (- x + y) by lra.
  rewrite !exp_plus. field.
Qed.

Lemma tanh_le (x y : R) : x <= y -> tanh x <= tanh y.
Proof.
  intros Hxy. unfold tanh.
  pose proof (cosh_pos x) as Hx. pose proof (cosh_pos y) as Hy.
  assert (sinh (x - y) <= 0) as Hdiff.
  { destruct Hxy as [Hlt| ->].
    - assert (x - y < 0) as Hneg by lra.
      apply sinh_lt in Hneg. rewrite sinh_0 in Hneg. lra.
    - replace (y - y) with 0 by lra. rewrite sinh_0. lra. }
  rewrite sinh_minus in Hdiff.
  apply Rmult_le_reg_r with (cosh x * cosh y); [by apply Rmult_lt_0_compat|].
  replace (sinh x / cosh x * (cosh x * cosh y)) with (sinh x * cosh y)
    by (field; lra).
  replace (sinh y / cosh y * (cosh x * cosh y)) with (cosh x * sinh y)
    by (field; lra).
  lra.
Qed.

Lemma clamp_le (x y : R) : x <= y -> Rmax 0.0 (Rmin 1.0 x) <= Rmax 0.0 (Rmin 1.0 y).
Proof.
  intros Hxy. apply Rle_max_compat_l. by apply Rle_min_compat_l.
Qed.

(** X20: the maker/taker heuristic returns for every order size, with a
    value between 0 and 1.  Above -1 the value is the clamp to [0, 1] of
    0.5 - 0.01 log1p(size) + 0.1 tanh(spread) - 0.2 volatility
    + 0.1 imbalance; at -1 and below, where [log1p] is -inf or nan, it is 1.
    The value does not increase with the order size or the volatility and
    does not decrease with the spread or the imbalance. *)
Theorem maker_proportion_heuristic (order_size spread volatility imbalance : R) :
  exists p,
    MakerTakerModel._estimate_maker_proportion_fallback
      order_size spread volatility imbalance = Return p /\
    0 <= p <= 1 /\
    (-1 < order_size ->
       p = Rmax 0 (Rmin 1 (0.5 - 0.01 * ln (1 + order_size) + 0.1 * tanh spread
                           - 0.2 * volatility + 0.1 * imbalance))) /\
    (order_size <= -1 -> p = 1) /\
    (forall order_size' spread' volatility' imbalance' p',
       MakerTakerModel._estimate_maker_proportion_fallback
         order_size' spread' volatility' imbalance' = Return p' ->
       order_size <= order_size' -> spread' <= spread ->
       volatility <= volatility' -> imbalance' <= imbalance ->
       p' <= p).
Proof.
  destruct (HeuristicFacts.maker_fallback_returns order_size spread volatility imbalance)
    as (p & Hp & Hrange).
  exists p. split; [exact Hp|]. split; [exact Hrange|]. split; [|split].
  - intros Hq. rewrite HeuristicFacts.maker_fallback_above in Hp by done.
    injection Hp as <-. f_equal; [lra|]. f_equal; lra.
  - intros Hq. rewrite HeuristicFacts.maker_fallback_below in Hp by done.
    injection Hp as <-. lra.
  - intros order_size' spread' volatility' imbalance' p' Hp' Hsize Hspread Hvol Himb.
    destruct (HeuristicFacts.maker_fallback_returns order_size' spread' volatility'
                imbalance') as (p'' & Hp'' & Hrange').
    rewrite Hp' in Hp''. injection Hp'' as <-.
    destruct (decide (-1 < order_size)) as [Hq|Hq].
    + rewrite HeuristicFacts.maker_fallback_above in Hp by done.
      rewrite HeuristicFacts.maker_fallback_above in Hp' by lra.
      injection Hp as <-. injection Hp' as <-.
      apply clamp_le.
      pose proof (ln_le (1 + order_size) (1 + order_size') ltac:(lra) ltac:(lra)).
      pose proof (tanh_le spread' spread Hspread).
      lra.
    + rewrite HeuristicFacts.maker_fallback_below in Hp by lra.
      injection Hp as <-. lra.
Qed.

Lemma maker_proportion_heuristic_witness :
  MakerTakerModel._estimate_maker_proportion_fallback (-2) 1 0.01 0 = Return 1 /\
  exists p,
    MakerTakerModel._estimate_maker_proportion_fallback 0.1 1 0.01 0 = Return p /\
    0 <= p <= 1.
Proof.
  split.
  - destruct (maker_proportion_heuristic (-2) 1 0.01 0) as (p & Hp & _ & _ & Hlow & _).
    rewrite Hp. f_equal. apply Hlow. lra.
  - destruct (maker_proportion_heuristic 0.1 1 0.01 0) as (p & Hp & Hrange & _).
    by exists p.
Defined.

(** X21: the slippage heuristic returns exactly for order sizes above -1;
    its value does not decrease with the order size or the volatility, and
    for a spread that is not negative and an imbalance between -1 and 1 it
    is at least a fifth of the spread plus twice the volatility plus a tenth
    of [log1p] of the order size, hence not negative for non-negative
    inputs, and at most four fifths of the spread plus the same two terms. *)
Theorem slippage_heuristic (order_size spread volatility imbalance : R) :
  ((exists s, SlippageModel._estimate_slippage_fallback
                order_size spread volatility imbalance = Return s)
   <-> -1 < order_size) /\
  (forall s,
     SlippageModel._estimate_slippage_fallback
       order_size spread volatility imbalance = Return s ->
     (forall order_size' volatility' s',
        SlippageModel._estimate_slippage_fallback
          order_size' spread volatility' imbalance = Return s' ->
        order_size <= order_size' -> volatility <= volatility' -> s <= s') /\
     (0 <= spread -> -1 <= imbalance <= 1 ->
        0.2 * spread + 0.1 * ln (1 + order_size) + 2 * volatility <= s
          <= 0.8 * spread + 0.1 * ln (1 + order_size) + 2 * volatility) /\
     (0 <= spread -> -1 <= imbalance <= 1 -> 0 <= order_size -> 0 <= volatility ->
        0 <= s)).
Proof.
  unfold SlippageModel._estimate_slippage_fallback, np_log1p. split.
  - destruct (decide (-1 < order_size)) as [Hq|Hq]; simpl.
    + split; [done|]. intros _. by eexists.
    + split; [by intros [s ?]|done].
  - intros s. destruct (decide (-1 < order_size)) as [Hq|Hq]; simpl; [|done].
    intros [= <-].
    assert (0 <= spread -> -1 <= imbalance <= 1 ->
            - spread <= imbalance * spread <= spread) as Hprod.
    { intros Hs Hi. split; nra. }
    split; [|split].
    + intros order_size' volatility' s'.
      destruct (decide (-1 < order_size')) as [Hq'|Hq']; simpl; [|done].
      intros [= <-] Hsize Hvol.
      pose proof (ln_le (1 + order_size) (1 + order_size') ltac:(lra) ltac:(lra)).
      lra.
    + intros Hs Hi. specialize (Hprod Hs Hi). lra.
    + intros Hs Hi Hsize Hvol. specialize (Hprod Hs Hi).
      pose proof (ln1p_nonneg order_size Hsize). lra.
Qed.

Lemma slippage_heuristic_witness :
  exists s, SlippageModel._estimate_slippage_fallback 0.1 1 0.01 0 = Return s.
Proof.
  apply (slippage_heuristic 0.1 1 0.01 0). lra.
Defined.





(** ** Market impact and the execution schedule *)



(** The loop [r[0] = x0; for i in range(1, n): r[i] = r[i-1] - d[i-1]]. *)
Lemma running_inventory (d : list R) (x0 : R) (n k : nat) :
  (k < n)%nat ->
  let r := foldl (fun (r : list R) i => <[i := r !!! (i - 1)%nat - d !!! (i - 1)%nat]> r)
             (<[0%nat := x0]> (replicate n 0)) (seq 1 k) in
  length r = n /\
  forall i, (i <= k)%nat ->
    r !! i = Some (x0 - py_sum ((fun j => d !!! j) <$> seq 0 i)).
Proof.
  induction k as [|k IH]; intros Hk; cbv zeta.
  - simpl. rewrite length_insert, length_replicate. split; [done|].
    intros i Hi. replace i with 0%nat by lia. simpl.
    rewrite list_lookup_insert_eq by (rewrite length_replicate; lia).
    rewrite py_sum_nil. f_equal. lra.
  - destruct (IH ltac:(lia)) as [Hlen Hlook]. clear IH.
    rewrite seq_S, foldl_app. simpl.
    set (r := foldl _ _ (seq 1 k)) in *.
    rewrite length_insert. split; [done|].
    replace (k - 0)%nat with k by lia.
    intros i Hi. destruct (decide (i = S k)) as [->|Hne].
    + rewrite list_lookup_insert_eq by lia.
      rewrite (list_lookup_total_correct r k _ (Hlook k ltac:(lia))).
      rewrite seq_S, fmap_app, py_sum_app. simpl. rewrite py_sum_cons, py_sum_nil.
      f_equal. lra.
    + rewrite list_lookup_insert_ne by lia. apply Hlook. lia.
Qed.

Lemma remaining_inventory_lookup (total_size : R) (times trade_sizes : list R) (i : nat) :
  (i < length times)%nat ->
  length (AlmgrenChrissVisualizer.remaining_inventory total_size times trade_sizes)
  = length times /\
  AlmgrenChrissVisualizer.remaining_inventory total_size times trade_sizes !! i
  = Some (total_size - py_sum ((fun j => trade_sizes !!! j) <$> seq 0 i)).
Proof.
  intros Hi. unfold AlmgrenChrissVisualizer.remaining_inventory, for_range.
  destruct (running_inventory trade_sizes total_size (length times) (length times - 1)
              ltac:(lia)) as [Hlen Hlook].
  split; [exact Hlen|]. apply Hlook. lia.
Qed.

(** X26: in the risk-neutral branch ([alpha = 0]) the schedule returns for
    every horizon, zero and negative ones included: every slice but the last
    trades [total_size / (n - 1)], the last slice trades nothing, and the
    remaining inventory falls linearly from [total_size] to 0. *)
Theorem risk_neutral_trajectory_spec (m : AlmgrenChrissModel.t)
    (total_size time_horizon volatility : R) :
  AlmgrenChrissModel.risk_aversion m * volatility ^ 2 = 0 ->
  let n := AlmgrenChrissModel.intervals time_horizon in
  exists times remaining_sizes trade_sizes,
    AlmgrenChrissModel.trajectory m total_size time_horizon volatility
      = Return (times, remaining_sizes, trade_sizes) /\
    AlmgrenChrissModel.calculate_optimal_execution_schedule m total_size time_horizon
      volatility = Return (times, trade_sizes) /\
    length times = n /\ length remaining_sizes = n /\ length trade_sizes = n /\
    (forall i, (i < n - 1)%nat -> trade_sizes !! i = Some (total_size / INR (n - 1))) /\
    trade_sizes !! (n - 1)%nat = Some 0 /\
    (forall i, (i < n)%nat ->
       remaining_sizes !! i = Some (total_size - INR i * (total_size / INR (n - 1)))) /\
    remaining_sizes !! 0%nat = Some total_size /\
    remaining_sizes !! (n - 1)%nat = Some 0.
Proof.
  intros Halpha n.
  pose proof (ScheduleFacts.intervals_ge_2 time_horizon) as Hn. fold n in Hn.
  assert (INR (n - 1) <> 0) as Hdiv by (apply not_0_INR; lia).
  set (trade_sizes := ((fun _ : nat => total_size / INR (n - 1)) <$> seq 0 (n - 1)) ++ [0]).
  assert (length trade_sizes = n) as Hlen.
  { unfold trade_sizes. rewrite length_app, length_fmap, length_seq. simpl. lia. }
  assert (forall i, (i < n - 1)%nat -> trade_sizes !! i = Some (total_size / INR (n - 1)))
    as Hequal.
  { intros i Hi. unfold trade_sizes.
    rewrite lookup_app_l by (rewrite length_fmap, length_seq; lia).
    by rewrite list_lookup_fmap, lookup_seq_lt by done. }
  destruct (running_inventory trade_sizes total_size n (n - 1) ltac:(lia))
    as [Hrlen Hrlook].
  set (remaining_sizes :=
         foldl (fun (r : list R) i =>
                  <[i := r !!! (i - 1)%nat - trade_sizes !!! (i - 1)%nat]> r)
           (<[0%nat := total_size]> (replicate n 0)) (seq 1 (n - 1))) in *.
  assert (forall i, (i < n)%nat ->
            remaining_sizes !! i
            = Some (total_size - INR i * (total_size / INR (n - 1)))) as Hlinear.
  { intros i Hi. rewrite Hrlook by lia. do 2 f_equal.
    apply py_sum_constant. intros j Hj.
    apply list_lookup_total_correct, Hequal. lia. }
  exists (linspace 0 time_horizon n), remaining_sizes, trade_sizes.
  assert (AlmgrenChrissModel.trajectory m total_size time_horizon volatility
          = Return (linspace 0 time_horizon n, remaining_sizes, trade_sizes)) as Htraj.
  { unfold AlmgrenChrissModel.trajectory. cbv zeta. fold n.
    rewrite decide_True by done.
    rewrite (bind_Return _ _ (total_size / INR (n - 1)))
      by (by apply fdiv_nonzero).
    rewrite ScheduleFacts.risk_neutral_sizes by done. reflexivity. }
  split; [exact Htraj|]. split.
  { unfold AlmgrenChrissModel.calculate_optimal_execution_schedule.
    rewrite Htraj. simpl. rewrite ScheduleFacts.adjust_final_exact; [done|].
    apply (ScheduleFacts.risk_neutral_sum total_size time_horizon). }
  split; [apply length_linspace|]. split; [exact Hrlen|]. split; [exact Hlen|].
  split; [exact Hequal|]. split.
  { unfold trade_sizes.
    rewrite lookup_app_r by (rewrite length_fmap, length_seq; lia).
    rewrite length_fmap, length_seq.
    by replace (n - 1 - (n - 1))%nat with 0%nat by lia. }
  split; [exact Hlinear|]. split.
  - rewrite Hlinear by lia. f_equal. simpl. lra.
  - rewrite Hlinear by lia. f_equal. field. done.
Qed.

Lemma risk_neutral_trajectory_spec_witness :
  let n := AlmgrenChrissModel.intervals 0 in
  exists times remaining_sizes trade_sizes,
    AlmgrenChrissModel.trajectory AlmgrenChrissModel.init 100 0 0
      = Return (times, remaining_sizes, trade_sizes) /\
    AlmgrenChrissModel.calculate_optimal_execution_schedule AlmgrenChrissModel.init
      100 0 0 = Return (times, trade_sizes) /\
    length times = n /\ length remaining_sizes = n /\ length trade_sizes = n /\
    (forall i, (i < n - 1)%nat -> trade_sizes !! i = Some (100 / INR (n - 1))) /\
    trade_sizes !! (n - 1)%nat = Some 0 /\
    (forall i, (i < n)%nat ->
       remaining_sizes !! i = Some (100 - INR i * (100 / INR (n - 1)))) /\
    remaining_sizes !! 0%nat = Some 100 /\
    remaining_sizes !! (n - 1)%nat = Some 0.
Proof.
  apply (risk_neutral_trajectory_spec AlmgrenChrissModel.init 100 0 0).
  simpl. lra.
Defined.

(** X28: the inventory curve that the visualizer rebuilds from the returned
    trade sizes is the model's own array of remaining inventory, which the
    model computes and does not return: wherever the schedule conserves the
    order ([alpha = 0], or [alpha * gamma > 0] with a horizon other than
    0), both arrays are equal, start at [total_size] and end at 0. *)
Theorem plotted_inventory_is_remaining_sizes (m : AlmgrenChrissModel.t)
    (total_size time_horizon volatility : R) :
  let alpha := AlmgrenChrissModel.risk_aversion m * volatility ^ 2 in
  let gamma := AlmgrenChrissModel.temporary_impact_factor m in
  alpha = 0 \/ (0 < alpha * gamma /\ time_horizon <> 0) ->
  exists times remaining_sizes trade_sizes,
    AlmgrenChrissModel.trajectory m total_size time_horizon volatility
      = Return (times, remaining_sizes, trade_sizes) /\
    AlmgrenChrissModel.calculate_optimal_execution_schedule m total_size time_horizon
      volatility = Return (times, trade_sizes) /\
    AlmgrenChrissVisualizer.remaining_inventory total_size times trade_sizes
    = remaining_sizes /\
    head remaining_sizes = Some total_size /\
    last remaining_sizes = Some 0.
Proof.
  intros alpha gamma Hcase.
  set (n := AlmgrenChrissModel.intervals time_horizon).
  pose proof (ScheduleFacts.intervals_ge_2 time_horizon) as Hn. fold n in Hn.
  assert (INR (n - 1) <> 0) as Hdiv by (apply not_0_INR; lia).
  assert (forall l : list R, length l = n -> head l = l !! 0%nat /\ last l = l !! (n - 1)%nat)
    as Hends.
  { intros l Hl. split; [by rewrite head_lookup|].
    rewrite last_lookup, Hl. f_equal. lia. }
  destruct Hcase as [Halpha|[Hpos Ht]].
  - set (trade_sizes :=
           ((fun _ : nat => total_size / INR (n - 1)) <$> seq 0 (n - 1)) ++ [0]).
    assert (forall i, (i < n - 1)%nat -> trade_sizes !!! i = total_size / INR (n - 1))
      as Hequal.
    { intros i Hi. apply list_lookup_total_correct. unfold trade_sizes.
      rewrite lookup_app_l by (rewrite length_fmap, length_seq; lia).
      by rewrite list_lookup_fmap, lookup_seq_lt by done. }
    destruct (running_inventory trade_sizes total_size n (n - 1) ltac:(lia))
      as [Hrlen Hrlook].
    set (remaining_sizes :=
           foldl (fun (r : list R) i =>
                    <[i := r !!! (i - 1)%nat - trade_sizes !!! (i - 1)%nat]> r)
             (<[0%nat := total_size]> (replicate n 0)) (seq 1 (n - 1))) in *.
    exists (linspace 0 time_horizon n), remaining_sizes, trade_sizes.
    assert (AlmgrenChrissModel.trajectory m total_size time_horizon volatility
            = Return (linspace 0 time_horizon n, remaining_sizes, trade_sizes)) as Htraj.
    { unfold AlmgrenChrissModel.trajectory. cbv zeta. fold n.
      rewrite decide_True by done.
      rewrite (bind_Return _ _ (total_size / INR (n - 1)))
        by (by apply fdiv_nonzero).
      rewrite ScheduleFacts.risk_neutral_sizes by done. reflexivity. }
    split; [exact Htraj|]. split.
    { unfold AlmgrenChrissModel.calculate_optimal_execution_schedule.
      rewrite Htraj. simpl. rewrite ScheduleFacts.adjust_final_exact; [done|].
      apply (ScheduleFacts.risk_neutral_sum total_size time_horizon). }
    split.
    { unfold AlmgrenChrissVisualizer.remaining_inventory, for_range.
      by rewrite length_linspace. }
    destruct (Hends remaining_sizes Hrlen) as [-> ->].
    rewrite !Hrlook by lia. split.
    + simpl. rewrite py_sum_nil. f_equal. lra.
    + rewrite (py_sum_constant (total_size / INR (n - 1)))
        by (intros j Hj; apply Hequal; lia).
      f_equal. field. done.
  - pose proof (ScheduleFacts.trajectory_risk_averse m total_size time_horizon volatility
                  Hpos Ht) as Htraj.
    cbv zeta in Htraj. fold n in Htraj.
    pose proof (ScheduleFacts.inventory_total m total_size time_horizon volatility)
      as Htot.
    pose proof (ScheduleFacts.inventory_last m total_size time_horizon volatility)
      as Hzero.
    fold n in Htot, Hzero.
    set (remaining_sizes :=
           AlmgrenChrissModel.inventory m total_size time_horizon volatility
             <$> seq 0 n) in *.
    set (trade_sizes :=
           ((fun i => remaining_sizes !!! i - remaining_sizes !!! S i) <$> seq 0 (n - 1))
           ++ [remaining_sizes !!! (n - 1)%nat]) in *.
    assert (length remaining_sizes = n) as Hrlen.
    { unfold remaining_sizes. by rewrite length_fmap, length_seq. }
    assert (remaining_sizes !!! 0%nat = total_size) as Hfirst.
    { rewrite Htot by lia. reflexivity. }
    assert (forall i, (i < n - 1)%nat ->
              trade_sizes !!! i = remaining_sizes !!! i - remaining_sizes !!! S i)
      as Hdecr.
    { intros i Hi. apply list_lookup_total_correct. unfold trade_sizes.
      rewrite lookup_app_l by (rewrite length_fmap, length_seq; lia).
      by rewrite list_lookup_fmap, lookup_seq_lt by done. }
    exists (linspace 0 time_horizon n), remaining_sizes, trade_sizes.
    split; [exact Htraj|]. split.
    { unfold AlmgrenChrissModel.calculate_optimal_execution_schedule.
      rewrite Htraj. simpl. rewrite ScheduleFacts.adjust_final_exact; [done|].
      etrans; [apply (ScheduleFacts.risk_averse_sum time_horizon) | exact Hfirst]. }
    split.
    { apply list_eq. intros i.
      destruct (decide (i < n)%nat) as [Hi|Hi].
      - destruct (remaining_inventory_lookup total_size (linspace 0 time_horizon n)
                    trade_sizes i) as [_ ->]; [by rewrite length_linspace|].
        rewrite (py_sum_telescope (fun j => remaining_sizes !!! j))
          by (intros j Hj; apply Hdecr; lia).
        rewrite Hfirst. simpl.
        rewrite (list_lookup_lookup_total_lt remaining_sizes i) by lia.
        f_equal. lra.
      - rewrite !lookup_ge_None_2; [done | lia |].
        unfold AlmgrenChrissVisualizer.remaining_inventory, for_range.
        destruct (running_inventory trade_sizes total_size
                    (length (linspace 0 time_horizon n))
                    (length (linspace 0 time_horizon n) - 1)) as [Hl _].
        { rewrite length_linspace. lia. }
        rewrite Hl, length_linspace. lia. }
    destruct (Hends remaining_sizes Hrlen) as [-> ->].
    rewrite !(list_lookup_lookup_total_lt remaining_sizes) by lia.
    rewrite Hfirst, Htot, Hzero by lia. done.
Qed.

Lemma plotted_inventory_is_remaining_sizes_witness :
  exists times remaining_sizes trade_sizes,
    AlmgrenChrissModel.trajectory AlmgrenChrissModel.init 100 4 0.01
      = Return (times, remaining_sizes, trade_sizes) /\
    AlmgrenChrissModel.calculate_optimal_execution_schedule AlmgrenChrissModel.init
      100 4 0.01 = Return (times, trade_sizes) /\
    AlmgrenChrissVisualizer.remaining_inventory 100 times trade_sizes = remaining_sizes /\
    head remaining_sizes = Some 100 /\
    last remaining_sizes = Some 0.
Proof.
  apply (plotted_inventory_is_remaining_sizes AlmgrenChrissModel.init 100 4 0.01).
  right. simpl. split; lra.
Defined.

Lemma sinh_midpoint (x d : R) : sinh (x + d) + sinh (x - d) = 2 * sinh x * cosh d.
Proof.
  unfold sinh, cosh.
  replace (- (x + d)) with (- x + - d) by lra.
  replace (x - d) with (x + - d) by lra.
  replace (- (x + - d)) with (- x + d) by lra.
  rewrite !exp_plus. field.
Qed.

Lemma cosh_ge_1 (d : R) : 1 <= cosh d.
Proof.
  unfold cosh. pose proof (exp_ineq1_le d). pose proof (exp_ineq1_le (- d)). lra.
Qed.

(** Decrements of [sinh] over equal steps grow with the argument on the
    non-negative half line. *)
Lemma sinh_decrements (x d : R) :
  0 <= x -> 0 <= d ->
  0 <= sinh (x + d) - sinh x /\
  sinh (x + d) - sinh x <= sinh (x + d + d) - sinh (x + d).
Proof.
  intros Hx Hd. split.
  - destruct Hd as [Hd| <-].
    + pose proof (sinh_lt x (x + d) ltac:(lra)). lra.
    + replace (x + 0) with x by lra. lra.
  - pose proof (sinh_midpoint (x + d) d) as Hmid.
    replace (x + d - d) with x in Hmid by lra.
    pose proof (cosh_ge_1 d) as Hc.
    pose proof (sinh_nonneg (x + d) ltac:(lra)) as Hs.
    assert (2 * sinh (x + d) <= 2 * sinh (x + d) * cosh d) as Hle by nra.
    lra.
Qed.

(** X27: the risk-averse schedule is front-loaded.  For [alpha * gamma > 0],
    a positive horizon and a non-negative order, no trade of the returned
    schedule is negative and no trade is larger than the one before it. *)
Theorem risk_averse_front_loaded (m : AlmgrenChrissModel.t)
    (total_size time_horizon volatility : R) :
  0 < AlmgrenChrissModel.risk_aversion m * volatility ^ 2
      * AlmgrenChrissModel.temporary_impact_factor m ->
  0 < time_horizon -> 0 <= total_size ->
  exists times trade_sizes,
    AlmgrenChrissModel.calculate_optimal_execution_schedule m total_size time_horizon
      volatility = Return (times, trade_sizes) /\
    length trade_sizes = AlmgrenChrissModel.intervals time_horizon /\
    (forall i x, trade_sizes !! i = Some x -> 0 <= x) /\
    (forall i x y, trade_sizes !! i = Some x -> trade_sizes !! S i = Some y -> y <= x).
Proof.
  intros Hpos Ht Hsize.
  set (n := AlmgrenChrissModel.intervals time_horizon).
  pose proof (ScheduleFacts.intervals_ge_2 time_horizon) as Hn. fold n in Hn.
  destruct (risk_averse_schedule m total_size time_horizon volatility Hpos ltac:(lra))
    as (times & remaining_sizes & trade_sizes & _ & Hsched & Htimes & Hrlen & Hlen
        & Hform & _ & Hdecr & Hlast & Hzero & _).
  fold n in Htimes, Hrlen, Hlen, Hdecr, Hlast, Hzero.
  exists times, trade_sizes. split; [exact Hsched|]. split; [exact Hlen|].
  set (kappa := AlmgrenChrissModel.kappa m volatility).
  assert (0 < kappa) as Hkappa.
  { unfold kappa, AlmgrenChrissModel.kappa. by apply sqrt_lt_R0. }
  set (h := time_horizon / INR (n - 1)).
  assert (0 < INR (n - 1)) as Hdiv by (apply lt_0_INR; lia).
  assert (0 < h) as Hh by (by apply Rdiv_lt_0_compat).
  assert (INR (n - 1) * h = time_horizon) as Hspan by (unfold h; field; lra).
  assert (0 < sinh (kappa * time_horizon)) as Hsinh.
  { pose proof (sinh_lt 0 (kappa * time_horizon) ltac:(nra)) as Hlt.
    by rewrite sinh_0 in Hlt. }
  (* the remaining inventory at slice [i], counted from the end *)
  assert (forall i, (i < n)%nat ->
            remaining_sizes !!! i
            = total_size * sinh (kappa * (INR (n - 1 - i) * h))
              / sinh (kappa * time_horizon)) as Hrem.
  { intros i Hi. apply list_lookup_total_correct.
    rewrite (Hform i (INR i * h)).
    2:{ rewrite Htimes. by apply linspace_lookup. }
    unfold AlmgrenChrissModel.holdings. fold kappa. do 4 f_equal.
    rewrite minus_INR by lia. rewrite <- Hspan at 1. ring. }
  assert (forall j, (S j < n)%nat ->
            0 <= remaining_sizes !!! (n - 1 - S j)%nat - remaining_sizes !!! (n - 1 - j)%nat
            /\ ((S (S j) < n)%nat ->
                remaining_sizes !!! (n - 1 - S j)%nat - remaining_sizes !!! (n - 1 - j)%nat
                <= remaining_sizes !!! (n - 1 - S (S j))%nat
                   - remaining_sizes !!! (n - 1 - S j)%nat)) as Hsteps.
  { intros j Hj.
    assert (forall k, (k < n)%nat ->
              remaining_sizes !!! (n - 1 - k)%nat
              = total_size / sinh (kappa * time_horizon)
                * sinh (kappa * (INR k * h))) as Hback.
    { intros k Hk. rewrite Hrem by lia.
      replace (n - 1 - (n - 1 - k))%nat with k by lia. field. lra. }
    assert (0 <= total_size / sinh (kappa * time_horizon)) as Hscale.
    { apply Rmult_le_pos; [done|]. left. by apply Rinv_0_lt_compat. }
    assert (0 <= kappa * (INR j * h)) as Hx.
    { apply Rmult_le_pos; [lra | apply Rmult_le_pos; [apply pos_INR | lra]]. }
    assert (0 <= kappa * h) as Hd by (apply Rmult_le_pos; lra).
    pose proof (sinh_decrements (kappa * (INR j * h)) (kappa * h) Hx Hd)
      as [Hstep Hgrow].
    replace (kappa * (INR j * h) + kappa * h) with (kappa * (INR (S j) * h)) in *
      by (rewrite S_INR; ring).
    replace (kappa * (INR (S j) * h) + kappa * h) with (kappa * (INR (S (S j)) * h)) in *
      by (rewrite !S_INR; ring).
    split.
    - rewrite !Hback by lia. nra.
    - intros Hjj. rewrite !Hback by lia. nra. }
  split.
  - intros i x Hi.
    assert (i < n)%nat as Hlt by (apply lookup_lt_Some in Hi; lia).
    destruct (decide (i = n - 1)%nat) as [->|Hne].
    + rewrite Hlast, Hzero in Hi. injection Hi as <-. lra.
    + rewrite Hdecr in Hi by lia. injection Hi as <-.
      destruct (Hsteps (n - 2 - i)%nat ltac:(lia)) as [Hstep _].
      replace (n - 1 - S (n - 2 - i))%nat with i in Hstep by lia.
      replace (n - 1 - (n - 2 - i))%nat with (S i) in Hstep by lia.
      exact Hstep.
  - intros i x y Hi Hsi.
    assert (S i < n)%nat as Hlt by (apply lookup_lt_Some in Hsi; lia).
    rewrite Hdecr in Hi by lia. injection Hi as <-.
    destruct (decide (S i = n - 1)%nat) as [Heq|Hne].
    + rewrite Heq, Hlast, Hzero in Hsi. injection Hsi as <-.
      destruct (Hsteps (n - 2 - i)%nat ltac:(lia)) as [Hstep _].
      replace (n - 1 - S (n - 2 - i))%nat with i in Hstep by lia.
      replace (n - 1 - (n - 2 - i))%nat with (S i) in Hstep by lia.
      exact Hstep.
    + rewrite Hdecr in Hsi by lia. injection Hsi as <-.
      destruct (Hsteps (n - 3 - i)%nat ltac:(lia)) as [_ Hgrow].
      specialize (Hgrow ltac:(lia)).
      replace (n - 1 - S (S (n - 3 - i)))%nat with i in Hgrow by lia.
      replace (n - 1 - S (n - 3 - i))%nat with (S i) in Hgrow by lia.
      replace (n - 1 - (n - 3 - i))%nat with (S (S i)) in Hgrow by lia.
      exact Hgrow.
Qed.

Lemma risk_averse_front_loaded_witness :
  exists times trade_sizes,
    AlmgrenChrissModel.calculate_optimal_execution_schedule AlmgrenChrissModel.init
      100 4 0.01 = Return (times, trade_sizes) /\
    length trade_sizes = AlmgrenChrissModel.intervals 4 /\
    (forall i x, trade_sizes !! i = Some x -> 0 <= x) /\
    (forall i x y, trade_sizes !! i = Some x -> trade_sizes !! S i = Some y -> y <= x).
Proof.
  apply (risk_averse_front_loaded AlmgrenChrissModel.init 100 4 0.01).
  - simpl. lra.
  - lra.
  - lra.
Defined.

(** ** The feed and the dashboard *)

(** X29: a message from the socket updates the simulator all or nothing.
    When the message has all five keys and every text parses, the simulator
    ends in the state that [update_orderbook] on the raw message leaves.
    When a key is missing, or [update_orderbook] on the raw message would
    raise, the simulator is left exactly as it was, the book's timestamp,
    exchange and symbol included. *)
Theorem on_message_all_or_nothing (float : string -> option R) (sim : TradeSimulator.t)
    (data : Orderbook.snapshot) (start_time ob_start ob_end end_time : R) :
  let after := Application.on_message float sim data start_time ob_start ob_end end_time in
  let direct :=
    TradeSimulator.update_orderbook float sim data start_time ob_start ob_end end_time in
  let all_keys :=
    is_Some (Orderbook.snap_timestamp data) /\ is_Some (Orderbook.snap_exchange data) /\
    is_Some (Orderbook.snap_symbol data) /\ is_Some (Orderbook.snap_asks data) /\
    is_Some (Orderbook.snap_bids data) in
  (all_keys -> (exists latency, direct.2 = Return latency) -> after = direct.1) /\
  (~ all_keys \/ (exists e, direct.2 = Raise e) -> after = sim).
Proof.
  intros after direct all_keys. subst after direct all_keys.
  unfold Application.on_message, OrderbookWebSocketClient._process_orderbook,
    Application.handle_orderbook_update, TradeSimulator.update_orderbook_parsed,
    TradeSimulator.update_orderbook, Orderbook.update, Orderbook.update_parsed.
  split.
  - intros ([ts Hts] & [ex Hex] & [sy Hsy] & [asks Hasks] & [bids Hbids]).
    rewrite Hts, Hex, Hsy, Hasks, Hbids. simpl.
    destruct (Orderbook.parse_levels float asks) as [new_asks|]; simpl.
    2:{ by intros [? ?]. }
    destruct (Orderbook.parse_levels float bids) as [new_bids|]; simpl.
    2:{ by intros [? ?]. }
    done.
  - intros [Hkeys|[e He]].
    + destruct (Orderbook.snap_timestamp data) as [ts|]; [|done].
      destruct (Orderbook.snap_exchange data) as [ex|]; [|done].
      destruct (Orderbook.snap_symbol data) as [sy|]; [|done].
      destruct (Orderbook.snap_asks data) as [asks|]; [|done].
      destruct (Orderbook.snap_bids data) as [bids|]; [|done].
      exfalso. apply Hkeys. repeat split; by eexists.
    + destruct (Orderbook.snap_timestamp data) as [ts|]; [|done].
      destruct (Orderbook.snap_exchange data) as [ex|]; [|done].
      destruct (Orderbook.snap_symbol data) as [sy|]; [|done].
      destruct (Orderbook.snap_asks data) as [asks|]; [|done].
      destruct (Orderbook.snap_bids data) as [bids|]; [|done].
      simpl in *.
      destruct (Orderbook.parse_levels float asks) as [new_asks|]; [|done].
      destruct (Orderbook.parse_levels float bids) as [new_bids|]; [|done].
      done.
Qed.

Lemma on_message_all_or_nothing_witness :
  Application.on_message sample_float sample_simulator bad_data 1 1 2 2 = sample_simulator /\
  TradeSimulator.orderbook
    (TradeSimulator.update_orderbook sample_float sample_simulator bad_data 1 1 2 2).1
  <> TradeSimulator.orderbook sample_simulator.
Proof.
  split.
  - apply (on_message_all_or_nothing sample_float sample_simulator bad_data 1 1 2 2).
    right. exists (ValueError "n/a"). vm_compute. reflexivity.
  - intros Heq. apply (f_equal Orderbook.timestamp) in Heq.
    vm_compute in Heq. discriminate.
Defined.

Lemma mid_price_side_empty (ob : Orderbook.t) (mid : R) :
  Orderbook.get_mid_price ob = Some mid -> Orderbook.side_empty ob = false.
Proof.
  unfold Orderbook.get_mid_price, Orderbook.side_empty.
  destruct (Orderbook.asks ob) as [|[a qa] asks]; [done|].
  by destruct (Orderbook.bids ob) as [|[b qb] bids].
Qed.

(** X30: the order callback of the dashboard never shows the simulator's
    error message: where it reaches the simulator, the book has a mid price
    and so both sides.  The panels it fills show the numbers of the
    dictionary that the simulator returns for the base quantity
    [quantity / mid_price], an order whose value is the quote amount entered.
    After a click, on a book with a positive mid price, with unfitted
    estimators and a complete fee table, every amount fills the panels; for
    an amount that is not negative all the numbers shown are finite, and at
    amount 0 the fees, the impact and all percentages shown are 0. *)
Theorem dashboard_simulate_order (sk : Sklearn.predictors) (sim : TradeSimulator.t)
    (n_clicks : option nat) (exchange market_type side : string)
    (quantity volatility : R) (fee_tier : string) (t0 t1 : R) :
  let shown :=
    Dashboard.simulate_order sk sim n_clicks exchange market_type side quantity
      volatility fee_tier t0 t1 in
  (forall msg, shown <> Return (Dashboard.ErrorMessage msg)) /\
  (forall panel,
     shown = Return (Dashboard.Filled panel) ->
     is_Some n_clicks /\
     exists mid r d,
       Orderbook.get_mid_price (TradeSimulator.orderbook sim) = Some mid /\
       mid <> 0 /\
       TradeSimulator.simulate_market_order sk sim side (quantity / mid) exchange
         market_type fee_tier volatility t0 t1 = Return r /\
       TradeSimulator.returned r = Some d /\
       panel = Dashboard.format d /\
       TradeSimulator.quantity d = quantity / mid /\
       TradeSimulator.order_value d = quantity) /\
  (forall mid,
     is_Some n_clicks ->
     Orderbook.get_mid_price (TradeSimulator.orderbook sim) = Some mid ->
     0 < mid ->
     MakerTakerModel.is_fitted (TradeSimulator.maker_taker_model sim) = false ->
     SlippageModel.is_fitted (TradeSimulator.slippage_model sim) = false ->
     FeeModel.complete (TradeSimulator.fee_model sim) ->
     exists panel,
       shown = Return (Dashboard.Filled panel) /\
       (0 <= quantity ->
          Np.is_finite (Dashboard.slippage_output panel).1 = true /\
          Np.is_finite (Dashboard.slippage_output panel).2 = true /\
          Np.is_finite (Dashboard.net_cost_output panel).1 = true /\
          Np.is_finite (Dashboard.net_cost_output panel).2 = true) /\
       (quantity = 0 ->
          (Dashboard.slippage_output panel).2 = Np.Finite 0 /\
          (Dashboard.net_cost_output panel).2 = Np.Finite 0 /\
          Dashboard.fees_output panel = (0, 0) /\
          Dashboard.market_impact_output panel = (0, 0))).
Proof.
  intros shown. subst shown. unfold Dashboard.simulate_order.
  split; [|split].
  - intros msg. destruct n_clicks as [k|]; [|done].
    destruct (Orderbook.get_mid_price (TradeSimulator.orderbook sim)) as [mid|] eqn:Hmid;
      [|done].
    destruct (decide (mid = 0)) as [Hz|Hnz]; [done|].
    rewrite (fdiv_nonzero _ _ Hnz). simpl.
    destruct (SimulatorFacts.simulate_nonempty sk sim side (quantity / mid) exchange
                market_type fee_tier volatility t0 t1 (mid_price_side_empty _ _ Hmid))
      as [[e ->]|[[est ->]|[d ->]]]; done.
  - intros panel. destruct n_clicks as [k|]; [|done].
    destruct (Orderbook.get_mid_price (TradeSimulator.orderbook sim)) as [mid|] eqn:Hmid;
      [|done].
    destruct (decide (mid = 0)) as [Hz|Hnz]; [done|].
    rewrite (fdiv_nonzero _ _ Hnz). simpl.
    destruct (TradeSimulator.simulate_market_order sk sim side (quantity / mid) exchange
                market_type fee_tier volatility t0 t1) as [r|e] eqn:Hsim;
      simpl; [|done].
    intros Hpanel. split; [by eexists|].
    assert (exists d, TradeSimulator.returned r = Some d /\ panel = Dashboard.format d)
      as (d & Hd & ->).
    { destruct r as [est|msg|d]; simpl in Hpanel; [| done |].
      - injection Hpanel as <-. by eexists.
      - injection Hpanel as <-. by eexists. }
    exists mid, r, d. split; [done|]. split; [done|]. split; [done|].
    split; [done|]. split; [done|].
    apply SimulatorFacts.simulate_inv in Hsim
      as (mid' & spread & imb & mp & f & sl & mi & shift
          & Hmid' & _ & _ & _ & _ & _ & _ & _ & ->);
      [|by apply (mid_price_side_empty _ mid)].
    rewrite Hmid in Hmid'. injection Hmid' as <-.
    rewrite SimulatorFacts.returned_dictionary in Hd. injection Hd as <-.
    cbn [TradeSimulator.quantity TradeSimulator.order_value].
    split; [done|]. field. done.
  - intros mid [k ->] Hmid Hpos Hmt Hsl Hfee. rewrite Hmid.
    rewrite decide_False by lra. rewrite fdiv_nonzero by lra. simpl.
    destruct (simulate_heuristic sk sim side (quantity / mid) exchange market_type
                fee_tier volatility t0 t1 (mid_price_side_empty _ _ Hmid) Hmt Hsl Hfee)
      as (mid' & spread & imb & mp & f & mi & Hmid' & _ & _ & _ & Hf & Hmi & Hsim).
    rewrite Hmid in Hmid'. injection Hmid' as <-.
    cbv zeta in Hsim.
    remember (TradeSimulator.mk_estimate _ _ _ _ _ _ _ _ _ _ _ _ _ _ _ _ _) as d eqn:Ed
      in Hsim.
    rewrite Hsim.
    exists (Dashboard.format d). split.
    { pose proof (SimulatorFacts.returned_dictionary d) as Hret.
      destruct (TradeSimulator.dictionary d) as [est|msg|d']; simpl in Hret; [|done|].
      - injection Hret as <-. done.
      - injection Hret as <-. done. }
    assert (quantity / mid * mid = quantity) as Hvalue by (field; lra).
    subst d.
    cbn [Dashboard.format Dashboard.slippage_output Dashboard.net_cost_output
         Dashboard.fees_output Dashboard.market_impact_output
         TradeSimulator.slippage TradeSimulator.slippage_percentage
         TradeSimulator.net_cost TradeSimulator.net_cost_percentage
         TradeSimulator.fees TradeSimulator.market_impact
         TradeSimulator.market_impact_percentage fst snd].
    rewrite !Hvalue. split.
    + intros Hq.
      assert (0 <= quantity / mid) as Hbase.
      { apply Rmult_le_pos; [done|]. left. by apply Rinv_0_lt_compat. }
      rewrite HeuristicFacts.slippage_fallback_value_above by lra.
      destruct (decide (quantity > 0)) as [Hgt|Hle]; simpl.
      * rewrite !(decide_False (P := quantity = 0)) by lra. done.
      * done.
    + intros ->. rewrite !(decide_False (P := 0 > 0)) by lra.
      split; [done|]. split; [done|].
      apply EstimateFacts.calculate_fee_inv in Hf
        as (mr & tr & _ & _ & Hmf & Htf & Htotal & Heff).
      apply EstimateFacts.calculate_market_impact_inv in Hmi
        as (_ & Htemp & Hperm & Hrisk & Himpact).
      rewrite decide_False in Heff by lra.
      assert (0 / mid = 0) as Hzero by (unfold Rdiv; ring).
      rewrite Hzero in *.
      split.
      * f_equal; [|lra]. rewrite Htotal, Hmf, Htf. ring.
      * f_equal. rewrite Himpact, Htemp, Hperm, Hrisk. unfold Rdiv. ring.
Qed.

Lemma dashboard_simulate_order_witness :
  exists panel,
    Dashboard.simulate_order Sklearn.constant_predictors sample_simulator (Some 1%nat)
      "OKX" "spot" "buy" 0 0.01 "VIP0" 0 1 = Return (Dashboard.Filled panel) /\
    Dashboard.fees_output panel = (0, 0) /\
    Dashboard.market_impact_output panel = (0, 0) /\
    Np.is_finite (Dashboard.net_cost_output panel).1 = true.
Proof.
  destruct (dashboard_simulate_order Sklearn.constant_predictors sample_simulator
              (Some 1%nat) "OKX" "spot" "buy" 0 0.01 "VIP0" 0 1)
    as (_ & _ & Hfills).
  destruct (Hfills 45000) as (panel & Hpanel & Hfinite & Hzero).
  - by eexists.
  - unfold Orderbook.get_mid_price. simpl. f_equal. lra.
  - lra.
  - reflexivity.
  - reflexivity.
  - apply FeeFacts.complete_init.
  - exists panel. split; [exact Hpanel|].
    destruct (Hzero eq_refl) as (_ & _ & Hfees & Himpact).
    destruct (Hfinite ltac:(lra)) as (_ & _ & Hnet & _).
    done.
Defined.
